(** * alibaba-cloud-csi-driver: node servers and metadata resolver

    A shallow embedding of
      - pkg/cloud/metadata/metadata.go and k8s.go (the provider chain),
      - pkg/disk/nodeserver.go and pkg/ens/nodeserver.go (the node-side
        volume lifecycle),
      - the mounter and the OpenAPI client configuration of pkg/utils,
    followed by the properties proved about them.

    Go values are modelled as the code has them: a Go string is a [string]
    (a sequence of bytes), a [(T, error)] result is a pair whose second
    component is [None] for a nil error, a [map[string]string] is a
    [gmap string string]. *)

From Stdlib Require Import ZArith Lia Ascii.
From stdpp Require Import base option list strings gmap.

Local Open Scope string_scope.
Local Open Scope list_scope.

(** ** Go's [strings] package, the functions the sources call *)

Module strings.

(** [strings.HasPrefix(s, prefix)] *)
Definition HasPrefix (s prefix : string) : bool := String.prefix prefix s.

(** [strings.HasSuffix(s, suffix)] *)
Definition HasSuffix (s suffix : string) : bool :=
  String.prefix (String.rev suffix) (String.rev s).

(** [strings.Contains(s, substr)]; [bytes.Contains] on byte slices is the
    same function. *)
Fixpoint Contains (s substr : string) : bool :=
  HasPrefix s substr ||
  match s with
  | EmptyString => false
  | String _ rest => Contains rest substr
  end.

Fixpoint drop (n : nat) (s : string) : string :=
  match n, s with
  | O, _ => s
  | S n', String _ rest => drop n' rest
  | S _, EmptyString => EmptyString
  end.

(** [strings.Cut(s, sep)]: the text before and after the first [sep], and
    whether [sep] was found; [(s, "", false)] when it was not. *)
Fixpoint Cut (s sep : string) : string * string * bool :=
  if HasPrefix s sep then (EmptyString, drop (String.length sep) s, true)
  else match s with
       | EmptyString => (EmptyString, EmptyString, false)
       | String c rest =>
           let '(before, after, found) := Cut rest sep in
           (String c before, after, found)
       end.

Fixpoint SplitN (n : nat) (s sep : string) : list string :=
  match n with
  | O => [s]
  | S n' =>
      let '(before, after, found) := Cut s sep in
      if found then before :: SplitN n' after sep else [s]
  end.

(** [strings.Split(s, sep)] for a non-empty [sep] (every call in the
    sources passes a one-byte constant). *)
Definition Split (s sep : string) : list string :=
  SplitN (String.length s) s sep.

(** [strings.TrimPrefix(s, prefix)] *)
Definition TrimPrefix (s prefix : string) : string :=
  if HasPrefix s prefix then drop (String.length prefix) s else s.

(** [strings.Join(elems, sep)] *)
Fixpoint Join (elems : list string) (sep : string) : string :=
  match elems with
  | [] => EmptyString
  | [e] => e
  | e :: rest => e +:+ sep +:+ Join rest sep
  end.

End strings.

(** ** Mount options (pkg/ens/nodeserver.go, pkg/disk/nodeserver.go) *)

Module mountopts.

(** NOUUID is xfs fs mount opts *)
Definition NOUUID : string := "nouuid".

(** [hasMountOption]: whether the slice contains a mount option. *)
Fixpoint hasMountOption (options : list string) (opt : string) : bool :=
  match options with
  | [] => false
  | o :: rest => if String.eqb o opt then true else hasMountOption rest opt
  end.

(** The body of the [for _, opt := range mntFlags] loop. *)
Definition collect_step (options : list string) (opt : string) : list string :=
  if negb (hasMountOption options opt) then options ++ [opt] else options.

(** [collectMountOptions(fsType, mntFlags)]; the text of the function is
    the same in both packages. *)
Definition collectMountOptions (fsType : string) (mntFlags : list string)
  : list string :=
  let options := fold_left collect_step mntFlags [] in
  if String.eqb fsType "xfs" then
    if negb (hasMountOption options NOUUID) then options ++ [NOUUID]
    else options
  else options.

(** The spec's words, for comparison: keep the first occurrence of every
    flag and drop the later ones. *)
Fixpoint first_occurrences (l : list string) : list string :=
  match l with
  | [] => []
  | x :: rest =>
      x :: List.filter (fun y => negb (String.eqb y x)) (first_occurrences rest)
  end.

End mountopts.

(** ** The metadata resolver (pkg/cloud/metadata/metadata.go, k8s.go) *)

Module metadata.

(** [type MetadataKey int] and its constants. *)
Definition MetadataKey := Z.
Definition RegionID : MetadataKey := 0%Z.
Definition ZoneID : MetadataKey := 1%Z.
Definition InstanceID : MetadataKey := 2%Z.
Definition InstanceType : MetadataKey := 3%Z.
Definition Runtime : MetadataKey := 4%Z.

(** Possible values for Runtime *)
Definition MixRuntimeMode : string := "runc-runv".
Definition RuncRuntimeMode : string := "runc".

(** Go error values, as far as this package tells them apart.
    [ErrUnknownMetadataKey] is the package's sentinel, compared with [==];
    [errorString] stands for any error value of a collaborator;
    [failedError] is [fmt.Errorf("%T failed: %w", p.fetcher, err)];
    [aggregate] is what [utilerrors.NewAggregate] builds. *)
#[warnings="-register-all"]
Inductive error : Type :=
| ErrUnknownMetadataKey
| errorString (msg : string)
| failedError (fetcherType : string) (err : error)
| aggregate (errs : list error).

(** [err == ErrUnknownMetadataKey] *)
Definition isErrUnknownMetadataKey (err : error) : bool :=
  match err with ErrUnknownMetadataKey => true | _ => false end.

(** [utilerrors.NewAggregate(errlist)]: nil for an empty list. *)
Definition NewAggregate (errlist : list error) : option error :=
  match errlist with
  | [] => None
  | _ :: _ => Some (aggregate errlist)
  end.

(** What a call of [Get] does: it returns the Go pair [(value, err)], or
    it panics (a nil interface is called). *)
Inductive outcome : Type :=
| Returns (value : string) (err : option error)
| Panics.

Section Providers.
(** Everything outside the process that a provider or a fetcher may
    read: the node object in the API server, the instance metadata
    service, the OpenAPI endpoint. *)
Context {W : Type}.

(** [type MetadataProvider interface { Get(key) (string, error) }].
    Providers are used through pointers and keep state (a cache, a
    pinned client); the receiver after the call is returned with the
    result. *)
Class MetadataProvider (P : Type) :=
  Get : P -> MetadataKey -> W -> outcome * P * W.

(** [type MetadataFetcher interface { FetchFor(key) (MetadataProvider,
    error) }]; [fetcherType] is what [%T] prints. *)
Class MetadataFetcher (F P : Type) := {
  FetchFor : F -> MetadataKey -> W -> (option P * option error) * W;
  fetcherType : F -> string
}.

(** *** [lazyInitProvider] *)

Record lazyInitProvider (F P : Type) := mkLazy {
  provider : option P;
  err : option error;
  fetcher : option F
}.
Arguments mkLazy {F P}.
Arguments provider {F P}.
Arguments err {F P}.
Arguments fetcher {F P}.

(** What [lazyInitProvider.Get] does besides computing its result, in
    the order it does it. *)
Inductive lazyEvent (P : Type) : Type :=
| EvCall (key : MetadataKey)
| EvLock
| EvFetched (key : MetadataKey) (provider : option P) (err : option error)
| EvUnlock
| EvReturn (o : outcome).
Arguments EvCall {P}.
Arguments EvLock {P}.
Arguments EvFetched {P}.
Arguments EvUnlock {P}.
Arguments EvReturn {P}.

Section Lazy.
Context {F P : Type} {MF : MetadataFetcher F P} {MP : MetadataProvider P}.

Definition uninitialized (p : lazyInitProvider F P) : bool :=
  match provider p, err p with
  | None, None => true
  | _, _ => false
  end.

(** The tail of [Get], after the initialisation block:
    [if p.err != nil { return "", p.err }; return p.provider.Get(key)] *)
Definition lazy_finish (p : lazyInitProvider F P) (key : MetadataKey) (w : W)
  : outcome * lazyInitProvider F P * W :=
  match err p with
  | Some e => (Returns "" (Some e), p, w)
  | None =>
      match provider p with
      | None => (Panics, p, w)
      | Some inner =>
          let '(o, inner', w') := Get inner key w in
          (o, mkLazy (Some inner') (err p) (fetcher p), w')
      end
  end.

(** [func (p *lazyInitProvider) Get(key MetadataKey) (string, error)],
    with the trace of what it did. Calls are taken one at a time, so
    the second test of the double-checked lock sees what the first
    one saw. *)
Definition lazy_Get_traced (p : lazyInitProvider F P) (key : MetadataKey) (w : W)
  : outcome * lazyInitProvider F P * W * list (lazyEvent P) :=
  if uninitialized p then
    (* p.initMu.Lock(); if p.provider == nil && p.err == nil { *)
    match fetcher p with
    | None => (Panics, p, w, [EvCall key; EvLock])
    | Some f =>
        let '((provider', err'), w1) := FetchFor f key w in
        match err' with
        | Some ErrUnknownMetadataKey =>
            (* p.initMu.Unlock(); return "", err *)
            let o := Returns "" (Some ErrUnknownMetadataKey) in
            (o, p, w1,
             [EvCall key; EvLock; EvFetched key provider' err'; EvUnlock;
              EvReturn o])
        | _ =>
            let err'' := failedError (fetcherType f) <$> err' in
            let p1 := mkLazy provider' err'' None in
            let '(o, p2, w2) := lazy_finish p1 key w1 in
            (o, p2, w2,
             [EvCall key; EvLock; EvFetched key provider' err'; EvUnlock;
              EvReturn o])
        end
    end
  else
    let '(o, p', w') := lazy_finish p key w in
    (o, p', w', [EvCall key; EvReturn o]).

#[global] Instance lazyInitProvider_Get : MetadataProvider (lazyInitProvider F P) :=
  fun p key w => (lazy_Get_traced p key w).1.

(** A sequence of [Get] calls on one provider, one after the other,
    with the trace of each call; a panic ends it. *)
Fixpoint lazy_run (p : lazyInitProvider F P) (keys : list MetadataKey) (w : W)
  : list (list (lazyEvent P)) * lazyInitProvider F P * W :=
  match keys with
  | [] => ([], p, w)
  | key :: rest =>
      let '(o, p', w', tr) := lazy_Get_traced p key w in
      match o with
      | Panics => ([tr], p', w')
      | Returns _ _ =>
          let '(calls, p'', w'') := lazy_run p' rest w' in
          (tr :: calls, p'', w'')
      end
  end.

(** The event is a call of [FetchFor]. *)
Definition is_fetch (ev : lazyEvent P) : bool :=
  match ev with EvFetched _ _ _ => true | _ => false end.

(** The event is a call of [FetchFor] that constructed: it came back
    with a provider or with an error of the construction, not with the
    fetcher's refusal of the key. *)
Definition is_construction (ev : lazyEvent P) : bool :=
  match ev with
  | EvFetched _ _ (Some ErrUnknownMetadataKey) => false
  | EvFetched _ _ _ => true
  | _ => false
  end.
End Lazy.

(** *** [immutableProvider] *)

Record immutableProvider (P : Type) := mkImmutable {
  imm_provider : P;
  imm_name : string;
  imm_values : gmap Z string
}.
Arguments mkImmutable {P}.
Arguments imm_provider {P}.
Arguments imm_name {P}.
Arguments imm_values {P}.

(** [func (p *immutableProvider) Get(key MetadataKey) (string, error)] *)
#[global] Instance immutableProvider_Get {P} {MP : MetadataProvider P}
  : MetadataProvider (immutableProvider P) :=
  fun p key w =>
    match imm_values p !! key with
    | Some v => (Returns v None, p, w)
    | None =>
        let '(o, inner', w') := Get (imm_provider p) key w in
        match o with
        | Panics => (Panics, mkImmutable inner' (imm_name p) (imm_values p), w')
        | Returns _ (Some e) =>
            (Returns "" (Some e),
             mkImmutable inner' (imm_name p) (imm_values p), w')
        | Returns v None =>
            (Returns v None,
             mkImmutable inner' (imm_name p) (<[key := v]> (imm_values p)), w')
        end
    end.

Definition newImmutableProvider {P} (provider : P) (name : string)
  : immutableProvider P :=
  mkImmutable provider name ∅.

(** *** [Metadata], the chain *)

Record Metadata (P : Type) := mkMetadata { providers : list P }.
Arguments mkMetadata {P}.
Arguments providers {P}.

(** The loop of [Metadata.Get] over the providers still to try, with the
    errors collected so far, and what follows the loop. *)
Fixpoint Get_loop {P} {MP : MetadataProvider P}
    (ps : list P) (key : MetadataKey) (errors : list error) (w : W)
  : outcome * list P * W :=
  match ps with
  | [] =>
      (match errors with
       | [] => Returns "" (Some ErrUnknownMetadataKey)
       | _ :: _ => Returns "" (NewAggregate errors)
       end, [], w)
  | p :: rest =>
      let '(o, p', w') := Get p key w in
      match o with
      | Panics => (Panics, p' :: rest, w')
      | Returns v None => (Returns v None, p' :: rest, w')
      | Returns _ (Some e) =>
          let errors' :=
            if isErrUnknownMetadataKey e then errors else errors ++ [e] in
          let '(o', rest', w'') := Get_loop rest key errors' w' in
          (o', p' :: rest', w'')
      end
  end.

(** Every provider of [ps], called in this order from [w], returns an
    error: [errs] are the errors in order, [ps'] the providers and [w']
    the world after the calls. *)
Inductive all_fail {P} {MP : MetadataProvider P} (key : MetadataKey)
  : list P -> W -> list error -> list P -> W -> Prop :=
| all_fail_nil w : all_fail key [] w [] [] w
| all_fail_cons p ps w v e p' w' errs ps' w'' :
    Get p key w = (Returns v (Some e), p', w') ->
    all_fail key ps w' errs ps' w'' ->
    all_fail key (p :: ps) w (e :: errs) (p' :: ps') w''.

(** The errors that are not the unknown-key sentinel. *)
Definition collected (errs : list error) : list error :=
  List.filter (fun e => negb (isErrUnknownMetadataKey e)) errs.

(** [func (m *Metadata) Get(key MetadataKey) (string, error)] *)
#[global] Instance Metadata_Get {P} {MP : MetadataProvider P}
  : MetadataProvider (Metadata P) :=
  fun m key w =>
    let '(o, ps, w') := Get_loop (providers m) key [] w in
    (o, mkMetadata ps, w').

End Providers.

Arguments mkLazy {F P}.
Arguments provider {F P}.
Arguments err {F P}.
Arguments fetcher {F P}.
Arguments EvCall {P}.
Arguments EvLock {P}.
Arguments EvFetched {P}.
Arguments EvUnlock {P}.
Arguments EvReturn {P}.
Arguments mkImmutable {P}.
Arguments imm_provider {P}.
Arguments imm_name {P}.
Arguments imm_values {P}.
Arguments mkMetadata {P}.
Arguments providers {P}.

(** *** The Kubernetes node labels source (k8s.go) *)

Definition RegionIDLabels : list string :=
  ["topology.kubernetes.io/region";
   "failure-domain.beta.kubernetes.io/region";
   "alibabacloud.com/ecs-region-id";
   "sigma.ali/ecs-region-id"].
Definition ZoneIDLabels : list string :=
  ["topology.kubernetes.io/zone";
   "failure-domain.beta.kubernetes.io/zone";
   "alibabacloud.com/ecs-zone-id";
   "sigma.ali/ecs-zone-id"].
Definition InstanceTypeLabels : list string :=
  ["node.kubernetes.io/instance-type";
   "beta.kubernetes.io/instance-type";
   "sigma.ali/machine-model"].

(** [InstanceIdLabels] after the package's [init]: the value of
    NODE_LABEL_ECS_ID_KEY, when set, is put in front. *)
Definition InstanceIdLabels (envInstanceIdKey : string) : list string :=
  if String.eqb envInstanceIdKey "" then ["alibabacloud.com/ecs-instance-id"]
  else envInstanceIdKey :: ["alibabacloud.com/ecs-instance-id"].

(** [MetadataLabels[key]], with whether the key is in the map. *)
Definition MetadataLabels (envInstanceIdKey : string) (key : MetadataKey)
  : option (list string) :=
  if Z.eqb key RegionID then Some RegionIDLabels
  else if Z.eqb key ZoneID then Some ZoneIDLabels
  else if Z.eqb key InstanceType then Some InstanceTypeLabels
  else if Z.eqb key InstanceID then Some (InstanceIdLabels envInstanceIdKey)
  else None.

(** The part of [v1.Node] that is read. *)
Record Node := mkNode {
  Labels : gmap string string;
  ProviderID : string
}.

Record KubernetesNodeMetadata := mkKubernetesNodeMetadata {
  node : Node;
  (* the package variable MetadataLabels depends on the environment *)
  k8s_envInstanceIdKey : string
}.

(** [m.node.Labels[label]] for a label that may be missing. *)
Definition label (n : Node) (l : string) : string := default "" (Labels n !! l).

(** The first label of the list that the node has. *)
Fixpoint first_label (n : Node) (labels : list string) : option string :=
  match labels with
  | [] => None
  | l :: rest =>
      match Labels n !! l with
      | Some value => Some value
      | None => first_label n rest
      end
  end.

(** [func (m *KubernetesNodeMetadata) Get(key MetadataKey) (string, error)] *)
Definition KubernetesNodeMetadata_Get (m : KubernetesNodeMetadata) (key : MetadataKey)
  : string * option error :=
  if Z.eqb key Runtime then
    if String.eqb (label (node m) "alibabacloud.com/container-runtime")
                  "Sandboxed-Container.runv"
       && strings.HasPrefix
            (label (node m) "alibabacloud.com/container-runtime-version") "1."
    then (MixRuntimeMode, None)
    else (RuncRuntimeMode, None)
  else
    let labels := default [] (MetadataLabels (k8s_envInstanceIdKey m) key) in
    match first_label (node m) labels with
    | Some value => (value, None)
    | None =>
        match strings.Split (ProviderID (node m)) "." with
        | [seg0; seg1] =>
            if Z.eqb key RegionID then
              (strings.TrimPrefix seg0 "alicloud://", None)
            else if Z.eqb key InstanceID then (seg1, None)
            else ("", Some ErrUnknownMetadataKey)
        | _ => ("", Some ErrUnknownMetadataKey)
        end
    end.

Record KubernetesMetadataFetcher := mkKubernetesMetadataFetcher {
  nodeName : string;
  fetcher_envInstanceIdKey : string
}.

Section Kubernetes.
Context {W : Type}.

(** [corev1.NodeInterface.Get(ctx, name, opts)]: the node, or an error. *)
Class NodeInterface := NodeInterface_Get : string -> W -> (Node + error) * W.
Context {NI : NodeInterface}.

#[global] Instance KubernetesNodeMetadata_provider
  : MetadataProvider (W:=W) KubernetesNodeMetadata :=
  fun m key w =>
    let '(v, e) := KubernetesNodeMetadata_Get m key in (Returns v e, m, w).

(** [NewKubernetesNodeMetadata(nodeName, nodeClient)] *)
Definition NewKubernetesNodeMetadata (nodeName envKey : string) (w : W)
  : (KubernetesNodeMetadata + error) * W :=
  match NodeInterface_Get nodeName w with
  | (inr e, w') => (inr e, w')
  | (inl n, w') => (inl (mkKubernetesNodeMetadata n envKey), w')
  end.

(** [func (f *KubernetesMetadataFetcher) FetchFor(key)] *)
Definition KubernetesMetadataFetcher_FetchFor
    (f : KubernetesMetadataFetcher) (key : MetadataKey) (w : W)
  : (option (immutableProvider KubernetesNodeMetadata) * option error) * W :=
  let ok := bool_decide (is_Some (MetadataLabels (fetcher_envInstanceIdKey f) key)) in
  if negb ok && negb (Z.eqb key Runtime) then
    ((None, Some ErrUnknownMetadataKey), w)
  else
    match NewKubernetesNodeMetadata (nodeName f) (fetcher_envInstanceIdKey f) w with
    | (inr e, w') => ((None, Some e), w')
    | (inl p, w') => ((Some (newImmutableProvider p "Kubernetes"), None), w')
    end.

#[global] Instance KubernetesMetadataFetcher_fetcher
  : MetadataFetcher (W:=W) KubernetesMetadataFetcher
                    (immutableProvider KubernetesNodeMetadata) := {
  FetchFor := KubernetesMetadataFetcher_FetchFor;
  fetcherType := fun _ => "*metadata.KubernetesMetadataFetcher"
}.

(** The provider that [EnableKubernetes] appends. *)
Definition kubernetesProvider (nodeName envKey : string)
  : lazyInitProvider KubernetesMetadataFetcher
                     (immutableProvider KubernetesNodeMetadata) :=
  mkLazy None None (Some (mkKubernetesMetadataFetcher nodeName envKey)).

End Kubernetes.

End metadata.

(** ** The chain as the process stores it

    [Metadata.providers] is a Go slice of interface values that point to
    provider objects. [EnableOpenAPI] copies the slice header into [mPre]
    and then appends to [m.providers]: the two headers may share one
    backing array. Slices, backing arrays and objects are modelled as Go has
    them. *)

Module resolver.
Import metadata.

(** A pointer to a provider object: its index in the heap. *)
Abbreviation ptr := nat.

(** A slice header: the backing array (its index in the heap), the
    length and the capacity. *)
Record slice := mkSlice { array : nat; len : nat; cap : nat }.

(** The fetchers of metadata.go, with the fields that refer to the chain.
    [mPre] is the [providers] field of the [Metadata] value that
    [&mPre] points to; that value is never assigned to again. *)
Inductive fetcherObj : Type :=
| EcsFetcher
| KubernetesMetadataFetcher (nodeName : string)
| OpenAPIFetcher (mPre : slice).

Inductive object : Type :=
| ENVMetadata
| immutableProviderObj (provider : ptr) (name : string) (values : gmap Z string)
| lazyInitProviderObj (p : lazyInitProvider fetcherObj ptr).

(** The objects and the backing arrays allocated so far. An array slot
    holds an interface value, [None] for nil. *)
Record heap := mkHeap {
  objects : list object;
  arrays : list (list (option ptr))
}.

(** [type Metadata struct { providers []MetadataProvider }] *)
Record Metadata := mkMetadata { providers : slice }.

Definition DISABLE_ECS_ENV : string := "ALIBABA_CLOUD_NO_ECS_METADATA".
Definition KUBE_NODE_NAME_ENV : string := "KUBE_NODE_NAME".

(** [&T{...}]: a new object, after the ones that exist. *)
Definition new_object (o : object) (h : heap) : ptr * heap :=
  (length (objects h), mkHeap (objects h ++ [o]) (arrays h)).

(** The elements of a slice: the first [len] slots of its array. *)
Definition elems (h : heap) (s : slice) : list (option ptr) :=
  take (len s) (default [] (arrays h !! array s)).

Section Append.
(** The capacity the runtime chooses when [append] has to grow a slice
    of capacity [cap] to hold [needed] elements; Go promises only that
    it is enough. *)
Variable growslice : nat -> nat -> nat.

(** [append(s, x)]: in place when the capacity allows, else into a new
    array that starts with a copy of the elements. *)
Definition append (s : slice) (x : ptr) (h : heap) : slice * heap :=
  if Nat.ltb (len s) (cap s) then
    (mkSlice (array s) (S (len s)) (cap s),
     mkHeap (objects h)
            (alter (fun a => <[len s := Some x]> a) (array s) (arrays h)))
  else
    let newcap := growslice (cap s) (S (len s)) in
    (mkSlice (length (arrays h)) (S (len s)) newcap,
     mkHeap (objects h)
            (arrays h ++ [elems h s ++ Some x :: replicate (newcap - S (len s)) None])).

(** [NewMetadata()]: the chain starts with the environment provider,
    in a slice literal of one element. *)
Definition NewMetadata : Metadata * heap :=
  (mkMetadata (mkSlice 0 1 1),
   mkHeap [ENVMetadata; immutableProviderObj 0 "env" ∅] [[Some 1]]).

(** [m.providers = append(m.providers, &lazyInitProvider{fetcher: f})] *)
Definition append_lazy (f : fetcherObj) (m : Metadata) (h : heap)
  : Metadata * heap :=
  let '(p, h1) := new_object (lazyInitProviderObj (mkLazy None None (Some f))) h in
  let '(s, h2) := append (providers m) p h1 in
  (mkMetadata s, h2).

Section Enable.
(** [os.Getenv] *)
Variable Getenv : string -> string.

(** [func (m *Metadata) EnableEcs(httpRT http.RoundTripper)] *)
Definition EnableEcs (m : Metadata) (h : heap) : Metadata * heap :=
  if negb (String.eqb (Getenv DISABLE_ECS_ENV) "") then (m, h)
  else append_lazy EcsFetcher m h.

(** [func (m *Metadata) EnableKubernetes(nodeClient corev1.NodeInterface)] *)
Definition EnableKubernetes (m : Metadata) (h : heap) : Metadata * heap :=
  let nodeName := Getenv KUBE_NODE_NAME_ENV in
  if String.eqb nodeName "" then (m, h)
  else append_lazy (KubernetesMetadataFetcher nodeName) m h.

(** [func (m *Metadata) EnableOpenAPI(ecsClient cloud.ECSInterface)] *)
Definition EnableOpenAPI (m : Metadata) (h : heap) : Metadata * heap :=
  let mPre := mkMetadata (providers m) in
  append_lazy (OpenAPIFetcher (providers mPre)) m h.

(** The calls that change the chain. *)
Inductive call : Type :=
| CallEnableEcs
| CallEnableKubernetes
| CallEnableOpenAPI.

Definition run_call (c : call) (mh : Metadata * heap) : Metadata * heap :=
  match c with
  | CallEnableEcs => EnableEcs mh.1 mh.2
  | CallEnableKubernetes => EnableKubernetes mh.1 mh.2
  | CallEnableOpenAPI => EnableOpenAPI mh.1 mh.2
  end.

Definition run_calls (cs : list call) (mh : Metadata * heap)
  : Metadata * heap :=
  fold_left (fun mh c => run_call c mh) cs mh.
End Enable.
End Append.

(** [p] may call [Get] of [p']: [p'] is the provider an immutable
    provider wraps, the provider a lazy one has pinned, or an element of
    the chain its OpenAPI fetcher was given. *)
Inductive consults (h : heap) (p p' : ptr) : Prop :=
| consults_immutable name values :
    objects h !! p = Some (immutableProviderObj p' name values) ->
    consults h p p'
| consults_pinned e f :
    objects h !! p = Some (lazyInitProviderObj (mkLazy (Some p') e f)) ->
    consults h p p'
| consults_mPre pr e mPre :
    objects h !! p = Some (lazyInitProviderObj (mkLazy pr e (Some (OpenAPIFetcher mPre)))) ->
    Some p' ∈ elems h mPre ->
    consults h p p'.

End resolver.

(** ** The node servers: errors, collaborators, state *)

Module node.

(** The gRPC status codes the handlers return. *)
Inductive Code : Type := InvalidArgument | NotFound | Aborted | Internal.

(** An error value of a collaborator: its text, and whether
    [errors.Is(err, fs.ErrNotExist)] holds of it. *)
Record goerror := mkError { Error : string; IsNotExist : bool }.

(** The error a handler returns: [status.Error(code, ...)] (the text of
    the message is not modelled), or a collaborator's error passed on
    unchanged. *)
Inductive error : Type :=
| Status (code : Code)
| Err (e : goerror).

(** What a handler returns: [(resp, nil)] or [(nil, err)]. *)
Inductive reply (Resp : Type) : Type :=
| OK (resp : Resp)
| Fail (e : error).
Arguments OK {Resp}.
Arguments Fail {Resp}.

(** [*csi.VolumeCapability]: the access type, [None] when it is not set. *)
Inductive AccessType : Type :=
| Block
| MountVolume (FsType : string) (MountFlags : list string).

(** [req.GetVolumeCapability().GetBlock() != nil] *)
Definition isBlockCapability (c : option AccessType) : bool :=
  match c with Some Block => true | _ => false end.

Record NodeStageVolumeRequest := mkStageRequest {
  stage_VolumeId : string;
  stage_StagingTargetPath : string;
  stage_VolumeCapability : option AccessType;
  stage_VolumeContext : gmap string string
}.

Record NodeUnstageVolumeRequest := mkUnstageRequest {
  unstage_VolumeId : string;
  unstage_StagingTargetPath : string
}.

Record NodePublishVolumeRequest := mkPublishRequest {
  publish_VolumeId : string;
  publish_StagingTargetPath : string;
  publish_TargetPath : string;
  publish_VolumeCapability : option AccessType;
  publish_VolumeContext : gmap string string;
  publish_Readonly : bool
}.

Record NodeExpandVolumeRequest := mkExpandRequest {
  expand_VolumeId : string;
  expand_VolumePath : string;
  (* req.GetCapacityRange().GetRequiredBytes(), an int64 *)
  expand_RequiredBytes : Z
}.

(** [csi.NodeExpandVolumeResponse] *)
Record NodeExpandVolumeResponse := mkExpandResponse { CapacityBytes : Z }.

(** The part of a PersistentVolumeClaim that is read. *)
Record PersistentVolumeClaim := mkPVC {
  pvc_DataSource : bool;                          (* Spec.DataSource != nil *)
  pvc_Annotations : option (gmap string string)
}.

(** Go's path functions and the constants that are declared outside the
    sources at hand. *)
Record Lib := mkLib {
  filepath_Join : string -> string -> string;
  filepath_Dir : string -> string;
  filepath_Base : string -> string;
  filepath_Clean : string -> string;
  path_Join : string -> string -> string;
  strings_ToLower : string -> string;
  strings_TrimSpace : string -> string;
  KubeletRootDir : string;             (* utils.KubeletRootDir *)
  VolDataFileName : string;            (* utils.VolDataFileName *)
  CsiPluginRunTimeFlagFile : string;   (* utils.CsiPluginRunTimeFlagFile *)
  MultiAttach : string;                (* disk.MultiAttach *)
  veasp_IDKey : string;                (* veasp.IDKey *)
  ens_VolumeDir : string;              (* ens.VolumeDir *)
  ens_VolumeDirRemove : string         (* ens.VolumeDirRemove *)
}.

(** The calls the handlers make on their collaborators (the mounter, the
    operating system, the attach client, and the functions of the
    repository that are outside these sources), each with the type of what
    comes back. A Go result [(x, err)] comes back as a pair. *)
Inductive Call : Type -> Type :=
(* k8s.io/mount-utils *)
| IsLikelyNotMountPoint (file : string) : Call (bool * option goerror)
| Mount (source target fstype : string) (options : list string)
  : Call (option goerror)
| Unmount (target : string) : Call (option goerror)
| GetDeviceNameFromMount (mountPath : string) : Call (string * option goerror)
| FormatAndMount (source target fstype : string) (options : list string)
  : Call (option goerror)
| NeedResize (devicePath deviceMountPath : string) : Call (bool * option goerror)
| Resize (devicePath deviceMountPath : string) : Call (bool * option goerror)
(* pkg/utils *)
| ValidateRequest (volumeContext : gmap string string) : Call bool
| EnsureFolder (target : string) : Call (option goerror)
| EnsureBlock (target : string) : Call (option goerror)
| MountBlock (source target : string) (options : list string)
  : Call (option goerror)
| utils_FormatAndMount (source target fstype : string)
    (mkfsOptions mountOptions : list string) (omitFsCheck : bool)
  : Call (option goerror)
| IsDirTmpfs (path : string) : Call (bool * option goerror)
| GetPodRunTime (req : NodePublishVolumeRequest) : Call (string * option goerror)
| CreateDest (dest : string) : Call (option goerror)
| WriteJSONFile (device volumeType identity mountfile runtime : string)
    (file : string) : Call (option goerror)
| AppendJSONData (file : string) (data : gmap string string)
  : Call (option goerror)
| LoadJSONData (file : string) : Call (gmap string string * option goerror)
| SetVolumeIOLimit (device : string) (req : NodePublishVolumeRequest)
  : Call (option goerror)
| IsKataInstall : Call bool
| IsFileExisting (path : string) : Call bool
| IsPathAvailable (path : string) : Call (option goerror)
| WriteTrunc (fileName value : string) : Call (option goerror)
(* os, os/exec, time *)
| MkdirAll (path : string) : Call (option goerror)
| Lstat (name : string) : Call (bool * option goerror)  (* Mode()&ModeDevice != 0 *)
| WriteFile (name data : string) : Call (option (goerror * option string))
| Rename (oldpath newpath : string) : Call (option goerror)
| TimeNowFormat : Call string          (* time.Now().Format("2006-01-02-15:04:05") *)
| growpart (rootPath index : string) : Call (string * option goerror)
(* pkg/disk, outside the sources *)
| GetRootBlockByVolumeID (volumeID : string) : Call (string * option goerror)
| GetDeviceByVolumeID (volumeID : string) : Call (string * option goerror)
| GetVolumeDeviceName (volumeID : string) : Call (string * option goerror)
| DevFor (device : string) : Call (Z * Z * option goerror)
| CheckDeviceAvailable (devicePath volumeID targetPath : string)
  : Call (option goerror)
| checkOption (value : string) : Call bool
| IsVFNode : Call bool
| IsVFInstance : Call bool
| bindBdfDisk (volumeID : string) : Call (string * option goerror)
| unbindBdfDisk (volumeID : string) : Call (option goerror)
| GetDeviceByBdf (bdf : string) (enLog : bool) : Call (string * option goerror)
| findBdf (volumeID : string) : Call (string * option goerror)
| clearBdfInfo (volumeID bdf : string) : Call (option goerror)
| attachDisk (tenantUserUID volumeID nodeID : string) (isSharedDisk : bool)
  : Call (string * option goerror)
| detachDisk (volumeID nodeID : string) : Call (option goerror)
| getEcsClientByID (volumeID : string) : Call (option goerror)
| disk_saveVolumeConfig (volumeID devicePath : string) : Call (option goerror)
| disk_removeVolumeConfig (volumeID : string) : Call (option goerror)
| disk_getVolumeConfig (volumeID : string) : Call string
| WriteSysfs (devicePath key value : string) : Call (option goerror)
| GetDeviceRootAndPartitionIndex (devicePath : string)
  : Call (string * string * option goerror)
| getBlockDeviceCapacity (devicePath : string) : Call Z
| getPvPvcFromDiskId (diskID : string)
  : Call (option PersistentVolumeClaim * option goerror)
| checkRundVolumeExpand (req : NodeExpandVolumeRequest)
  : Call (bool * option goerror)
| requestAndDeleteSnapshot (snapshotID : string) : Call (option goerror)
| updateVolumeExpandAutoSnapshotID (snapshotID : string) : Call (option goerror)
(* pkg/ens, outside the sources *)
| ens_getVolumeDeviceName (volumeID : string) : Call string
| ens_attachDisk (volumeID instanceID : string) : Call (string * option goerror)
| ens_detachDisk (volumeID instanceID : string) : Call (option goerror).

(** A log line that carries measurements (the other log lines are not
    modelled). *)
Inductive LogLine : Type :=
| LogNoNeedToGrow (request root partition : Z)
| LogExpandSuccessful (capacity : Z).

(** What a handler did: a call with what came back, or a log line. *)
Inductive Event : Type :=
| Ev {A : Type} (c : Call A) (a : A)
| Logged (line : LogLine).

(** *** Views of an event: the arguments and the answer of a call of one
    kind, [None] for any other event *)

Definition sel_Resize (ev : Event)
  : option (string * string * (bool * option goerror)) :=
  match ev with
  | Ev c a =>
      match c in Call A return A -> option _ with
      | Resize d p => fun a => Some (d, p, a)
      | _ => fun _ => None
      end a
  | Logged _ => None
  end.

Definition sel_getBlockDeviceCapacity (ev : Event) : option (string * Z) :=
  match ev with
  | Ev c a =>
      match c in Call A return A -> option _ with
      | getBlockDeviceCapacity d => fun a => Some (d, a)
      | _ => fun _ => None
      end a
  | Logged _ => None
  end.

Definition sel_growpart (ev : Event)
  : option (string * string * (string * option goerror)) :=
  match ev with
  | Ev c a =>
      match c in Call A return A -> option _ with
      | growpart r i => fun a => Some (r, i, a)
      | _ => fun _ => None
      end a
  | Logged _ => None
  end.

Definition sel_ens_detachDisk (ev : Event)
  : option (string * string * (option goerror)) :=
  match ev with
  | Ev c a =>
      match c in Call A return A -> option _ with
      | ens_detachDisk x0 x1 => fun a => Some (x0, x1, a)
      | _ => fun _ => None
      end a
  | Logged _ => None
  end.

Definition sel_detachDisk (ev : Event)
  : option (string * string * (option goerror)) :=
  match ev with
  | Ev c a =>
      match c in Call A return A -> option _ with
      | detachDisk x0 x1 => fun a => Some (x0, x1, a)
      | _ => fun _ => None
      end a
  | Logged _ => None
  end.

Definition sel_disk_removeVolumeConfig (ev : Event)
  : option (string * (option goerror)) :=
  match ev with
  | Ev c a =>
      match c in Call A return A -> option _ with
      | disk_removeVolumeConfig x0 => fun a => Some (x0, a)
      | _ => fun _ => None
      end a
  | Logged _ => None
  end.

Definition sel_disk_saveVolumeConfig (ev : Event)
  : option (string * string * (option goerror)) :=
  match ev with
  | Ev c a =>
      match c in Call A return A -> option _ with
      | disk_saveVolumeConfig x0 x1 => fun a => Some (x0, x1, a)
      | _ => fun _ => None
      end a
  | Logged _ => None
  end.

Definition sel_CheckDeviceAvailable (ev : Event)
  : option (string * string * string * (option goerror)) :=
  match ev with
  | Ev c a =>
      match c in Call A return A -> option _ with
      | CheckDeviceAvailable x0 x1 x2 => fun a => Some (x0, x1, x2, a)
      | _ => fun _ => None
      end a
  | Logged _ => None
  end.

Definition sel_attachDisk (ev : Event)
  : option (string * string * string * bool * (string * option goerror)) :=
  match ev with
  | Ev c a =>
      match c in Call A return A -> option _ with
      | attachDisk x0 x1 x2 x3 => fun a => Some (x0, x1, x2, x3, a)
      | _ => fun _ => None
      end a
  | Logged _ => None
  end.

Definition sel_ens_attachDisk (ev : Event)
  : option (string * string * (string * option goerror)) :=
  match ev with
  | Ev c a =>
      match c in Call A return A -> option _ with
      | ens_attachDisk x0 x1 => fun a => Some (x0, x1, a)
      | _ => fun _ => None
      end a
  | Logged _ => None
  end.

Definition sel_WriteTrunc (ev : Event)
  : option (string * string * (option goerror)) :=
  match ev with
  | Ev c a =>
      match c in Call A return A -> option _ with
      | WriteTrunc x0 x1 => fun a => Some (x0, x1, a)
      | _ => fun _ => None
      end a
  | Logged _ => None
  end.

Definition sel_WriteSysfs (ev : Event)
  : option (string * string * string * (option goerror)) :=
  match ev with
  | Ev c a =>
      match c in Call A return A -> option _ with
      | WriteSysfs x0 x1 x2 => fun a => Some (x0, x1, x2, a)
      | _ => fun _ => None
      end a
  | Logged _ => None
  end.

Definition sel_Mount (ev : Event)
  : option (string * string * string * list string * (option goerror)) :=
  match ev with
  | Ev c a =>
      match c in Call A return A -> option _ with
      | Mount x0 x1 x2 x3 => fun a => Some (x0, x1, x2, x3, a)
      | _ => fun _ => None
      end a
  | Logged _ => None
  end.

Definition sel_DevFor (ev : Event)
  : option (string * (Z * Z * option goerror)) :=
  match ev with
  | Ev c a =>
      match c in Call A return A -> option _ with
      | DevFor x0 => fun a => Some (x0, a)
      | _ => fun _ => None
      end a
  | Logged _ => None
  end.

Definition sel_GetVolumeDeviceName (ev : Event)
  : option (string * (string * option goerror)) :=
  match ev with
  | Ev c a =>
      match c in Call A return A -> option _ with
      | GetVolumeDeviceName x0 => fun a => Some (x0, a)
      | _ => fun _ => None
      end a
  | Logged _ => None
  end.

Definition sel_GetDeviceNameFromMount (ev : Event)
  : option (string * (string * option goerror)) :=
  match ev with
  | Ev c a =>
      match c in Call A return A -> option _ with
      | GetDeviceNameFromMount x0 => fun a => Some (x0, a)
      | _ => fun _ => None
      end a
  | Logged _ => None
  end.

Definition sel_SetVolumeIOLimit (ev : Event)
  : option (string * NodePublishVolumeRequest * (option goerror)) :=
  match ev with
  | Ev c a =>
      match c in Call A return A -> option _ with
      | SetVolumeIOLimit x0 x1 => fun a => Some (x0, x1, a)
      | _ => fun _ => None
      end a
  | Logged _ => None
  end.

Definition sel_Logged (ev : Event) : option LogLine :=
  match ev with
  | Logged line => Some line
  | Ev _ _ => None
  end.

(** The calls that mount or format. *)
Definition is_mount (ev : Event) : bool :=
  match ev with
  | Ev c _ =>
      match c with
      | Mount _ _ _ _ | FormatAndMount _ _ _ _ | MountBlock _ _ _
      | utils_FormatAndMount _ _ _ _ _ _ => true
      | _ => false
      end
  | Logged _ => false
  end.

Section Monad.
(** The state of the collaborators. *)
Context {W : Type}.

(** How the collaborators answer. *)
Class Collaborators := respond : forall A, Call A -> W -> A * W.
Context `{!Collaborators}.

(** The state a handler runs in: the collaborators, the files of the
    Device Record store (path to content; only [saveVolumeConfig] and
    [removeVolumeConfig] touch them), and what the handler has done so
    far. *)
Record State := mkState {
  world : W;
  files : gmap string string;
  trace : list Event
}.

(** A step of a handler whose result type is [R]: it goes on with a
    value, returns from the handler, or panics. *)
Inductive step (R A : Type) : Type :=
| Next (a : A)
| Return (r : R)
| Panic.
Arguments Next {R A}.
Arguments Return {R A}.
Arguments Panic {R A}.

Definition M (R A : Type) : Type := State -> step R A * State.

Definition ret {R A} (a : A) : M R A := fun s => (Next a, s).

Definition bind {R A B} (m : M R A) (k : A -> M R B) : M R B :=
  fun s =>
    match m s with
    | (Next a, s') => k a s'
    | (Return r, s') => (Return r, s')
    | (Panic, s') => (Panic, s')
    end.

(** [return r] *)
Definition exit {R A} (r : R) : M R A := fun s => (Return r, s).

Definition panic {R A} : M R A := fun s => (Panic, s).

(** A call on a collaborator, recorded with its answer. *)
Definition call {R A} (c : Call A) : M R A :=
  fun s =>
    let '(a, w) := respond A c (world s) in
    (Next a, mkState w (files s) (trace s ++ [Ev c a])).

Definition log {R} (line : LogLine) : M R unit :=
  fun s => (Next tt, mkState (world s) (files s) (trace s ++ [Logged line])).

Definition get_files {R} : M R (gmap string string) :=
  fun s => (Next (files s), s).

Definition put_files {R} (fs : gmap string string) : M R unit :=
  fun s => (Next tt, mkState (world s) fs (trace s)).

(** A handler, from the state of the collaborators and of the store:
    what it returns ([None] for a panic) and the state it leaves. *)
Definition run {R} (handler : M R R) (w : W) (fs : gmap string string)
  : option R * State :=
  match handler (mkState w fs []) with
  | (Next r, s) => (Some r, s)
  | (Return r, s) => (Some r, s)
  | (Panic, s) => (None, s)
  end.

End Monad.

Arguments Next {R A}.
Arguments Return {R A}.
Arguments Panic {R A}.
Arguments State : clear implicits.
Arguments M : clear implicits.

End node.

Declare Scope go_scope.
Delimit Scope go_scope with go.
Notation "'let*' x ':=' c 'in' k" := (node.bind c (fun x => k))
  (at level 10, x pattern, c at level 100, k at level 200) : go_scope.

(** ** pkg/ens/nodeserver.go *)

Module ens.
Import node.
Local Open Scope go_scope.

(** SysConfigTag tag *)
Definition SYS_CONFIG_TAG : string := "sysConfig".
(** MkfsOptions tag *)
Definition MKFS_OPTIONS : string := "mkfsOptions".
(** INPUT_OUTPUT_ERR tag *)
Definition INPUT_OUTPUT_ERR : string := "input/output error".

(** The fields of [GlobalConfigVar] that are read. *)
Record GlobalConfig := mkGlobalConfig {
  EnableAttachDetachController : string;
  InstanceID : string
}.

Section Handlers.
Context {W : Type} {C : Collaborators (W:=W)}.
Variable L : Lib.
Variable GlobalConfigVar : GlobalConfig.

(** [if err != nil { return nil, status.Error(code, ...) }] *)
Definition fail_if {Resp} (err : option goerror) (code : Code)
  : M W (reply Resp) unit :=
  match err with
  | Some _ => exit (Fail (Status code))
  | None => ret tt
  end.

(** [if err != nil { return nil, err }] *)
Definition pass_if {Resp} (err : option goerror) : M W (reply Resp) unit :=
  match err with
  | Some e => exit (Fail (Err e))
  | None => ret tt
  end.

(** *** The Device Record store *)

(** [utils.IsFileExisting] on a file of the store. *)
Definition store_IsFileExisting {R} (path : string) : M W R bool :=
  let* fs := get_files in ret (bool_decide (is_Some (fs !! path))).

(** [os.Rename] on files of the store: a missing source is an error;
    otherwise the operating system decides whether the rename fails (and
    then nothing changes) or the content moves, replacing what was at
    the new path. *)
Definition store_Rename {R} (oldpath newpath : string) : M W R (option goerror) :=
  let* fs := get_files in
  match fs !! oldpath with
  | None => ret (Some (mkError "no such file or directory" true))
  | Some content =>
      let* err := call (Rename oldpath newpath) in
      match err with
      | Some e => ret (Some e)
      | None =>
          let* _ := put_files (<[newpath := content]> (delete oldpath fs)) in
          ret None
      end
  end.

(** [os.WriteFile] on a file of the store: it writes the data, or fails
    and leaves what the operating system says (no file, or some
    content). *)
Definition store_WriteFile {R} (name data : string) : M W R (option goerror) :=
  let* fs := get_files in
  let* r := call (WriteFile name data) in
  match r with
  | None => let* _ := put_files (<[name := data]> fs) in ret None
  | Some (e, Some remains) =>
      let* _ := put_files (<[name := remains]> fs) in ret (Some e)
  | Some (e, None) => let* _ := put_files (delete name fs) in ret (Some e)
  end.

(** [func removeVolumeConfig(volumeID string) error]:
    move config file to remove dir *)
Definition removeVolumeConfig {R} (volumeID : string) : M W R (option goerror) :=
  let volumeFile := path_Join L (ens_VolumeDir L) (volumeID +:+ ".conf") in
  let* existing := store_IsFileExisting volumeFile in
  if existing : bool then
    let* timeStr := call TimeNowFormat in
    let removeFile :=
      path_Join L (ens_VolumeDirRemove L)
                (volumeID +:+ "-" +:+ timeStr +:+ ".conf") in
    store_Rename volumeFile removeFile
  else ret None.

(** [func saveVolumeConfig(volumeID, devicePath string) error]:
    save diskID and volume name *)
Definition saveVolumeConfig {R} (volumeID devicePath : string)
  : M W R (option goerror) :=
  let* err := call (CreateDest (ens_VolumeDir L)) in
  match err with
  | Some e => ret (Some e)
  | None =>
      let* err := call (CreateDest (ens_VolumeDirRemove L)) in
      match err with
      | Some e => ret (Some e)
      | None =>
          let* err := removeVolumeConfig volumeID in
          match err with
          | Some e => ret (Some e)
          | None =>
              let volumeFile :=
                path_Join L (ens_VolumeDir L) (volumeID +:+ ".conf") in
              store_WriteFile volumeFile devicePath
          end
      end
  end.

(** *** NodeStageVolume *)

(** The loop over the entries of the sysConfig option. *)
Fixpoint sysConfig_loop (device : string) (configList : list string)
  : M W (reply unit) unit :=
  match configList with
  | [] => ret tt
  | configStr :: rest =>
      let '(key, value, found) := strings.Cut configStr "=" in
      if negb found then exit (Fail (Status Aborted))
      else
        let base := "/sys/block/" +:+ filepath_Base L device +:+ "/" in
        let fileName := filepath_Clean L (base +:+ key) in
        if negb (strings.HasPrefix fileName base) then
          (* invalid relative path in sysConfig *)
          exit (Fail (Status Aborted))
        else
          let* err := call (WriteTrunc fileName value) in
          let* _ := fail_if err Internal in
          sysConfig_loop device rest
  end.

Definition NodeStageVolume (req : NodeStageVolumeRequest)
  : M W (reply unit) (reply unit) :=
  let isBlock := isBlockCapability (stage_VolumeCapability req) in
  let* targetPath :=
    if isBlock then
      let targetPath :=
        filepath_Join L (stage_StagingTargetPath req) (stage_VolumeId req) in
      let* (notMounted, err) := call (IsLikelyNotMountPoint targetPath) in
      let* _ := match err with
                | Some e => if negb (IsNotExist e)
                            then exit (Fail (Status Internal)) else ret tt
                | None => ret tt
                end in
      let* _ := if negb notMounted then exit (OK tt) else ret tt in
      let* err := call (EnsureBlock targetPath) in
      let* _ := fail_if err Internal in
      ret targetPath
    else
      let* err := call (MkdirAll (stage_StagingTargetPath req)) in
      let* _ := fail_if err Internal in
      ret (stage_StagingTargetPath req) in
  (* Step 2: check target path mounted *)
  let* (notmounted, err) := call (IsLikelyNotMountPoint targetPath) in
  let* _ := fail_if err Internal in
  let* _ :=
    if negb notmounted then
      (* if target path is mounted tmpfs, return *)
      let* (isTmpfs, err) := call (IsDirTmpfs (stage_StagingTargetPath req)) in
      let* _ := fail_if err Internal in
      let* _ := if isTmpfs : bool then exit (OK tt) else ret tt in
      (* check device available *)
      let* (deviceName, err) := call (GetDeviceNameFromMount targetPath) in
      let* _ := fail_if err Internal in
      let* err := call (CheckDeviceAvailable deviceName (stage_VolumeId req)
                                             targetPath) in
      let* _ := fail_if err Internal in
      exit (OK tt)
    else ret tt in
  (* Step 4 Attach volume; in the controller branch the source tests
     the [err] of step 2, which is nil here *)
  let* device :=
    if String.eqb (EnableAttachDetachController GlobalConfigVar) "true" then
      call (ens_getVolumeDeviceName (stage_VolumeId req))
    else
      let* (device, err) :=
        call (ens_attachDisk (stage_VolumeId req) (InstanceID GlobalConfigVar)) in
      let* _ := fail_if err Aborted in
      ret device in
  let* err := call (CheckDeviceAvailable device (stage_VolumeId req) targetPath) in
  let* _ := fail_if err Internal in
  let* err := saveVolumeConfig (stage_VolumeId req) device in
  let* _ := fail_if err Aborted in
  (* sysConfig *)
  let* _ :=
    match stage_VolumeContext req !! SYS_CONFIG_TAG with
    | Some value =>
        sysConfig_loop device (strings.Split (strings_TrimSpace L value) ",")
    | None => ret tt
    end in
  (* Block volume not need to format *)
  if isBlock then
    let* (notMounted, err) := call (IsLikelyNotMountPoint targetPath) in
    let* _ := fail_if err Internal in
    let* _ := if negb notMounted then exit (OK tt) else ret tt in
    let* err := call (MountBlock device targetPath ["bind"]) in
    let* _ := fail_if err Internal in
    ret (OK tt)
  else
    (* Step 5 Start to format *)
    match stage_VolumeCapability req with
    | Some (MountVolume FsType MountFlags) =>
        let options := MountFlags ++ ["shared"] in
        let fsType := if String.eqb FsType "" then "ext4" else FsType in
        let mountOptions := mountopts.collectMountOptions fsType options in
        let* err := call (MkdirAll targetPath) in
        let* _ := fail_if err Internal in
        (* Set mkfs options for ext3, ext4 *)
        let mkfsOptions :=
          match stage_VolumeContext req !! MKFS_OPTIONS with
          | Some value => strings.Split value " "
          | None => []
          end in
        (* do format-mount or mount *)
        let* err :=
          if Nat.ltb 0 (length mkfsOptions)
             && (String.eqb fsType "ext4" || String.eqb fsType "ext3")
          then call (utils_FormatAndMount device targetPath fsType
                                          mkfsOptions mountOptions false)
          else call (FormatAndMount device targetPath fsType mountOptions) in
        let* _ := fail_if err Internal in
        ret (OK tt)
    | _ => panic   (* mnt is nil *)
    end.

(** *** NodeUnstageVolume *)

Definition NodeUnstageVolume (req : NodeUnstageVolumeRequest)
  : M W (reply unit) (reply unit) :=
  (* check block device mountpoint *)
  let tmpPath :=
    filepath_Join L (unstage_StagingTargetPath req) (unstage_VolumeId req) in
  let* existing := call (IsFileExisting tmpPath) in
  let* targetPath :=
    if existing : bool then
      let* (isDevice, err) := call (Lstat tmpPath) in
      match err with
      | Some e =>
          if strings.Contains (strings_ToLower L (Error e)) INPUT_OUTPUT_ERR then
            let* err := call (IsPathAvailable (unstage_StagingTargetPath req)) in
            let* _ :=
              match err with
              | Some _ =>
                  let* err := call (Unmount (unstage_StagingTargetPath req)) in
                  fail_if err InvalidArgument
              | None => ret tt
              end in
            ret (unstage_StagingTargetPath req)
          else exit (Fail (Status InvalidArgument))
      | None =>
          if isDevice : bool then ret tmpPath
          else ret (unstage_StagingTargetPath req)
      end
    else ret (unstage_StagingTargetPath req) in
  (* Step 1: check folder exists and umount *)
  let* existing := call (IsFileExisting targetPath) in
  let* _ :=
    if existing : bool then
      let* (notmounted, err) := call (IsLikelyNotMountPoint targetPath) in
      let* _ := fail_if err Internal in
      if negb notmounted then
        let* err := call (Unmount targetPath) in
        let* _ := fail_if err Internal in
        let* (notMounted, err) := call (IsLikelyNotMountPoint targetPath) in
        let* _ := fail_if err Internal in
        if negb notMounted then exit (Fail (Status Internal)) else ret tt
      else ret tt
    else ret tt in
  (* Do detach if ADController disable *)
  let* _ :=
    if String.eqb (EnableAttachDetachController GlobalConfigVar) "false" then
      let* err := call (ens_detachDisk (unstage_VolumeId req)
                                       (InstanceID GlobalConfigVar)) in
      let* _ := pass_if err in
      let* _ := removeVolumeConfig (unstage_VolumeId req) in
      ret tt
    else ret tt in
  ret (OK tt).

End Handlers.
End ens.

(** ** Slices of strings

    A slice is a header over a backing array, and [append] writes into
    the array of its argument when the capacity allows: slices made by
    [append] from one slice can then share the slot that was written
    last. The arrays of a call are kept in a heap, which the call passes
    along with the slices. *)

Module slices.

(** A slice header: the backing array (its index in the heap), the
    length and the capacity. *)
Record slice := mkSlice { array : nat; len : nat; cap : nat }.

(** The elements of a slice: the first [len] slots of its array. *)
Definition elems (h : list (list string)) (s : slice) : list string :=
  take (len s) (default [] (h !! array s)).

Section Append.
(** The capacity the runtime chooses when [append] has to grow a slice
    of capacity [cap] to hold [needed] elements. *)
Variable growslice : nat -> nat -> nat.

(** [append(s, x)], the new slice and the heap it leaves: the element is
    written in place when the capacity allows, else into a new array
    that starts with a copy of the elements. *)
Definition append (h : list (list string)) (s : slice) (x : string)
  : slice * list (list string) :=
  if Nat.ltb (len s) (cap s) then
    (mkSlice (array s) (S (len s)) (cap s),
     alter (fun a => <[len s := x]> a) (array s) h)
  else
    let newcap := growslice (cap s) (S (len s)) in
    (mkSlice (length h) (S (len s)) newcap,
     h ++ [elems h s ++ x :: replicate (newcap - S (len s)) ""]).
End Append.

(** A slice field of a request as the call receives it, alone in the
    heap: its elements, followed in the backing array by the slots
    [spare] that the capacity leaves free. *)
Definition of_request (l spare : list string) : slice * list (list string) :=
  (mkSlice 0 (length l) (length (l ++ spare)), [l ++ spare]).

End slices.

(** ** pkg/disk/nodeserver.go *)

Module disk.
Import node.
Local Open Scope go_scope.

(** SharedEnable tag *)
Definition SharedEnable : string := "shared".
(** SysConfigTag tag *)
Definition SysConfigTag : string := "sysConfig".
Definition OmitFilesystemCheck : string := "omitfsck".
(** MkfsOptions tag *)
Definition MkfsOptions : string := "mkfsOptions".
(** MixRunTimeMode support both runc and runv *)
Definition MixRunTimeMode : string := "runc-runv".
(** RunvRunTimeMode tag *)
Definition RunvRunTimeMode : string := "runv".
(** InputOutputErr tag *)
Definition InputOutputErr : string := "input/output error".
(** TenantUserUID tag *)
Definition TenantUserUID : string := "alibabacloud.com/user-uid".

(** The fields of [GlobalConfigVar] that are read, and the node ID of
    the server. *)
Record GlobalConfig := mkGlobalConfig {
  RunTimeClass : string;
  ADControllerEnable : bool;
  DetachDisabled : bool;
  cfg_OmitFilesystemCheck : bool;
  nodeID : string
}.

(** Modelled from the spec: the device check of Stage. The function
    [CheckDeviceAvailable] is declared outside the sources at hand; by the
    specification a device path is verified "against the live device by
    comparing major/minor identifiers; mismatch is a hard failure". Here
    [devFor] gives the major and minor numbers of a device path and
    [expectName] the device expected for a volume, and the comparison is
    the one [NodePublishVolume] makes. *)
Definition CheckDeviceAvailable_spec (devFor : string -> Z * Z)
    (expectName : string -> string) (devicePath volumeID : string)
  : option goerror :=
  let '(realMajor, realMinor) := devFor devicePath in
  let '(expectMajor, expectMinor) := devFor (expectName volumeID) in
  if Z.eqb realMajor expectMajor && Z.eqb realMinor expectMinor then None
  else Some (mkError "device is not the expected device of the volume" false).

Section Handlers.
Context {W : Type} {C : Collaborators (W:=W)}.
Variable L : Lib.
Variable GlobalConfigVar : GlobalConfig.
(** The capacity the runtime gives a slice that [append] has to grow. *)
Variable growslice : nat -> nat -> nat.

(** BLOCKVOLUMEPREFIX block volume mount prefix *)
Definition BLOCKVOLUMEPREFIX : string :=
  filepath_Join L (KubeletRootDir L)
                "/plugins/kubernetes.io/csi/volumeDevices/publish".

Definition fail_if {Resp} (err : option goerror) (code : Code)
  : M W (reply Resp) unit :=
  match err with
  | Some _ => exit (Fail (Status code))
  | None => ret tt
  end.

Definition pass_if {Resp} (err : option goerror) : M W (reply Resp) unit :=
  match err with
  | Some e => exit (Fail (Err e))
  | None => ret tt
  end.

(** [fileName := filepath.Join(filepath.Dir(p), utils.VolDataFileName)],
    one directory higher when [p] ends with a slash. *)
Definition volDataFile (p : string) : string :=
  if strings.HasSuffix p "/" then
    filepath_Join L (filepath_Dir L (filepath_Dir L p)) (VolDataFileName L)
  else filepath_Join L (filepath_Dir L p) (VolDataFileName L).

(** [fsType := "ext4"; if mnt.FsType != "" { fsType = mnt.FsType }] *)
Definition fsTypeOf (FsType : string) : string :=
  if String.eqb FsType "" then "ext4" else FsType.

(** [func (ns *nodeServer) unmountStageTarget(targetPath string) error]:
    umount path and not remove *)
Definition unmountStageTarget {R} (targetPath : string) : M W R (option error) :=
  let* existing := call (IsFileExisting targetPath) in
  if existing : bool then
    let* (notmounted, err) := call (IsLikelyNotMountPoint targetPath) in
    match err with
    | Some _ => ret (Some (Status Internal))
    | None =>
        if negb notmounted then
          let* err := call (Unmount targetPath) in
          match err with
          | Some _ => ret (Some (Status Internal))
          | None => ret None
          end
        else ret None
    end
  else ret None.

(** [mnt.MountFlags], the elements that the request gives. *)
Definition flags_of (capability : option AccessType) : list string :=
  match capability with
  | Some (MountVolume _ MountFlags) => MountFlags
  | _ => []
  end.

(** [func (ns *nodeServer) mountDeviceToGlobal(capability, volumeContext,
    device, sourcePath) error]. The slice [mnt.MountFlags] of the
    capability is [flags] in the heap [h] of the call; the heap that
    [append] leaves is returned with the error. *)
Definition mountDeviceToGlobal {R}
    (capability : option AccessType) (volumeContext : gmap string string)
    (device sourcePath : string)
    (flags : slices.slice) (h : list (list string))
  : M W R (option error * list (list string)) :=
  match capability with
  | Some (MountVolume FsType _) =>
      let '(options, h) := slices.append growslice h flags "shared" in
      let fsType := fsTypeOf FsType in
      let mountOptions :=
        mountopts.collectMountOptions fsType (slices.elems h options) in
      let* err := call (EnsureFolder sourcePath) in
      match err with
      | Some _ => ret (Some (Status Internal), h)
      | None =>
          (* Set mkfs options for ext3, ext4 *)
          let mkfsOptions :=
            match volumeContext !! MkfsOptions with
            | Some value => strings.Split value " "
            | None => []
            end in
          (* do format-mount or mount *)
          let* err :=
            call (utils_FormatAndMount device sourcePath fsType mkfsOptions
                    mountOptions (cfg_OmitFilesystemCheck GlobalConfigVar)) in
          match err with
          | Some _ => ret (Some (Status Internal), h)
          | None => ret (None, h)
          end
      end
  | _ => panic   (* mnt is nil *)
  end.

(** *** NodePublishVolume: bind directory from global to pod *)

(** The branch for a pod of the runv runtime. *)
Definition publish_runv (req : NodePublishVolumeRequest)
  : M W (reply unit) (reply unit) :=
  let sourcePath := publish_StagingTargetPath req in
  (* umount the stage path, which is mounted in Stage (tmpfs) *)
  let* err := unmountStageTarget sourcePath in
  let* _ := match err with
            | Some _ => exit (Fail (Status InvalidArgument))
            | None => ret tt
            end in
  let* (deviceName, err) := call (GetRootBlockByVolumeID (publish_VolumeId req)) in
  let* deviceName :=
    match err with
    | Some _ => call (disk_getVolumeConfig (publish_VolumeId req))
    | None => ret deviceName
    end in
  if String.eqb deviceName "" then exit (Fail (Status InvalidArgument))
  else
    (* save volume info to local file *)
    let mountFile :=
      filepath_Join L (publish_TargetPath req) (CsiPluginRunTimeFlagFile L) in
    let* err := call (CreateDest (publish_TargetPath req)) in
    let* _ := fail_if err InvalidArgument in
    let* err := call (WriteJSONFile deviceName "block" (publish_TargetPath req)
                                    mountFile RunvRunTimeMode mountFile) in
    let* _ := fail_if err InvalidArgument in
    (* save volume status to stage json file *)
    let volumeStatus : gmap string string :=
      {[ "csi.alibabacloud.com/disk-mounted" := "true" ]} in
    let* _ := call (AppendJSONData (volDataFile sourcePath) volumeStatus) in
    ret (OK tt).

(** "check device name available": the device behind the staging mount
    must be the expected device of the volume, by major and minor,
    unless it is tmpfs. Gives the real device, and the heap as the
    [append] to [mnt.MountFlags] (the slice [flags]) leaves it. *)
Definition publish_check_device (req : NodePublishVolumeRequest)
    (sourcePath fsType : string)
    (flags : slices.slice) (h : list (list string))
  : M W (reply unit) (string * list (list string)) :=
  let* (expectName, err) := call (GetVolumeDeviceName (publish_VolumeId req)) in
  let* _ := fail_if err Internal in
  let* (realDevice, err) := call (GetDeviceNameFromMount sourcePath) in
  let* _ := fail_if err Internal in
  let* (realDevice, h) :=
    if String.eqb realDevice "" then
      let '(opts, h) := slices.append growslice h flags "shared" in
      let* err := call (Mount expectName sourcePath fsType (slices.elems h opts)) in
      let* _ := fail_if err Internal in
      let* (realDevice, err) := call (GetDeviceNameFromMount sourcePath) in
      let* _ := fail_if err Internal in
      ret (realDevice, h)
    else ret (realDevice, h) in
  let* _ :=
    if negb (String.eqb realDevice "tmpfs") then
      let* matched :=
        if negb (String.eqb realDevice "") then
          let* (realMajor, realMinor, err) := call (DevFor realDevice) in
          let* _ := fail_if err Internal in
          let* (expectMajor, expectMinor, err) := call (DevFor expectName) in
          let* _ := fail_if err Internal in
          ret (Z.eqb realMajor expectMajor && Z.eqb realMinor expectMinor)
        else ret false in
      if negb matched then exit (Fail (Status Internal)) else ret tt
    else ret tt in
  ret (realDevice, h).

(** The mount flags of the request are a slice whose backing array has
    the slots [spare] after the flags. *)
Definition NodePublishVolume (req : NodePublishVolumeRequest)
    (spare : list string) : M W (reply unit) (reply unit) :=
  let '(flags, h) :=
    slices.of_request (flags_of (publish_VolumeCapability req)) spare in
  (* check target mount path *)
  let* valid := call (ValidateRequest (publish_VolumeContext req)) in
  let* _ := if negb valid then exit (Fail (Status InvalidArgument)) else ret tt in
  (* running in runc/runv mode *)
  let* _ :=
    if String.eqb (RunTimeClass GlobalConfigVar) MixRunTimeMode then
      (* if target path mounted already, return *)
      let* (notMounted, err) := call (IsLikelyNotMountPoint (publish_TargetPath req)) in
      let* _ := fail_if err Internal in
      let* _ := if negb notMounted then exit (OK tt) else ret tt in
      (* check pod runtime *)
      let* (runtime, err) := call (GetPodRunTime req) in
      let* _ := fail_if err Internal in
      if String.eqb runtime RunvRunTimeMode then
        let* r := publish_runv req in exit r
      else ret tt
    else ret tt in
  let isBlock := isBlockCapability (publish_VolumeCapability req) in
  let sourcePath :=
    if isBlock then
      filepath_Join L (publish_StagingTargetPath req) (publish_VolumeId req)
    else publish_StagingTargetPath req in
  let targetPath := publish_TargetPath req in
  let* _ := if String.eqb (publish_StagingTargetPath req) ""
            then exit (Fail (Status InvalidArgument)) else ret tt in
  (* check if block volume *)
  if isBlock then
    let* (notMounted, err) := call (IsLikelyNotMountPoint targetPath) in
    let* _ := match err with
              | Some e => if negb (IsNotExist e)
                          then exit (Fail (Status Internal)) else ret tt
              | None => ret tt
              end in
    let* _ :=
      if notMounted : bool then
        let* err := call (EnsureBlock targetPath) in
        let* _ := fail_if err Internal in
        let* err := call (MountBlock sourcePath targetPath ["bind"]) in
        pass_if err
      else ret tt in
    ret (OK tt)
  else
    let* err := call (EnsureFolder targetPath) in
    let* _ := fail_if err Internal in
    let* (notmounted, err) := call (IsLikelyNotMountPoint targetPath) in
    let* _ := fail_if err Internal in
    let* _ := if negb notmounted then exit (OK tt) else ret tt in
    let* (sourceNotMounted, err) := call (IsLikelyNotMountPoint sourcePath) in
    let* _ := fail_if err Internal in
    let* h :=
      if sourceNotMounted : bool then
        let* (device, err) := call (GetDeviceByVolumeID (publish_VolumeId req)) in
        match err with
        | None =>
            let* (err, h) :=
              mountDeviceToGlobal (publish_VolumeCapability req)
                (publish_VolumeContext req) device sourcePath flags h in
            match err with
            | Some _ => exit (Fail (Status Internal))
            | None => ret h
            end
        | Some _ => exit (Fail (Status Internal))
        end
      else ret h in
    (* start to mount *)
    match publish_VolumeCapability req with
    | Some (MountVolume FsType _) =>
        let '(options, h) := slices.append growslice h flags "bind" in
        let '(options, h) :=
          if publish_Readonly req then slices.append growslice h options "ro"
          else (options, h) in
        let fsType := fsTypeOf FsType in
        (* check device name available *)
        let* (realDevice, h) :=
          publish_check_device req sourcePath fsType flags h in
        (* Set volume IO Limit *)
        let* err := call (SetVolumeIOLimit realDevice req) in
        let* _ := fail_if err Internal in
        let* err := call (Mount sourcePath targetPath fsType
                                (slices.elems h options)) in
        let* _ := fail_if err Internal in
        let* kata := call IsKataInstall in
        let* _ :=
          if kata : bool then
            (* save volume data to json file *)
            let d0 : gmap string string :=
              {[ "csi.alibabacloud.com/fsType" := fsType ]} in
            let saveOptions := slices.elems h flags in
            let d1 :=
              if negb (Nat.eqb (slices.len flags) 0) then
                <[ "csi.alibabacloud.com/mountOptions" :=
                     strings.Join saveOptions "," ]> d0
              else d0 in
            let d2 :=
              match publish_VolumeContext req !! MkfsOptions with
              | Some value => <[ "csi.alibabacloud.com/mkfsOptions" := value ]> d1
              | None => d1
              end in
            let volumeData := <[ "csi.alibabacloud.com/disk-mounted" := "true" ]> d2 in
            let* _ := call (AppendJSONData (volDataFile targetPath) volumeData) in
            ret tt
          else ret tt in
        ret (OK tt)
    | _ => panic   (* mnt is nil *)
    end.

(** *** NodeStageVolume *)

(** [if value, ok := req.VolumeContext[tag]; ok { value =
    strings.ToLower(value); if checkOption(value) { flag = true } }] *)
Definition option_enabled {R} (volumeContext : gmap string string) (tag : string)
  : M W R bool :=
  match volumeContext !! tag with
  | Some value => call (checkOption (strings_ToLower L value))
  | None => ret false
  end.

(** The loop over the entries of the sysConfig option. *)
Fixpoint sysConfig_loop (device : string) (configList : list string)
  : M W (reply unit) unit :=
  match configList with
  | [] => ret tt
  | configStr :: rest =>
      let '(key, value, found) := strings.Cut configStr "=" in
      if negb found then exit (Fail (Status Aborted))
      else
        let* err := call (WriteSysfs device key value) in
        let* _ := fail_if err Aborted in
        sysConfig_loop device rest
  end.

(** Step 4 Attach volume: the device of the volume. *)
Definition stage_attach (req : NodeStageVolumeRequest)
    (isSharedDisk isMultiAttach : bool) : M W (reply unit) string :=
  if ADControllerEnable GlobalConfigVar || isMultiAttach then
    let* (device, err) := call (GetDeviceByVolumeID (stage_VolumeId req)) in
    match err with
    | None => ret device
    | Some _ =>
        let* vf := call IsVFNode in
        if vf : bool then
          let* (bdf, err) := call (bindBdfDisk (stage_VolumeId req)) in
          match err with
          | Some _ =>
              let* err := call (unbindBdfDisk (stage_VolumeId req)) in
              let* _ := fail_if err Aborted in
              exit (Fail (Status Aborted))
          | None =>
              if negb (String.eqb bdf "") then
                let* (device, _) := call (GetDeviceByBdf bdf true) in
                ret device
              else ret device
          end
        else exit (Fail (Status Aborted))
    end
  else
    let* (device, err) :=
      call (attachDisk (default "" (stage_VolumeContext req !! TenantUserUID))
                       (stage_VolumeId req) (nodeID GlobalConfigVar)
                       isSharedDisk) in
    let* _ := fail_if err Aborted in
    ret device.

(** The first part of [NodeStageVolume]: the staging path is prepared,
    the call returns if the volume is staged already, and the volume is
    attached (Step 4). Gives the target path and the device. *)
Definition stage_device (req : NodeStageVolumeRequest)
  : M W (reply unit) (string * string) :=
  let* valid := call (ValidateRequest (stage_VolumeContext req)) in
  let* _ := if negb valid then exit (Fail (Status InvalidArgument)) else ret tt in
  let isBlock := isBlockCapability (stage_VolumeCapability req) in
  let* targetPath :=
    if isBlock then
      let targetPath :=
        filepath_Join L (stage_StagingTargetPath req) (stage_VolumeId req) in
      let* (notMounted, err) := call (IsLikelyNotMountPoint targetPath) in
      let* _ := match err with
                | Some e => if negb (IsNotExist e)
                            then exit (Fail (Status Internal)) else ret tt
                | None => ret tt
                end in
      let* _ := if negb notMounted then exit (OK tt) else ret tt in
      let* err := call (EnsureBlock targetPath) in
      let* _ := fail_if err Internal in
      ret targetPath
    else
      let* err := call (EnsureFolder (stage_StagingTargetPath req)) in
      let* _ := fail_if err Internal in
      ret (stage_StagingTargetPath req) in
  (* check volume is mounted in kata mode *)
  let* (volumeData, err) := call (LoadJSONData (volDataFile targetPath)) in
  let* _ :=
    match err with
    | None =>
        match volumeData !! "csi.alibabacloud.com/disk-mounted" with
        | Some _ => exit (OK tt)
        | None => ret tt
        end
    | Some _ => ret tt
    end in
  (* Step 2: check target path mounted *)
  let* (notmounted, err) := call (IsLikelyNotMountPoint targetPath) in
  let* _ := fail_if err Internal in
  let* _ :=
    if negb notmounted then
      (* if target path is mounted tmpfs, return *)
      let* (isTmpfs, err) := call (IsDirTmpfs (stage_StagingTargetPath req)) in
      let* _ := fail_if err Internal in
      let* _ := if isTmpfs : bool then exit (OK tt) else ret tt in
      (* check device available *)
      let* (deviceName, err) := call (GetDeviceNameFromMount targetPath) in
      let* _ := fail_if err Internal in
      let* err := call (CheckDeviceAvailable deviceName (stage_VolumeId req)
                                             targetPath) in
      let* _ := fail_if err Internal in
      exit (OK tt)
    else ret tt in
  let* isSharedDisk := option_enabled (stage_VolumeContext req) SharedEnable in
  let* isMultiAttach := option_enabled (stage_VolumeContext req) (MultiAttach L) in
  (* Step 4 Attach volume *)
  let* device := stage_attach req isSharedDisk isMultiAttach in
  ret (targetPath, device).

Definition NodeStageVolume (req : NodeStageVolumeRequest)
  : M W (reply unit) (reply unit) :=
  let isBlock := isBlockCapability (stage_VolumeCapability req) in
  let* (targetPath, device) := stage_device req in
  let* err := call (CheckDeviceAvailable device (stage_VolumeId req) targetPath) in
  let* _ := fail_if err Internal in
  let* err := call (disk_saveVolumeConfig (stage_VolumeId req) device) in
  let* _ := fail_if err Aborted in
  (* sysConfig *)
  let* _ :=
    match stage_VolumeContext req !! SysConfigTag with
    | Some value =>
        sysConfig_loop device (strings.Split (strings_TrimSpace L value) ",")
    | None => ret tt
    end in
  let omitfsck :=
    match stage_VolumeContext req !! OmitFilesystemCheck with
    | Some disable => String.eqb disable "true"
    | None => false
    end in
  (* Block volume not need to format *)
  if isBlock then
    let* (notmounted, err) := call (IsLikelyNotMountPoint targetPath) in
    let* _ := fail_if err Internal in
    let* _ := if negb notmounted then exit (OK tt) else ret tt in
    let* err := call (MountBlock device targetPath ["bind"]) in
    let* _ := fail_if err Internal in
    ret (OK tt)
  else
    (* Step 5 Start to format *)
    match stage_VolumeCapability req with
    | Some (MountVolume FsType MountFlags) =>
        let options := MountFlags ++ ["shared"] in
        let fsType := fsTypeOf FsType in
        let mountOptions := mountopts.collectMountOptions fsType options in
        let* err := call (EnsureFolder targetPath) in
        let* _ := fail_if err Internal in
        (* Set mkfs options for ext3, ext4 *)
        let mkfsOptions :=
          match stage_VolumeContext req !! MkfsOptions with
          | Some value => strings.Split value " "
          | None => []
          end in
        (* do format-mount or mount *)
        let* err := call (utils_FormatAndMount device targetPath fsType
                            mkfsOptions mountOptions omitfsck) in
        let* _ := fail_if err Internal in
        let* (pvc, err) := call (getPvPvcFromDiskId (stage_VolumeId req)) in
        let* _ := match err with
                  | Some _ => exit (OK tt)
                  | None => ret tt
                  end in
        match pvc with
        | None => panic   (* pvc is nil *)
        | Some pvc =>
            if pvc_DataSource pvc then
              (* pvc is created from snapshot, add resizefs check *)
              let* (needResize, err) := call (NeedResize device targetPath) in
              let* _ := match err with
                        | Some _ => exit (OK tt)
                        | None => ret tt
                        end in
              if needResize : bool then
                let* (_, err) := call (Resize device targetPath) in
                let* _ := fail_if err Internal in
                ret (OK tt)
              else ret (OK tt)
            else ret (OK tt)
        end
    | _ => panic   (* mnt is nil *)
    end.

(** *** NodeUnstageVolume *)

Definition NodeUnstageVolume (req : NodeUnstageVolumeRequest)
  : M W (reply unit) (reply unit) :=
  (* check block device mountpoint *)
  let tmpPath :=
    filepath_Join L (unstage_StagingTargetPath req) (unstage_VolumeId req) in
  let* existing := call (IsFileExisting tmpPath) in
  let* targetPath :=
    if existing : bool then
      let* (_, err) := call (Lstat tmpPath) in
      match err with
      | Some e =>
          if strings.Contains (strings_ToLower L (Error e)) InputOutputErr then
            let* err := call (IsPathAvailable (unstage_StagingTargetPath req)) in
            let* _ :=
              match err with
              | Some _ =>
                  let* err := call (Unmount (unstage_StagingTargetPath req)) in
                  fail_if err InvalidArgument
              | None => ret tt
              end in
            ret (unstage_StagingTargetPath req)
          else exit (Fail (Status InvalidArgument))
      | None =>
          (* if mountpoint not a block device, maybe something wrong
             happened in VolumeStageVolume. when pod deleted, the volume
             should be detached *)
          ret tmpPath
      end
    else ret (unstage_StagingTargetPath req) in
  (* Step 1: check folder exists and umount *)
  let* existing := call (IsFileExisting targetPath) in
  let* _ :=
    if existing : bool then
      let* (notmounted, err) := call (IsLikelyNotMountPoint targetPath) in
      let* _ := fail_if err Internal in
      if negb notmounted then
        let* err := call (Unmount targetPath) in
        let* _ := fail_if err Internal in
        let* (notmounted, err) := call (IsLikelyNotMountPoint targetPath) in
        let* _ := fail_if err Internal in
        if negb notmounted then exit (Fail (Status Internal)) else ret tt
      else ret tt
    else ret tt in
  let* vf := call IsVFNode in
  let* _ :=
    if vf : bool then
      let* err := call (unbindBdfDisk (unstage_VolumeId req)) in
      pass_if err
    else ret tt in
  let* vfInstance := call IsVFInstance in
  let* clear :=
    if vfInstance : bool then
      let* vf := call IsVFNode in ret (negb vf)
    else ret false in
  let* _ :=
    if clear : bool then
      let* (bdf, err) := call (findBdf (unstage_VolumeId req)) in
      let* _ := pass_if err in
      let* err := call (clearBdfInfo (unstage_VolumeId req) bdf) in
      pass_if err
    else ret tt in
  (* Do detach if ADController disable *)
  let* _ :=
    if negb (ADControllerEnable GlobalConfigVar) then
      (* if DetachDisabled is set to true, return *)
      let* _ := if DetachDisabled GlobalConfigVar then exit (OK tt) else ret tt in
      let* err := call (getEcsClientByID (unstage_VolumeId req)) in
      let* _ := fail_if err Internal in
      let* err := call (detachDisk (unstage_VolumeId req) (nodeID GlobalConfigVar)) in
      let* _ := pass_if err in
      let* _ := call (disk_removeVolumeConfig (unstage_VolumeId req)) in
      ret tt
    else ret tt in
  ret (OK tt).

(** *** NodeExpandVolume *)

(** [func deleteUntagAutoSnapshot(snapshotID, diskID string)]: deletes
    and untags volumeExpandAutoSnapshot facing expand error *)
Definition deleteUntagAutoSnapshot {R} (snapshotID diskID : string) : M W R unit :=
  let* _ := call (getPvPvcFromDiskId diskID) in
  let* _ := call (requestAndDeleteSnapshot snapshotID) in
  let* _ := call (updateVolumeExpandAutoSnapshotID snapshotID) in
  ret tt.

(** The body of [NodeExpandVolume] from the [defer] on: what it returns,
    and the value of [snapshotEnable] when it returns. *)
Definition expand_body (req : NodeExpandVolumeRequest) (snapshotEnable : bool)
  : M W (reply NodeExpandVolumeResponse * bool)
        (reply NodeExpandVolumeResponse * bool) :=
  let requestBytes := expand_RequiredBytes req in
  let volumePath := expand_VolumePath req in
  let diskID := expand_VolumeId req in
  let* (devicePath, err) := call (GetVolumeDeviceName diskID) in
  let* _ :=
    match err with
    | Some e =>
        if IsNotExist e then exit (Fail (Status NotFound), snapshotEnable)
        else exit (Fail (Status Internal), snapshotEnable)
    | None => ret tt
    end in
  let* (rootPath, index, err) := call (GetDeviceRootAndPartitionIndex devicePath) in
  let* _ := match err with
            | Some _ => exit (Fail (Status Internal), snapshotEnable)
            | None => ret tt
            end in
  let* _ :=
    if negb (String.eqb index "") then
      let* (output, err) := call (growpart rootPath index) in
      match err with
      | Some _ =>
          if strings.Contains output "NOCHANGE"
             && (strings.Contains output "it cannot be grown"
                 || strings.Contains output "could only be grown by")
          then
            let* deviceCapacity := call (getBlockDeviceCapacity devicePath) in
            let* rootCapacity := call (getBlockDeviceCapacity rootPath) in
            let* _ := log (LogNoNeedToGrow requestBytes rootCapacity
                                           deviceCapacity) in
            exit (OK (mkExpandResponse 0), snapshotEnable)
          else exit (Fail (Status InvalidArgument), snapshotEnable)
      | None => ret tt
      end
    else ret tt in
  (* use resizer to expand volume filesystem *)
  let* (ok, err) := call (Resize devicePath volumePath) in
  let* _ := match err with
            | Some _ => exit (Fail (Status Internal), false)
            | None => ret tt
            end in
  let* _ := if negb ok then exit (Fail (Status Internal), false) else ret tt in
  let* deviceCapacity := call (getBlockDeviceCapacity devicePath) in
  if Z.ltb 0 requestBytes && Z.ltb deviceCapacity requestBytes then
    (* After calling OpenAPI to expand cloud disk, the size of the
       underlying block device may not change immediately. return error
       and CO will retry later. *)
    ret (Fail (Status Aborted), snapshotEnable)
  else
    let* _ := log (LogExpandSuccessful deviceCapacity) in
    ret (OK (mkExpandResponse deviceCapacity), snapshotEnable).

Definition NodeExpandVolume (req : NodeExpandVolumeRequest)
  : M W (reply NodeExpandVolumeResponse) (reply NodeExpandVolumeResponse) :=
  let volumePath := expand_VolumePath req in
  let diskID := expand_VolumeId req in
  if strings.Contains volumePath BLOCKVOLUMEPREFIX then
    ret (OK (mkExpandResponse 0))
  else
    let* (pvc, _) := call (getPvPvcFromDiskId diskID) in
    let volumeExpandAutoSnapshotID :=
      match pvc with
      | Some pvc =>
          match pvc_Annotations pvc with
          | Some annotations => default "" (annotations !! veasp_IDKey L)
          | None => ""
          end
      | None => ""
      end in
    (* volume resize in rund type will transfer to guest os *)
    let* (isRund, err) := call (checkRundVolumeExpand req) in
    match isRund, err with
    | true, None => ret (OK (mkExpandResponse 0))
    | true, Some _ => ret (Fail (Status InvalidArgument))
    | false, _ =>
        let snapshotEnable := negb (String.eqb volumeExpandAutoSnapshotID "") in
        (* the body, then the deferred function *)
        fun s =>
          match expand_body req snapshotEnable s with
          | (Next (r, enabled), s') | (Return (r, enabled), s') =>
              if enabled : bool then
                (let* _ := deleteUntagAutoSnapshot volumeExpandAutoSnapshotID
                                                   diskID in
                 ret r) s'
              else (Next r, s')
          | (Panic, s') => (Panic, s')
          end
    end.

End Handlers.
End disk.

(** ** Go's path functions on Unix, for the examples

    The handlers take the path functions as parameters ([node.Lib]); these
    are the definitions the examples run with, for ASCII text. *)

Module golib.

Definition lower (c : ascii) : ascii :=
  let n := nat_of_ascii c in
  if Nat.leb 65 n && Nat.leb n 90 then ascii_of_nat (n + 32) else c.

(** [strings.ToLower] *)
Fixpoint ToLower (s : string) : string :=
  match s with
  | EmptyString => EmptyString
  | String c rest => String (lower c) (ToLower rest)
  end.

Definition is_space (c : ascii) : bool :=
  let n := nat_of_ascii c in
  Nat.eqb n 32 || (Nat.leb 9 n && Nat.leb n 13).

Fixpoint trim_left (s : string) : string :=
  match s with
  | EmptyString => EmptyString
  | String c rest => if is_space c then trim_left rest else s
  end.

(** [strings.TrimSpace] *)
Definition TrimSpace (s : string) : string :=
  String.rev (trim_left (String.rev (trim_left s))).

(** One path element onto the elements kept so far (last one first). *)
Definition clean_step (rooted : bool) (kept : list string) (elem : string)
  : list string :=
  if String.eqb elem "" || String.eqb elem "." then kept
  else if String.eqb elem ".." then
    match kept with
    | top :: rest => if String.eqb top ".." then elem :: kept else rest
    | [] => if rooted then [] else [elem]
    end
  else elem :: kept.

(** [path.Clean], [filepath.Clean] *)
Definition Clean (p : string) : string :=
  let rooted := strings.HasPrefix p "/" in
  let kept := fold_left (clean_step rooted) (strings.Split p "/") [] in
  let body := strings.Join (rev kept) "/" in
  if rooted then "/" +:+ body
  else if String.eqb body "" then "." else body.

(** [path.Join], [filepath.Join] of two elements *)
Definition Join (a b : string) : string :=
  if String.eqb a "" then (if String.eqb b "" then "" else Clean b)
  else if String.eqb b "" then Clean a
  else Clean (a +:+ "/" +:+ b).

Fixpoint strip_slashes (r : string) : string :=
  match r with
  | String "/" rest => strip_slashes rest
  | _ => r
  end.

(** [filepath.Base] *)
Definition Base (p : string) : string :=
  if String.eqb p "" then "."
  else
    let p' := String.rev (strip_slashes (String.rev p)) in
    if String.eqb p' "" then "/"
    else default "" (last (strings.Split p' "/")).

Fixpoint drop_to_slash (r : string) : string :=
  match r with
  | EmptyString => EmptyString
  | String "/" _ => r
  | String _ rest => drop_to_slash rest
  end.

(** [filepath.Dir] *)
Definition Dir (p : string) : string :=
  Clean (String.rev (drop_to_slash (String.rev p))).

Definition unix : node.Lib :=
  {| node.filepath_Join := Join;
     node.filepath_Dir := Dir;
     node.filepath_Base := Base;
     node.filepath_Clean := Clean;
     node.path_Join := Join;
     node.strings_ToLower := ToLower;
     node.strings_TrimSpace := TrimSpace;
     node.KubeletRootDir := "/var/lib/kubelet";
     node.VolDataFileName := "vol_data.json";
     node.CsiPluginRunTimeFlagFile := "alibabacloudcsiplugin.json";
     node.MultiAttach := "multiAttach";
     node.veasp_IDKey := "volumeExpandAutoSnapshotID";
     node.ens_VolumeDir := "/host/etc/kubernetes/volumes/disk/";
     node.ens_VolumeDirRemove := "/host/etc/kubernetes/volumes/disk/remove" |}.

End golib.

(** ** Collaborators for the examples *)

Module scenarios.
Import node.

(** Every call succeeds, nothing is mounted, the device of every volume
    is /dev/vdb. *)
Definition quiet {A : Type} (c : Call A) : A :=
  match c in Call T return T with
  | IsLikelyNotMountPoint _ => (true, None)
  | Mount _ _ _ _ => None
  | Unmount _ => None
  | GetDeviceNameFromMount _ => ("", None)
  | FormatAndMount _ _ _ _ => None
  | NeedResize _ _ => (false, None)
  | Resize _ _ => (true, None)
  | ValidateRequest _ => true
  | EnsureFolder _ => None
  | EnsureBlock _ => None
  | MountBlock _ _ _ => None
  | utils_FormatAndMount _ _ _ _ _ _ => None
  | IsDirTmpfs _ => (false, None)
  | GetPodRunTime _ => ("runc", None)
  | CreateDest _ => None
  | WriteJSONFile _ _ _ _ _ _ => None
  | AppendJSONData _ _ => None
  | LoadJSONData _ => (∅, Some (mkError "no such file or directory" true))
  | SetVolumeIOLimit _ _ => None
  | IsKataInstall => false
  | IsFileExisting _ => false
  | IsPathAvailable _ => None
  | WriteTrunc _ _ => None
  | MkdirAll _ => None
  | Lstat _ => (false, None)
  | WriteFile _ _ => None
  | Rename _ _ => None
  | TimeNowFormat => "2024-05-06-07:08:09"
  | growpart _ _ => ("CHANGED: partition=1", None)
  | GetRootBlockByVolumeID _ => ("/dev/vdb", None)
  | GetDeviceByVolumeID _ => ("/dev/vdb", None)
  | GetVolumeDeviceName _ => ("/dev/vdb", None)
  | DevFor _ => (253, 16, None)%Z
  | CheckDeviceAvailable _ _ _ => None
  | checkOption _ => false
  | IsVFNode => false
  | IsVFInstance => false
  | bindBdfDisk _ => ("", None)
  | unbindBdfDisk _ => None
  | GetDeviceByBdf _ _ => ("", None)
  | findBdf _ => ("", None)
  | clearBdfInfo _ _ => None
  | attachDisk _ _ _ _ => ("/dev/vdb", None)
  | detachDisk _ _ => None
  | getEcsClientByID _ => None
  | disk_saveVolumeConfig _ _ => None
  | disk_removeVolumeConfig _ => None
  | disk_getVolumeConfig _ => "/dev/vdb"
  | WriteSysfs _ _ _ => None
  | GetDeviceRootAndPartitionIndex _ => ("/dev/vdb", "", None)
  | getBlockDeviceCapacity _ => 0%Z
  | getPvPvcFromDiskId _ => (None, Some (mkError "not found" false))
  | checkRundVolumeExpand _ => (false, None)
  | requestAndDeleteSnapshot _ => None
  | updateVolumeExpandAutoSnapshotID _ => None
  | ens_getVolumeDeviceName _ => "/dev/vdb"
  | ens_attachDisk _ _ => ("/dev/vdb", None)
  | ens_detachDisk _ _ => None
  end.

Definition GiB : Z := 1073741824.

(** The device holds 10 GiB after the resize. *)
Definition ten_GiB : Collaborators (W := unit) :=
  fun A c w =>
    (match c in Call T return T with
     | getBlockDeviceCapacity _ => (10 * GiB)%Z
     | c0 => quiet c0
     end, w).

(** The volume is the first partition of /dev/vdb, and growpart finds it
    at its maximum size. *)
Definition partition_at_maximum : Collaborators (W := unit) :=
  fun A c w =>
    (match c in Call T return T with
     | GetVolumeDeviceName _ => ("/dev/vdb1", None)
     | GetDeviceRootAndPartitionIndex _ => ("/dev/vdb", "1", None)
     | growpart _ _ =>
         ("NOCHANGE: partition 1 is size 20969439. it cannot be grown",
          Some (mkError "exit status 1" false))
     | getBlockDeviceCapacity _ => (10 * GiB)%Z
     | c0 => quiet c0
     end, w).

Definition expand_request (requiredBytes : Z) : NodeExpandVolumeRequest :=
  {| expand_VolumeId := "d-1";
     expand_VolumePath := "/var/lib/kubelet/pods/p/volumes/kubernetes.io~csi/pv/mount";
     expand_RequiredBytes := requiredBytes |}.

(** Every call succeeds; the clock stands at one second. *)
Definition always_quiet : Collaborators (W := unit) :=
  fun A c w => (quiet c, w).

Local Open Scope go_scope.

(** Two records of volume d-1 are written and the second is archived, all
    within one second. *)
Definition write_twice : M unit (reply unit) unit :=
  let* _ := ens.saveVolumeConfig (C:=always_quiet) golib.unix "d-1" "/dev/vdb" in
  let* _ := ens.saveVolumeConfig (C:=always_quiet) golib.unix "d-1" "/dev/vdc" in
  ret tt.

Definition then_archive : M unit (reply unit) unit :=
  let* _ := ens.removeVolumeConfig (C:=always_quiet) golib.unix "d-1" in
  ret tt.

(** A server of pkg/ens in a deployment where detach is left to the
    attach controller, and an Unstage request for volume d-1. *)
Definition ens_delegated : ens.GlobalConfig :=
  {| ens.EnableAttachDetachController := "true"; ens.InstanceID := "i-1" |}.

Definition ens_detaching : ens.GlobalConfig :=
  {| ens.EnableAttachDetachController := "false"; ens.InstanceID := "i-1" |}.

Definition disk_detaching : disk.GlobalConfig :=
  {| disk.RunTimeClass := "runc"; disk.ADControllerEnable := false;
     disk.DetachDisabled := false; disk.cfg_OmitFilesystemCheck := false;
     disk.nodeID := "i-1" |}.

Definition unstage_request : NodeUnstageVolumeRequest :=
  {| unstage_VolumeId := "d-1";
     unstage_StagingTargetPath :=
       "/var/lib/kubelet/plugins/kubernetes.io/csi/pv/pv-1/globalmount" |}.

(** The store with the record of volume d-1. *)
Definition one_record : gmap string string :=
  {[ "/host/etc/kubernetes/volumes/disk/d-1.conf" := "/dev/vdb" ]}.

(** A Stage request for volume d-1 as an ext4 filesystem, with a sysConfig
    option. *)
Definition stage_request (sysConfig : string) : NodeStageVolumeRequest :=
  {| stage_VolumeId := "d-1";
     stage_StagingTargetPath :=
       "/var/lib/kubelet/plugins/kubernetes.io/csi/pv/pv-1/globalmount";
     stage_VolumeCapability := Some (MountVolume "ext4" []);
     stage_VolumeContext := {[ "sysConfig" := sysConfig ]} |}.

(** A node on which the link of volume d-1 is stale: the device expected
    for a volume is its link under /dev/disk/by-id, and that link resolves
    to another device than /dev/vdb, which the attach call returns. *)
Definition by_id (volumeID : string) : string :=
  "/dev/disk/by-id/virtio-" +:+ volumeID.

Definition stale_link (device : string) : Z * Z :=
  if String.eqb device "/dev/vdb" then (253, 16)%Z else (253, 32)%Z.

Definition stale_device : Collaborators (W := unit) :=
  fun A c w =>
    (match c in Call T return T with
     | CheckDeviceAvailable d v _ =>
         disk.CheckDeviceAvailable_spec stale_link by_id d v
     | c0 => quiet c0
     end, w).

(** *** The metadata resolver *)

(** A node without zone labels and one in zone-1. *)
Definition node_without_zone : metadata.KubernetesNodeMetadata :=
  metadata.mkKubernetesNodeMetadata (metadata.mkNode ∅ "") "".

Definition node_in_zone_1 : metadata.KubernetesNodeMetadata :=
  metadata.mkKubernetesNodeMetadata
    (metadata.mkNode {[ "topology.kubernetes.io/zone" := "zone-1" ]} "") "".

(** An API server that refuses connections, and one that serves the node
    in zone-1. *)
Definition api_server_down : metadata.NodeInterface (W := unit) :=
  fun _ w => (inr (metadata.errorString "connection refused"), w).

Definition api_server_up : metadata.NodeInterface (W := unit) :=
  fun _ w => (inl (metadata.node node_in_zone_1), w).

Definition connection_refused : metadata.error :=
  metadata.failedError "*metadata.KubernetesMetadataFetcher"
                       (metadata.errorString "connection refused").

(** A lazy provider whose construction has failed. *)
Definition failed_provider
  : metadata.lazyInitProvider metadata.KubernetesMetadataFetcher
      (metadata.immutableProvider metadata.KubernetesNodeMetadata) :=
  metadata.mkLazy None (Some connection_refused) None.

(** *** The chain in the heap *)

(** The runtime doubles the capacity. *)
Definition doubling (cap needed : nat) : nat := Nat.max needed (2 * cap).

(** KUBE_NODE_NAME is set, nothing else is. *)
Definition node_name_set (name : string) : string :=
  if String.eqb name resolver.KUBE_NODE_NAME_ENV then "node-1" else "".

End scenarios.

(** ** More views of events *)

Module views.
Import node.

Definition sel_MountBlock (ev : Event)
  : option (string * string * list string * option goerror) :=
  match ev with
  | Ev c a =>
      match c in Call A return A -> option _ with
      | MountBlock x0 x1 x2 => fun a => Some (x0, x1, x2, a)
      | _ => fun _ => None
      end a
  | Logged _ => None
  end.

Definition sel_IsLikelyNotMountPoint (ev : Event)
  : option (string * (bool * option goerror)) :=
  match ev with
  | Ev c a =>
      match c in Call A return A -> option _ with
      | IsLikelyNotMountPoint x0 => fun a => Some (x0, a)
      | _ => fun _ => None
      end a
  | Logged _ => None
  end.

Definition sel_Unmount (ev : Event) : option (string * option goerror) :=
  match ev with
  | Ev c a =>
      match c in Call A return A -> option _ with
      | Unmount x0 => fun a => Some (x0, a)
      | _ => fun _ => None
      end a
  | Logged _ => None
  end.

Definition sel_requestAndDeleteSnapshot (ev : Event)
  : option (string * option goerror) :=
  match ev with
  | Ev c a =>
      match c in Call A return A -> option _ with
      | requestAndDeleteSnapshot x0 => fun a => Some (x0, a)
      | _ => fun _ => None
      end a
  | Logged _ => None
  end.

Definition sel_getPvPvcFromDiskId (ev : Event)
  : option (string * (option PersistentVolumeClaim * option goerror)) :=
  match ev with
  | Ev c a =>
      match c in Call A return A -> option _ with
      | getPvPvcFromDiskId x0 => fun a => Some (x0, a)
      | _ => fun _ => None
      end a
  | Logged _ => None
  end.

Definition sel_WriteJSONFile (ev : Event)
  : option (string * string * string * string * string * string * option goerror) :=
  match ev with
  | Ev c a =>
      match c in Call A return A -> option _ with
      | WriteJSONFile x0 x1 x2 x3 x4 x5 => fun a => Some (x0, x1, x2, x3, x4, x5, a)
      | _ => fun _ => None
      end a
  | Logged _ => None
  end.

Definition sel_IsFileExisting (ev : Event) : option (string * bool) :=
  match ev with
  | Ev c a =>
      match c in Call A return A -> option _ with
      | IsFileExisting x0 => fun a => Some (x0, a)
      | _ => fun _ => None
      end a
  | Logged _ => None
  end.

Definition sel_Lstat (ev : Event) : option (string * (bool * option goerror)) :=
  match ev with
  | Ev c a =>
      match c in Call A return A -> option _ with
      | Lstat x0 => fun a => Some (x0, a)
      | _ => fun _ => None
      end a
  | Logged _ => None
  end.

Definition sel_Rename (ev : Event) : option (string * string * option goerror) :=
  match ev with
  | Ev c a =>
      match c in Call A return A -> option _ with
      | Rename x0 x1 => fun a => Some (x0, x1, a)
      | _ => fun _ => None
      end a
  | Logged _ => None
  end.

Definition sel_TimeNowFormat (ev : Event) : option string :=
  match ev with
  | Ev c a =>
      match c in Call A return A -> option _ with
      | TimeNowFormat => fun a => Some a
      | _ => fun _ => None
      end a
  | Logged _ => None
  end.

Definition sel_ens_getVolumeDeviceName (ev : Event) : option (string * string) :=
  match ev with
  | Ev c a =>
      match c in Call A return A -> option _ with
      | ens_getVolumeDeviceName x0 => fun a => Some (x0, a)
      | _ => fun _ => None
      end a
  | Logged _ => None
  end.

(** The device that a call that mounts or formats is given. *)
Definition mount_source (ev : Event) : option string :=
  match ev with
  | Ev c _ =>
      match c with
      | Mount source _ _ _ | FormatAndMount source _ _ _ | MountBlock source _ _
      | utils_FormatAndMount source _ _ _ _ _ => Some source
      | _ => None
      end
  | Logged _ => None
  end.

(** The calls that may format. *)
Definition is_format (ev : Event) : bool :=
  match ev with
  | Ev c _ =>
      match c with
      | FormatAndMount _ _ _ _ | utils_FormatAndMount _ _ _ _ _ _ => true
      | _ => false
      end
  | Logged _ => false
  end.

End views.

(** ** The target path of a pod: the operating system, slices, state

    Publish of pkg/ens and Unpublish of both packages work on the path
    that the kubelet gives for a pod, through the mounter of pkg/utils
    (whose functions are in the sources, and run commands) and through
    calls the other handlers do not make. *)

Module sys.
Import node.

(** An error value of the operating system or of a library: its text,
    and what the tests that the code makes on it answer. *)
Record oserror := mkOsError {
  os_Error : string;
  os_IsNotExist : bool;       (* os.IsNotExist(err) *)
  is_fsErrNotExist : bool;    (* errors.Is(err, fs.ErrNotExist) *)
  is_execErrNotFound : bool;  (* err == exec.ErrNotFound *)
  is_ioEOF : bool             (* err == io.EOF *)
}.

(** An error that a function of pkg/utils returns: an error passed on
    unchanged, or a new one ([errors.New], [fmt.Errorf]) with its format
    and the error that it prints (its other arguments are not
    modelled). *)
Inductive goerr : Type :=
| Passed (e : oserror)
| Errorf (format : string) (e : option oserror).

(** The error a handler returns: [status.Error(code, ...)], or an error
    of the mounter passed on unchanged. *)
Inductive error : Type :=
| Status (code : Code)
| Err (e : goerr).

(** What a handler returns: [(resp, nil)] or [(nil, err)]. *)
Inductive reply : Type :=
| OK
| Fail (e : error).

(** A slice header: the backing array (its index in the heap), the
    length and the capacity. *)
Record slice := mkSlice { array : nat; len : nat; cap : nat }.

(** [*csi.VolumeCapability]: the access type, [None] when it is not set;
    the mount flags are a slice of the request. *)
Inductive AccessType : Type :=
| Block
| MountVolume (FsType : string) (MountFlags : slice).

Definition isBlockCapability (c : option AccessType) : bool :=
  match c with Some Block => true | _ => false end.

Record NodePublishVolumeRequest := mkPublishRequest {
  publish_VolumeId : string;
  publish_StagingTargetPath : string;
  publish_TargetPath : string;
  publish_VolumeCapability : option AccessType;
  publish_VolumeContext : gmap string string;
  publish_Readonly : bool
}.

Record NodeUnpublishVolumeRequest := mkUnpublishRequest {
  unpublish_VolumeId : string;
  unpublish_TargetPath : string
}.

(** The calls on the operating system, on k8s.io/mount-utils and on the
    functions of the repository that are outside these sources, each
    with the type of what comes back. A slice argument is passed as its
    elements at the time of the call. *)
Inductive Call : Type -> Type :=
(* os, os/exec *)
| LookPath (file : string) : Call (option oserror)
| CombinedOutput (name : string) (args : list string)
  : Call (string * option oserror)   (* exec.Command(name, args...).CombinedOutput() *)
| Lstat (name : string) : Call (bool * option oserror)   (* fi.IsDir() *)
| Remove (name : string) : Call (option oserror)
| OpenFile (name : string) : Call (option oserror)  (* O_CREATE|O_RDWR, 0750 *)
| Create (name : string) : Call (option oserror)
| Open (name : string) : Call (option oserror)
| Readdir (name : string) (n : Z) : Call (option oserror)
| Close (name : string) : Call (option oserror)
| MkdirAll (path : string) : Call (option oserror)
(* k8s.io/mount-utils *)
| IsLikelyNotMountPoint (file : string) : Call (bool * option oserror)
| k8s_Mount (source target fstype : string) (options : list string)
  : Call (option oserror)
| k8s_Unmount (target : string) : Call (option oserror)
| GetMountRefs (pathname : string) : Call (list string * option oserror)
| GetDeviceNameFromMount (mountPath : string) : Call (string * option oserror)
| FormatAndMount (source target fstype : string) (options : list string)
  : Call (option oserror)
(* the repository, outside the sources *)
| IsFileExisting (path : string) : Call bool
| IsDir (path : string) : Call bool
| IsMountPointRunv (path : string) : Call bool
| HasMountRefs (mountPath : string) (mountRefs : list string) : Call bool
| utils_FormatAndMount (source target fstype : string)
    (mkfsOptions mountOptions : list string) (omitFsCheck : bool)
  : Call (option oserror)
| ApplyConfig (devicePath : string) (req : NodePublishVolumeRequest)
  : Call (option oserror)
| getVolumeDeviceName (volumeID : string) : Call string
| disk_IsDirEmpty (name : string) : Call (bool * option oserror).

(** What was done: a call with what came back. *)
Inductive Event : Type :=
| Ev {A : Type} (c : Call A) (a : A).

(** *** Views of an event *)

Definition sel_CombinedOutput (ev : Event)
  : option (string * list string * (string * option oserror)) :=
  match ev with
  | Ev c a =>
      match c in Call A return A -> option _ with
      | CombinedOutput x0 x1 => fun a => Some (x0, x1, a)
      | _ => fun _ => None
      end a
  end.

Definition sel_Remove (ev : Event) : option (string * option oserror) :=
  match ev with
  | Ev c a =>
      match c in Call A return A -> option _ with
      | Remove x0 => fun a => Some (x0, a)
      | _ => fun _ => None
      end a
  end.

Definition sel_Lstat (ev : Event) : option (string * (bool * option oserror)) :=
  match ev with
  | Ev c a =>
      match c in Call A return A -> option _ with
      | Lstat x0 => fun a => Some (x0, a)
      | _ => fun _ => None
      end a
  end.

Definition sel_Open (ev : Event) : option (string * option oserror) :=
  match ev with
  | Ev c a =>
      match c in Call A return A -> option _ with
      | Open x0 => fun a => Some (x0, a)
      | _ => fun _ => None
      end a
  end.

Definition sel_Readdir (ev : Event) : option (string * Z * option oserror) :=
  match ev with
  | Ev c a =>
      match c in Call A return A -> option _ with
      | Readdir x0 x1 => fun a => Some (x0, x1, a)
      | _ => fun _ => None
      end a
  end.

Definition sel_Close (ev : Event) : option (string * option oserror) :=
  match ev with
  | Ev c a =>
      match c in Call A return A -> option _ with
      | Close x0 => fun a => Some (x0, a)
      | _ => fun _ => None
      end a
  end.

Definition sel_IsLikelyNotMountPoint (ev : Event)
  : option (string * (bool * option oserror)) :=
  match ev with
  | Ev c a =>
      match c in Call A return A -> option _ with
      | IsLikelyNotMountPoint x0 => fun a => Some (x0, a)
      | _ => fun _ => None
      end a
  end.

Definition sel_k8s_Mount (ev : Event)
  : option (string * string * string * list string * option oserror) :=
  match ev with
  | Ev c a =>
      match c in Call A return A -> option _ with
      | k8s_Mount x0 x1 x2 x3 => fun a => Some (x0, x1, x2, x3, a)
      | _ => fun _ => None
      end a
  end.

Definition sel_k8s_Unmount (ev : Event) : option (string * option oserror) :=
  match ev with
  | Ev c a =>
      match c in Call A return A -> option _ with
      | k8s_Unmount x0 => fun a => Some (x0, a)
      | _ => fun _ => None
      end a
  end.

Definition sel_GetDeviceNameFromMount (ev : Event)
  : option (string * (string * option oserror)) :=
  match ev with
  | Ev c a =>
      match c in Call A return A -> option _ with
      | GetDeviceNameFromMount x0 => fun a => Some (x0, a)
      | _ => fun _ => None
      end a
  end.

Definition sel_GetMountRefs (ev : Event)
  : option (string * (list string * option oserror)) :=
  match ev with
  | Ev c a =>
      match c in Call A return A -> option _ with
      | GetMountRefs x0 => fun a => Some (x0, a)
      | _ => fun _ => None
      end a
  end.

Definition sel_HasMountRefs (ev : Event) : option (string * list string * bool) :=
  match ev with
  | Ev c a =>
      match c in Call A return A -> option _ with
      | HasMountRefs x0 x1 => fun a => Some (x0, x1, a)
      | _ => fun _ => None
      end a
  end.

Definition sel_IsDir (ev : Event) : option (string * bool) :=
  match ev with
  | Ev c a =>
      match c in Call A return A -> option _ with
      | IsDir x0 => fun a => Some (x0, a)
      | _ => fun _ => None
      end a
  end.

Definition sel_IsMountPointRunv (ev : Event) : option (string * bool) :=
  match ev with
  | Ev c a =>
      match c in Call A return A -> option _ with
      | IsMountPointRunv x0 => fun a => Some (x0, a)
      | _ => fun _ => None
      end a
  end.

Definition sel_ApplyConfig (ev : Event)
  : option (string * NodePublishVolumeRequest * option oserror) :=
  match ev with
  | Ev c a =>
      match c in Call A return A -> option _ with
      | ApplyConfig x0 x1 => fun a => Some (x0, x1, a)
      | _ => fun _ => None
      end a
  end.

Definition sel_getVolumeDeviceName (ev : Event) : option (string * string) :=
  match ev with
  | Ev c a =>
      match c in Call A return A -> option _ with
      | getVolumeDeviceName x0 => fun a => Some (x0, a)
      | _ => fun _ => None
      end a
  end.

(** The calls that change the file system: files and directories are
    created or removed, commands are run, volumes are mounted, unmounted
    or formatted. *)
Definition changes (ev : Event) : bool :=
  match ev with
  | Ev c _ =>
      match c with
      | CombinedOutput _ _ | Remove _ | OpenFile _ | Create _ | MkdirAll _
      | k8s_Mount _ _ _ _ | k8s_Unmount _ | FormatAndMount _ _ _ _
      | utils_FormatAndMount _ _ _ _ _ _ | ApplyConfig _ _ => true
      | _ => false
      end
  end.

Section Monad.
(** The state of the operating system and of the other collaborators. *)
Context {W : Type}.

(** How they answer. *)
Class System := respond : forall A, Call A -> W -> A * W.
Context `{!System}.

(** The state a handler runs in: the collaborators, the backing arrays
    of the slices of strings allocated so far, and what has been done. *)
Record State := mkState {
  world : W;
  arrays : list (list string);
  trace : list Event
}.

Definition M (R A : Type) : Type := State -> step R A * State.

Definition ret {R A} (a : A) : M R A := fun s => (Next a, s).

Definition bind {R A B} (m : M R A) (k : A -> M R B) : M R B :=
  fun s =>
    match m s with
    | (Next a, s') => k a s'
    | (Return r, s') => (Return r, s')
    | (Panic, s') => (Panic, s')
    end.

(** [return r] *)
Definition exit {R A} (r : R) : M R A := fun s => (Return r, s).

Definition panic {R A} : M R A := fun s => (Panic, s).

(** A call, recorded with its answer. *)
Definition call {R A} (c : Call A) : M R A :=
  fun s =>
    let '(a, w) := respond A c (world s) in
    (Next a, mkState w (arrays s) (trace s ++ [Ev c a])).

(** The elements of a slice: the first [len] slots of its array. *)
Definition elems (h : list (list string)) (s : slice) : list string :=
  take (len s) (default [] (h !! array s)).

(** The elements of a slice now. *)
Definition read {R} (s : slice) : M R (list string) :=
  fun st => (Next (elems (arrays st) s), st).

Section Append.
(** The capacity the runtime chooses when [append] has to grow a slice
    of capacity [cap] to hold [needed] elements; Go promises only that
    it is enough. *)
Variable growslice : nat -> nat -> nat.

(** [append(s, x)]: in place when the capacity allows, else into a new
    array that starts with a copy of the elements. *)
Definition append {R} (s : slice) (x : string) : M R slice :=
  fun st =>
    let h := arrays st in
    if Nat.ltb (len s) (cap s) then
      (Next (mkSlice (array s) (S (len s)) (cap s)),
       mkState (world st)
               (alter (fun a => <[len s := x]> a) (array s) h)
               (trace st))
    else
      let newcap := growslice (cap s) (S (len s)) in
      (Next (mkSlice (length h) (S (len s)) newcap),
       mkState (world st)
               (h ++ [elems h s ++ x :: replicate (newcap - S (len s)) ""])
               (trace st)).
End Append.

(** A handler, from the state of the collaborators and the arrays of the
    request: what it returns ([None] for a panic) and the state it
    leaves. *)
Definition run {R} (handler : M R R) (w : W) (h : list (list string))
  : option R * State :=
  match handler (mkState w h []) with
  | (Next r, s) => (Some r, s)
  | (Return r, s) => (Some r, s)
  | (Panic, s) => (None, s)
  end.

End Monad.

Arguments State : clear implicits.
Arguments M : clear implicits.

End sys.

Declare Scope sys_scope.
Delimit Scope sys_scope with sys.
Notation "'let*' x ':=' c 'in' k" := (sys.bind c (fun x => k))
  (at level 10, x pattern, c at level 100, k at level 200) : sys_scope.

(** ** The mounter of pkg/utils *)

Module mounter.
Import node sys.
Local Open Scope sys_scope.

Section Mounter.
Context {W : Type} {C : System (W:=W)}.

(** [func (m *mounter) EnsureFolder(target string) error] *)
Definition EnsureFolder {R} (target : string) : M W R (option goerr) :=
  let mdkirCmd := "mkdir" in
  let* err := call (LookPath mdkirCmd) in
  match err with
  | Some e =>
      if is_execErrNotFound e
      then ret (Some (Errorf "%q executable not found in $PATH" None))
      else ret (Some (Passed e))
  | None =>
      let mkdirArgs := ["-p"; target] in
      let* (_, err) := call (CombinedOutput mdkirCmd mkdirArgs) in
      match err with
      | Some e => ret (Some (Errorf "mkdir for folder error: %v" (Some e)))
      | None => ret None
      end
  end.

(** The end of [EnsureBlock]: the file is created and closed. *)
Definition create_block {R} (target : string) : M W R (option goerr) :=
  let* err := call (OpenFile target) in
  match err with
  | Some e => ret (Some (Errorf "create block error: %v" (Some e)))
  | None =>
      let* err := call (Close target) in
      match err with
      | Some e => ret (Some (Errorf "close block error: %v" (Some e)))
      | None => ret None
      end
  end.

(** [func (m *mounter) EnsureBlock(target string) error] *)
Definition EnsureBlock {R} (target : string) : M W R (option goerr) :=
  let* (isDir, err) := call (Lstat target) in
  match err with
  | Some e =>
      if negb (os_IsNotExist e) then ret (Some (Passed e))
      else create_block target
  | None =>
      let* _ := if isDir : bool
                then let* _ := call (Remove target) in ret tt
                else ret tt in
      create_block target
  end.

(** [func (m *mounter) Format(source, fsType string) error] *)
Definition Format {R} (source fsType : string) : M W R (option goerr) :=
  let mkfsCmd := "mkfs." +:+ fsType in
  let* err := call (LookPath mkfsCmd) in
  match err with
  | Some e =>
      if is_execErrNotFound e
      then ret (Some (Errorf "%q executable not found in $PATH" None))
      else ret (Some (Passed e))
  | None =>
      if String.eqb fsType "" then
        ret (Some (Errorf "fs type is not specified for formatting the volume" None))
      else if String.eqb source "" then
        ret (Some (Errorf "source is not specified for formatting the volume" None))
      else
        let mkfsArgs :=
          if String.eqb fsType "ext4" || String.eqb fsType "ext3"
          then ["-F"; source] else [source] in
        let* (_, err) := call (CombinedOutput mkfsCmd mkfsArgs) in
        match err with
        | Some e =>
            ret (Some (Errorf "formatting disk failed: %v cmd: '%s %s' output: %q"
                              (Some e)))
        | None => ret None
        end
  end.

(** [if len(opts) > 0 { mountArgs = append(mountArgs, "-o",
    strings.Join(opts, ",")) }] *)
Definition option_args (opts : list string) : list string :=
  if Nat.ltb 0 (length opts) then ["-o"; strings.Join opts ","] else [].

(** [func (m *mounter) MountBlock(source, target string, opts ...string)
    error] *)
Definition MountBlock {R} (source target : string) (opts : list string)
  : M W R (option goerr) :=
  let mountCmd := "mount" in
  if String.eqb source "" then
    ret (Some (Errorf "source is not specified for mounting the volume" None))
  else if String.eqb target "" then
    ret (Some (Errorf "target is not specified for mounting the volume" None))
  else
    let mountArgs := (option_args opts ++ [source]) ++ [target] in
    (* create target, os.Mkdirall is noop if it exists *)
    let* err := call (Create target) in
    match err with
    | Some e => ret (Some (Passed e))
    | None =>
        let* (_, err) := call (CombinedOutput mountCmd mountArgs) in
        match err with
        | Some e =>
            ret (Some (Errorf "mounting failed: %v cmd: '%s %s' output: %q"
                              (Some e)))
        | None => ret None
        end
    end.

(** [func (m *mounter) Mount(source, target, fsType string, opts
    ...string) error] *)
Definition Mount {R} (source target fsType : string) (opts : list string)
  : M W R (option goerr) :=
  let mountCmd := "mount" in
  if String.eqb fsType "" then
    ret (Some (Errorf "fs type is not specified for mounting the volume" None))
  else if String.eqb source "" then
    ret (Some (Errorf "source is not specified for mounting the volume" None))
  else if String.eqb target "" then
    ret (Some (Errorf "target is not specified for mounting the volume" None))
  else
    let mountArgs := ((["-t"; fsType] ++ option_args opts) ++ [source]) ++ [target] in
    (* create target, os.Mkdirall is noop if it exists *)
    let* err := call (MkdirAll target) in
    match err with
    | Some e => ret (Some (Passed e))
    | None =>
        let* (_, err) := call (CombinedOutput mountCmd mountArgs) in
        match err with
        | Some e =>
            ret (Some (Errorf "mounting failed: %v cmd: '%s %s' output: %q"
                              (Some e)))
        | None => ret None
        end
    end.

(** [func (m *mounter) Unmount(target string) error] *)
Definition Unmount {R} (target : string) : M W R (option goerr) :=
  let umountCmd := "umount" in
  if String.eqb target "" then
    ret (Some (Errorf "target is not specified for unmounting the volume" None))
  else
    let umountArgs := [target] in
    let* (_, err) := call (CombinedOutput umountCmd umountArgs) in
    match err with
    | Some e =>
        ret (Some (Errorf "unmounting failed: %v cmd: '%s %s' output: %q" (Some e)))
    | None => ret None
    end.

(** [func IsDirEmpty(name string) (bool, error)]: return status of dir
    empty or not. The deferred [f.Close()] runs when the function
    returns after the directory was opened. *)
Definition IsDirEmpty {R} (name : string) : M W R (bool * option oserror) :=
  let* err := call (Open name) in
  match err with
  | Some e => ret (false, Some e)
  | None =>
      (* read in ONLY one file *)
      let* err := call (Readdir name 1) in
      let result :=
        match err with
        | Some e =>
            (* and if the file is EOF... well, the dir is empty. *)
            if is_ioEOF e then (true, None) else (false, Some e)
        | None => (false, None)
        end in
      let* _ := call (Close name) in
      ret result
  end.

End Mounter.
End mounter.

(** ** pkg/ens/nodeserver.go: Publish and Unpublish *)

Module ens_pod.
Import node sys.
Local Open Scope sys_scope.

Definition MKFS_OPTIONS : string := "mkfsOptions".

Section Handlers.
Context {W : Type} {C : System (W:=W)}.
Variable L : Lib.
Variable growslice : nat -> nat -> nat.

(** BLOCK_VOLUME_PREFIX block volume mount prefix *)
Definition BLOCK_VOLUME_PREFIX : string :=
  filepath_Join L (KubeletRootDir L)
                "/plugins/kubernetes.io/csi/volumeDevices/publish".

Definition fail_if (err : option oserror) (code : Code) : M W reply unit :=
  match err with
  | Some _ => exit (Fail (Status code))
  | None => ret tt
  end.

(** [fsType := "ext4"; if mnt.FsType != "" { fsType = mnt.FsType }] *)
Definition fsTypeOf (FsType : string) : string :=
  if String.eqb FsType "" then "ext4" else FsType.

(** [func (ns *nodeServer) mountDeviceToGlobal(capability,
    volumeContext, device, sourcePath) error] *)
Definition mountDeviceToGlobal {R}
    (capability : option AccessType) (volumeContext : gmap string string)
    (device sourcePath : string) : M W R (option error) :=
  match capability with
  | Some (MountVolume FsType MountFlags) =>
      let* options := append growslice MountFlags "shared" in
      let fsType := fsTypeOf FsType in
      let* options := read options in
      let mountOptions := mountopts.collectMountOptions fsType options in
      let* err := call (MkdirAll sourcePath) in
      match err with
      | Some _ => ret (Some (Status Internal))
      | None =>
          (* Set mkfs options for ext3, ext4 *)
          let mkfsOptions :=
            match volumeContext !! MKFS_OPTIONS with
            | Some value => strings.Split value " "
            | None => []
            end in
          (* do format-mount or mount *)
          if Nat.ltb 0 (length mkfsOptions)
             && (String.eqb fsType "ext4" || String.eqb fsType "ext3")
          then
            let* err := call (utils_FormatAndMount device sourcePath fsType
                                mkfsOptions mountOptions false) in
            match err with
            | Some _ => ret (Some (Status Internal))
            | None => ret None
            end
          else
            let* err := call (FormatAndMount device sourcePath fsType
                                             mountOptions) in
            match err with
            | Some _ => ret (Some (Status Internal))
            | None => ret None
            end
      end
  | _ => panic   (* mnt is nil *)
  end.

(** The path that [unmountDuplicateMountPoint] looks at, for the name
    of the volume directory: [filepath.Join] of three elements, the
    first of which is not empty, cleans their concatenation. *)
Definition globalPath2 (volume : string) : string :=
  filepath_Clean L
    (strings.Join ["/var/lib/container/kubelet/plugins/kubernetes.io/csi/pv/";
                   volume; "/globalmount"] "/").

(** [func (ns *nodeServer) unmountDuplicateMountPoint(targetPath string)
    error] *)
Definition unmountDuplicateMountPoint {R} (targetPath : string)
  : M W R (option error) :=
  let pathParts := strings.Split targetPath "/" in
  let partsLen := length pathParts in
  if Nat.ltb 2 partsLen
     && String.eqb (default "" (pathParts !! (partsLen - 1))) "mount"
  then
    let globalPath2 := globalPath2 (default "" (pathParts !! (partsLen - 2))) in
    let* existing := call (IsFileExisting globalPath2) in
    if existing : bool then
      (* check globalPath2 is mountpoint *)
      let* (notmounted, err) := call (IsLikelyNotMountPoint globalPath2) in
      match err with
      | None =>
          if negb notmounted then
            (* check device is used by others *)
            let* (refs, err) := call (GetMountRefs globalPath2) in
            match err with
            | None =>
                let* used := call (HasMountRefs globalPath2 refs) in
                if negb used then
                  let* err := call (k8s_Unmount globalPath2) in
                  match err with
                  | Some _ => ret (Some (Status Internal))
                  | None => ret None
                  end
                else ret None
            | Some _ => ret None
            end
          else ret None
      | Some _ => ret None
      end
    else ret None
  else ret None.

(** *** NodePublishVolume *)

Definition NodePublishVolume (req : NodePublishVolumeRequest) : M W reply reply :=
  (* check target mount path *)
  (* running in runc/runv mode *)
  let isBlock := isBlockCapability (publish_VolumeCapability req) in
  let sourcePath :=
    if isBlock then
      filepath_Join L (publish_StagingTargetPath req) (publish_VolumeId req)
    else publish_StagingTargetPath req in
  let targetPath := publish_TargetPath req in
  let* _ := if String.eqb (publish_StagingTargetPath req) ""
            then exit (Fail (Status InvalidArgument)) else ret tt in
  (* check if block volume *)
  if isBlock then
    let* (notMounted, err) := call (IsLikelyNotMountPoint targetPath) in
    let* _ := match err with
              | Some e => if negb (is_fsErrNotExist e)
                          then exit (Fail (Status Internal)) else ret tt
              | None => ret tt
              end in
    let* _ :=
      if notMounted : bool then
        let* err := mounter.EnsureBlock targetPath in
        let* _ := match err with
                  | Some _ => exit (Fail (Status Internal))
                  | None => ret tt
                  end in
        let* err := mounter.MountBlock sourcePath targetPath ["bind"] in
        match err with
        | Some e => exit (Fail (Err e))
        | None => ret tt
        end
      else ret tt in
    ret OK
  else
    let* err := call (MkdirAll targetPath) in
    let* _ := fail_if err Internal in
    let* (notmounted, err) := call (IsLikelyNotMountPoint targetPath) in
    let* _ := fail_if err Internal in
    let* _ := if negb notmounted then exit OK else ret tt in
    let* (sourceNotMounted, err) := call (IsLikelyNotMountPoint sourcePath) in
    let* _ := fail_if err Internal in
    let* expectDevice := call (getVolumeDeviceName (publish_VolumeId req)) in
    let* _ :=
      if sourceNotMounted : bool then
        if negb (String.eqb expectDevice "") then
          let* err := mountDeviceToGlobal (publish_VolumeCapability req)
                        (publish_VolumeContext req) expectDevice sourcePath in
          match err with
          | Some _ => exit (Fail (Status Internal))
          | None => ret tt
          end
        else exit (Fail (Status Internal))
      else ret tt in
    (* start to mount *)
    match publish_VolumeCapability req with
    | Some (MountVolume FsType MountFlags) =>
        let* options := append growslice MountFlags "bind" in
        let* options :=
          if publish_Readonly req then append growslice options "ro"
          else ret options in
        let fsType := fsTypeOf FsType in
        (* check device name available *)
        let* (realDevice, err) := call (GetDeviceNameFromMount sourcePath) in
        let* _ := fail_if err Internal in
        let* realDevice :=
          if String.eqb realDevice "" then
            let* opts := append growslice MountFlags "shared" in
            let* opts := read opts in
            let* err := call (k8s_Mount expectDevice sourcePath fsType opts) in
            let* _ := fail_if err Internal in
            let* (realDevice, err) := call (GetDeviceNameFromMount sourcePath) in
            let* _ := fail_if err Internal in
            ret realDevice
          else ret realDevice in
        let* _ :=
          if negb (String.eqb expectDevice realDevice) || String.eqb realDevice ""
          then exit (Fail (Status Internal)) else ret tt in
        (* Set volume IO Limit *)
        let* err := call (ApplyConfig realDevice req) in
        let* _ := fail_if err Internal in
        let* options := read options in
        let* err := call (k8s_Mount sourcePath targetPath fsType options) in
        let* _ := fail_if err Internal in
        ret OK
    | _ => panic   (* mnt is nil *)
    end.

(** *** NodeUnpublishVolume *)

Definition NodeUnpublishVolume (req : NodeUnpublishVolumeRequest)
  : M W reply reply :=
  let targetPath := unpublish_TargetPath req in
  (* Step 1: check folder exists *)
  let* existing := call (IsFileExisting targetPath) in
  let* _ :=
    if negb existing then
      let* err := unmountDuplicateMountPoint targetPath in
      match err with
      | Some _ => exit (Fail (Status Internal))
      | None => exit OK
      end
    else ret tt in
  (* Step 2: check mount point *)
  let* (notmounted, err) := call (IsLikelyNotMountPoint targetPath) in
  let* _ := fail_if err Internal in
  let* _ :=
    if notmounted : bool then
      let* (empty, _) := mounter.IsDirEmpty targetPath in
      if empty : bool then
        let* err := unmountDuplicateMountPoint targetPath in
        match err with
        | Some _ => exit (Fail (Status Internal))
        | None => exit OK
        end
      else
        (* Block device *)
        let* isDir := call (IsDir targetPath) in
        if negb isDir && strings.HasPrefix targetPath BLOCK_VOLUME_PREFIX then
          let* removeErr := call (Remove targetPath) in
          let* _ := fail_if removeErr Internal in
          exit OK
        else exit (Fail (Status Internal))
    else ret tt in
  (* Step 3: umount target path *)
  let* err := call (k8s_Unmount targetPath) in
  let* _ := fail_if err Internal in
  let* err := call (Remove targetPath) in
  let* _ := fail_if err Internal in
  (* below directory can not be umounted by kubelet in ack *)
  let* err := unmountDuplicateMountPoint targetPath in
  let* _ := match err with
            | Some _ => exit (Fail (Status Internal))
            | None => ret tt
            end in
  ret OK.

End Handlers.
End ens_pod.

(** ** pkg/disk/nodeserver.go: Unpublish *)

Module disk_pod.
Import node sys.
Local Open Scope sys_scope.

Section Handlers.
Context {W : Type} {C : System (W:=W)}.
Variable L : Lib.
Variable GlobalConfigVar : disk.GlobalConfig.

Definition fail_if (err : option oserror) (code : Code) : M W reply unit :=
  match err with
  | Some _ => exit (Fail (Status code))
  | None => ret tt
  end.

Definition NodeUnpublishVolume (req : NodeUnpublishVolumeRequest)
  : M W reply reply :=
  let targetPath := unpublish_TargetPath req in
  (* Step 1: check folder exists *)
  let* existing := call (IsFileExisting targetPath) in
  let* _ := if negb existing then exit OK else ret tt in
  (* Step 2: check mount point *)
  let* (notmounted, err) := call (IsLikelyNotMountPoint targetPath) in
  let* _ := fail_if err Internal in
  let* _ :=
    if notmounted : bool then
      (* check runtime mode *)
      let* runv :=
        if String.eqb (disk.RunTimeClass GlobalConfigVar) disk.MixRunTimeMode
        then call (IsMountPointRunv targetPath)
        else ret false in
      if runv : bool then
        let fileName := filepath_Join L targetPath (CsiPluginRunTimeFlagFile L) in
        let* err := call (Remove fileName) in
        let* _ := fail_if err InvalidArgument in
        exit OK
      else
        let* (empty, _) := call (disk_IsDirEmpty targetPath) in
        if empty : bool then exit OK
        else
          (* Block device *)
          let* isDir := call (IsDir targetPath) in
          if negb isDir && strings.HasPrefix targetPath (disk.BLOCKVOLUMEPREFIX L)
          then
            let* removeErr := call (Remove targetPath) in
            let* _ := fail_if removeErr Internal in
            exit OK
          else exit (Fail (Status Internal))
    else ret tt in
  (* Step 3: umount target path *)
  let* err := call (k8s_Unmount targetPath) in
  let* _ := fail_if err Internal in
  let* err := call (Remove targetPath) in
  let* _ := fail_if err Internal in
  ret OK.

End Handlers.
End disk_pod.

(** ** The OpenAPI client configuration (pkg/utils) *)

Module openapi.

(** [openapi.Config]: the fields that are set, [None] for nil. *)
Record Config := mkConfig {
  RegionId : option string;
  Protocol : option string;
  Network : option string;
  Endpoint : option string
}.

(** [func getRegionalEndpoint(product, network, regionID string)
    *string] *)
Definition getRegionalEndpoint (product network regionID : string)
  : option string :=
  if String.eqb network "" then None   (* use SDK default *)
  else
    let network :=
      if String.eqb network "public" then "" else "-" +:+ network in
    Some (product +:+ network +:+ "." +:+ regionID +:+ ".aliyuncs.com").

Section Getenv.
(** [os.Getenv] *)
Variable Getenv : string -> string.

(** [if e := os.Getenv(name); e != "" { field = &e }] *)
Definition from_env (name : string) (field : option string) : option string :=
  let e := Getenv name in
  if negb (String.eqb e "") then Some e else field.

(** [func getOpenAPIConfig(regionID string) *openapi.Config] *)
Definition getOpenAPIConfig (regionID : string) : Config :=
  {| RegionId := Some regionID;
     Protocol := from_env "ALICLOUD_CLIENT_SCHEME" None;
     Network := from_env "ALIBABA_CLOUD_NETWORK_TYPE" None;
     Endpoint := None |}.

(** [func GetStsConfig(regionID string) *openapi.Config] *)
Definition GetStsConfig (regionID : string) : Config :=
  let config := getOpenAPIConfig regionID in
  {| RegionId := RegionId config;
     Protocol := Protocol config;
     Network := Network config;
     Endpoint := from_env "STS_ENDPOINT" (Endpoint config) |}.

(** [func GetEcsConfig(regionID string) *openapi.Config] *)
Definition GetEcsConfig (regionID : string) : Config :=
  let config := getOpenAPIConfig regionID in
  let e := Getenv "ECS_ENDPOINT" in
  {| RegionId := RegionId config;
     Protocol := Protocol config;
     Network := Network config;
     Endpoint :=
       if negb (String.eqb e "") then Some e
       else
         (* ECS default endpoint logic maps cn-hangzhou, etc to public
            network, but we may want to use VPC. cn-hangzhou-finance is
            the only region in public cloud that don't have VPC
            endpoint. *)
         let network := default "" (Network config) in
         let network :=
           if String.eqb regionID "cn-hangzhou-finance" then "" else network in
         getRegionalEndpoint "ecs" network regionID |}.

(** [func GetEfloControllerConfig(regionID string) *openapi.Config] *)
Definition GetEfloControllerConfig (regionID : string) : Config :=
  (* lingjun region could be different from ack region *)
  let r := Getenv "EFLO_CONTROLLER_REGION" in
  let regionID := if negb (String.eqb r "") then r else regionID in
  let config := getOpenAPIConfig regionID in
  let e := Getenv "EFLO_CONTROLLER_ENDPOINT" in
  let endpoint :=
    if negb (String.eqb e "") then Some e
    else
      (* eflo-controller SDK client.EndpointRule is incorrect. *)
      let network := default "public" (Network config) in
      getRegionalEndpoint "eflo-controller" network regionID in
  {| RegionId := RegionId config;
     Protocol :=
       match Protocol config with
       | None =>
           (* must use HTTP in lingjun test regions *)
           if strings.Contains regionID "test" then Some "http" else None
       | Some p => Some p
       end;
     Network := Network config;
     Endpoint := endpoint |}.

End Getenv.
End openapi.


(** ** More scenarios *)

Module more_scenarios.
Import node scenarios.

(** A node with the instance id under the label that NODE_LABEL_ECS_ID_KEY
    names, under the built-in label and in the provider id. *)
Definition node_with_three_ids : metadata.KubernetesNodeMetadata :=
  metadata.mkKubernetesNodeMetadata
    (metadata.mkNode
       {[ "example.com/instance" := "i-1";
          "alibabacloud.com/ecs-instance-id" := "i-2" ]}
       "alicloud://cn-hangzhou.i-3")
    "example.com/instance".

(** A Publish request of pkg/disk for volume d-1, read-only, as an ext4
    filesystem. *)
Definition publish_request : NodePublishVolumeRequest :=
  {| publish_VolumeId := "d-1";
     publish_StagingTargetPath :=
       "/var/lib/kubelet/plugins/kubernetes.io/csi/pv/pv-1/globalmount";
     publish_TargetPath :=
       "/var/lib/kubelet/pods/p/volumes/kubernetes.io~csi/pv-1/mount";
     publish_VolumeCapability := Some (MountVolume "ext4" ["noatime"]);
     publish_VolumeContext := ∅;
     publish_Readonly := true |}.

(** The volume is staged: the staging path is a mount point of
    /dev/vdb. *)
Definition staged : Collaborators (W := unit) :=
  fun A c w =>
    (match c in Call T return T with
     | IsLikelyNotMountPoint p =>
         (negb (String.eqb p (publish_StagingTargetPath publish_request)), None)
     | GetDeviceNameFromMount _ => ("/dev/vdb", None)
     | c0 => quiet c0
     end, w).

(** The staging path is a mount point that shows no device until it is
    mounted again; the state counts the mounts. *)
Definition hidden_device : Collaborators (W := nat) :=
  fun A c w =>
    match c in Call T return T * nat with
    | IsLikelyNotMountPoint p =>
        ((negb (String.eqb p (publish_StagingTargetPath publish_request)), None), w)
    | GetDeviceNameFromMount _ =>
        ((if Nat.eqb w 0 then "" else "/dev/vdb", None), w)
    | Mount _ _ _ _ => (None, S w)
    | c0 => (quiet c0, w)
    end.

(** The staging path of the Unstage request exists, and is a mount point
    until it is unmounted; the state tells whether it is mounted. *)
Definition staging_mounted : Collaborators (W := bool) :=
  fun A c w =>
    match c in Call T return T * bool with
    | IsFileExisting p =>
        (String.eqb p (unstage_StagingTargetPath unstage_request), w)
    | IsLikelyNotMountPoint _ => ((negb w, None), w)
    | Unmount _ => (None, false)
    | c0 => (quiet c0, w)
    end.

End more_scenarios.

Module pod_scenarios.
Import node sys.

(** Every call succeeds, nothing exists yet or is mounted, the device of
    every volume is /dev/vdb. *)
Definition idle {A : Type} (c : Call A) : A :=
  match c in Call T return T with
  | LookPath _ => None
  | CombinedOutput _ _ => ("", None)
  | Lstat _ => (false, None)
  | Remove _ => None
  | OpenFile _ => None
  | Create _ => None
  | Open _ => None
  | Readdir _ _ => None
  | Close _ => None
  | MkdirAll _ => None
  | IsLikelyNotMountPoint _ => (true, None)
  | k8s_Mount _ _ _ _ => None
  | k8s_Unmount _ => None
  | GetMountRefs _ => ([], None)
  | GetDeviceNameFromMount _ => ("/dev/vdb", None)
  | FormatAndMount _ _ _ _ => None
  | IsFileExisting _ => false
  | IsDir _ => false
  | IsMountPointRunv _ => false
  | HasMountRefs _ _ => false
  | utils_FormatAndMount _ _ _ _ _ _ => None
  | ApplyConfig _ _ => None
  | getVolumeDeviceName _ => "/dev/vdb"
  | disk_IsDirEmpty _ => (true, None)
  end.

Definition staging_path : string :=
  "/var/lib/kubelet/plugins/kubernetes.io/csi/pv/pv-1/globalmount".

(** The staging path is a mount point, and shows no device until it is
    mounted again; the state counts the mounts. *)
Definition device_hidden : System (W := nat) :=
  fun A c w =>
    match c in Call T return T * nat with
    | IsLikelyNotMountPoint p => ((negb (String.eqb p staging_path), None), w)
    | GetDeviceNameFromMount _ =>
        ((if Nat.eqb w 0 then "" else "/dev/vdb", None), w)
    | k8s_Mount _ _ _ _ => (None, S w)
    | c0 => (idle c0, w)
    end.

(** The mount flags of the request: three flags in an array of four. *)
Definition three_flags : list (list string) :=
  [["noatime"; "nodiratime"; "discard"; ""]].

(** A Publish request of pkg/ens for volume d-1 as an ext4 filesystem
    with these flags. *)
Definition publish_request : NodePublishVolumeRequest :=
  {| publish_VolumeId := "d-1";
     publish_StagingTargetPath := staging_path;
     publish_TargetPath :=
       "/var/lib/kubelet/pods/p/volumes/kubernetes.io~csi/pv-1/mount";
     publish_VolumeCapability := Some (MountVolume "ext4" (mkSlice 0 3 4));
     publish_VolumeContext := ∅;
     publish_Readonly := false |}.

End pod_scenarios.

(* ===================================================================== *)
(** * Properties *)
(* ===================================================================== *)

Section MountOptions.
Import mountopts.

Lemma hasMountOption_spec options opt :
  hasMountOption options opt = true <-> opt ∈ options.
Proof.
  induction options as [|o rest IH]; simpl.
  - split; [discriminate | intros H; inversion H].
  - destruct (String.eqb_spec o opt) as [->|Hne].
    + split; [intros _; left | reflexivity].
    + rewrite IH. split; [intros H; now right |].
      intros H. inversion H; subst; [congruence | assumption].
Qed.

Lemma hasMountOption_false options opt :
  hasMountOption options opt = false <-> opt ∉ options.
Proof.
  rewrite <- hasMountOption_spec. destruct (hasMountOption options opt);
    split; congruence.
Qed.

Lemma filter_filter_andb (f g : string -> bool) (l : list string) :
  List.filter f (List.filter g l) = List.filter (fun x => g x && f x) l.
Proof.
  induction l as [|a l IH]; simpl; [reflexivity|].
  destruct (g a); simpl; [destruct (f a)|]; now rewrite IH.
Qed.

Lemma elem_of_bfilter (f : string -> bool) (l : list string) x :
  x ∈ List.filter f l <-> x ∈ l /\ f x = true.
Proof. rewrite !list_elem_of_In. apply List.filter_In. Qed.

Lemma hasMountOption_snoc options x y :
  hasMountOption (options ++ [x]) y
  = hasMountOption options y || String.eqb y x.
Proof.
  induction options as [|o rest IH]; simpl.
  - rewrite (String.eqb_sym x y). now destruct (String.eqb y x).
  - destruct (String.eqb o y); [reflexivity | exact IH].
Qed.

(** The loop, from any accumulated prefix: what is appended is the list of
    first occurrences of the flags not yet collected. *)
Lemma collect_loop mntFlags : forall options,
  fold_left collect_step mntFlags options
  = options ++ List.filter (fun y => negb (hasMountOption options y))
                           (first_occurrences mntFlags).
Proof.
  induction mntFlags as [|x rest IH]; intros options; simpl.
  - now rewrite app_nil_r.
  - rewrite IH. unfold collect_step.
    destruct (hasMountOption options x) eqn:Hx; simpl.
    + f_equal. rewrite filter_filter_andb. apply List.filter_ext_in.
      intros y _. destruct (String.eqb_spec y x) as [->|]; simpl;
        [now rewrite Hx | reflexivity].
    + rewrite <- app_assoc. simpl. do 2 f_equal.
      rewrite filter_filter_andb. apply List.filter_ext.
      intros y. rewrite hasMountOption_snoc.
      destruct (String.eqb y x), (hasMountOption options y); reflexivity.
Qed.

Lemma first_occurrences_elem l x : x ∈ first_occurrences l <-> x ∈ l.
Proof.
  induction l as [|a l IH]; simpl; [reflexivity|].
  rewrite !elem_of_cons, elem_of_bfilter, IH.
  destruct (String.eqb_spec x a) as [->|Hne]; simpl; [tauto|].
  intuition congruence.
Qed.

Lemma first_occurrences_NoDup l : NoDup (first_occurrences l).
Proof.
  induction l as [|a l IH]; simpl; constructor.
  - rewrite elem_of_bfilter, String.eqb_refl. intros [_ H]. discriminate.
  - apply NoDup_ListNoDup, List.NoDup_filter, NoDup_ListNoDup, IH.
Qed.

Lemma count_one_of_NoDup (l : list string) x :
  NoDup l -> x ∈ l -> length (List.filter (String.eqb x) l) = 1.
Proof.
  induction 1 as [|a l Hnotin Hnd IH]; intros Hin; [inversion Hin|].
  simpl. destruct (String.eqb_spec x a) as [->|Hne].
  - simpl. f_equal. apply length_zero_iff_nil.
    destruct (List.filter (String.eqb a) l) as [|b t] eqn:Hf; [reflexivity|].
    assert (Hb : b ∈ List.filter (String.eqb a) l) by (rewrite Hf; left).
    apply elem_of_bfilter in Hb as [Hb Heq].
    apply String.eqb_eq in Heq. subst. contradiction.
  - apply IH. inversion Hin; subst; [congruence | assumption].
Qed.

Lemma collectMountOptions_eq fsType mntFlags :
  collectMountOptions fsType mntFlags
  = first_occurrences mntFlags
    ++ (if String.eqb fsType "xfs" && negb (hasMountOption mntFlags NOUUID)
        then [NOUUID] else []).
Proof.
  unfold collectMountOptions. rewrite collect_loop. simpl.
  assert (Hall : forall l : list string, List.filter (fun _ => true) l = l).
  { induction l as [|a l IH]; simpl; congruence. }
  rewrite Hall.
  assert (Hhas : hasMountOption (first_occurrences mntFlags) NOUUID
                 = hasMountOption mntFlags NOUUID).
  { destruct (hasMountOption mntFlags NOUUID) eqn:H.
    - apply hasMountOption_spec, first_occurrences_elem, hasMountOption_spec, H.
    - apply hasMountOption_false. rewrite first_occurrences_elem.
      now apply hasMountOption_false. }
  rewrite Hhas.
  destruct (String.eqb fsType "xfs"), (hasMountOption mntFlags NOUUID); simpl;
    now rewrite ?app_nil_r.
Qed.

(** C5. For every list of mount flags and every fsType, the options that
    [collectMountOptions] assembles are the flags in first-occurrence
    order with the duplicates removed; when fsType is "xfs" the option
    "nouuid" is appended unless it is already there, so that it appears
    exactly once; flags ["ro","ro","discard"] with fsType "xfs" give
    exactly ["ro","discard","nouuid"]. *)
Theorem collectMountOptions_dedup_nouuid (fsType : string) (mntFlags : list string) :
  let options := collectMountOptions fsType mntFlags in
  options = first_occurrences mntFlags
            ++ (if String.eqb fsType "xfs" && negb (hasMountOption mntFlags NOUUID)
                then [NOUUID] else [])
  /\ NoDup options
  /\ (forall opt, opt ∈ options <->
                  opt ∈ mntFlags \/ (fsType = "xfs" /\ opt = NOUUID))
  /\ (fsType = "xfs" ->
      length (List.filter (String.eqb NOUUID) options) = 1)
  /\ collectMountOptions "xfs" ["ro"; "ro"; "discard"]
     = ["ro"; "discard"; "nouuid"].
Proof.
  intros options.
  assert (Hmem : forall opt, opt ∈ options <->
                   opt ∈ mntFlags \/ (fsType = "xfs" /\ opt = NOUUID)).
  { intros opt. subst options. rewrite collectMountOptions_eq.
    rewrite elem_of_app, first_occurrences_elem.
    destruct (String.eqb_spec fsType "xfs") as [->|Hfs]; simpl.
    - destruct (hasMountOption mntFlags NOUUID) eqn:Hh; simpl.
      + apply hasMountOption_spec in Hh. split.
        * intros [H|H]; [now left | inversion H].
        * intros [H|[_ ->]]; now left.
      + rewrite list_elem_of_singleton. tauto.
    - split; [intros [H|H]; [now left | inversion H] | intros [H|[? _]]];
        [now left | contradiction]. }
  assert (Hnd : NoDup options).
  { subst options. rewrite collectMountOptions_eq.
    apply NoDup_app. split; [apply first_occurrences_NoDup|]. split.
    - intros x Hx Hx'.
      destruct (String.eqb fsType "xfs"); simpl in Hx'; [|inversion Hx'].
      destruct (hasMountOption mntFlags NOUUID) eqn:Hh; simpl in Hx';
        [inversion Hx'|].
      apply list_elem_of_singleton in Hx'. subst x.
      rewrite first_occurrences_elem in Hx.
      apply hasMountOption_false in Hh. exact (Hh Hx).
    - destruct (_ && _); [apply NoDup_singleton | constructor]. }
  split; [apply collectMountOptions_eq|].
  split; [exact Hnd|]. split; [exact Hmem|]. split; [|reflexivity].
  intros Hxfs. apply count_one_of_NoDup; [exact Hnd|].
  apply Hmem. now right.
Qed.

End MountOptions.

(** ** The provider chain *)

Section MetadataGet.
Import metadata.
Context {W P : Type} {MP : MetadataProvider (W:=W) P}.

Lemma Get_loop_all_fail key ps w errs ps' w' :
  all_fail key ps w errs ps' w' ->
  forall errors,
    Get_loop ps key errors w
    = (match errors ++ collected errs with
       | [] => Returns "" (Some ErrUnknownMetadataKey)
       | e :: l => Returns "" (Some (aggregate (e :: l)))
       end, ps', w').
Proof.
  induction 1 as [w|p ps w v e p' w' errs ps' w'' Hget _ IH]; intros errors.
  - simpl. rewrite app_nil_r. now destruct errors.
  - simpl. rewrite Hget, IH. unfold collected. simpl.
    destruct (isErrUnknownMetadataKey e); simpl; [reflexivity|].
    now rewrite <- app_assoc.
Qed.

Lemma Get_loop_first_value key pre w errs pre' w1 p post v p' w2 :
  all_fail key pre w errs pre' w1 ->
  Get p key w1 = (Returns v None, p', w2) ->
  forall errors,
    Get_loop (pre ++ p :: post) key errors w
    = (Returns v None, pre' ++ p' :: post, w2).
Proof.
  induction 1 as [w|q ps w u e q' w' errs ps' w'' Hget _ IH];
    intros Hp errors; simpl.
  - now rewrite Hp.
  - rewrite Hget. now rewrite (IH Hp).
Qed.

(** C1. [Metadata.Get(key)] tries the providers in order. The first
    provider that returns a value wins, whatever the providers before it
    failed with. When every provider fails, the errors other than the
    unknown-key sentinel are the ones collected, in order: if there is
    none (no provider recognises the key) the result is the unknown-key
    error, otherwise it is the aggregate of the collected errors, which is
    not the unknown-key error. *)
Theorem Metadata_Get_fallback (key : MetadataKey) :
  (forall pre p post w errs pre' w1 v p' w2,
      all_fail key pre w errs pre' w1 ->
      Get p key w1 = (Returns v None, p', w2) ->
      Get (mkMetadata (pre ++ p :: post)) key w
      = (Returns v None, mkMetadata (pre' ++ p' :: post), w2))
  /\ (forall ps w errs ps' w',
      all_fail key ps w errs ps' w' ->
      (Forall (fun e => e = ErrUnknownMetadataKey) errs ->
       Get (mkMetadata ps) key w
       = (Returns "" (Some ErrUnknownMetadataKey), mkMetadata ps', w'))
      /\ (Exists (fun e => e <> ErrUnknownMetadataKey) errs ->
          collected errs <> []
          /\ Get (mkMetadata ps) key w
             = (Returns "" (Some (aggregate (collected errs))), mkMetadata ps', w')
          /\ isErrUnknownMetadataKey (aggregate (collected errs)) = false)).
Proof.
  split.
  - intros pre p post w errs pre' w1 v p' w2 Hfail Hp.
    unfold Get at 1, Metadata_Get. simpl.
    now rewrite (Get_loop_first_value _ _ _ _ _ _ _ post _ _ _ Hfail Hp).
  - intros ps w errs ps' w' Hfail.
    pose proof (Get_loop_all_fail _ _ _ _ _ _ Hfail []) as Hloop.
    simpl in Hloop. split.
    + intros Hall.
      assert (Hc : collected errs = []).
      { clear Hloop Hfail. unfold collected.
        induction Hall as [|e l He _ IH]; simpl; [reflexivity|].
        subst e. simpl. exact IH. }
      unfold Get, Metadata_Get. simpl. now rewrite Hloop, Hc.
    + intros Hex.
      assert (Hc : collected errs <> []).
      { clear Hloop Hfail. unfold collected.
        induction Hex as [e l He|e l _ IH]; simpl.
        - destruct e; simpl; congruence.
        - destruct (isErrUnknownMetadataKey e); simpl; congruence. }
      split; [exact Hc|]. split; [|reflexivity].
      unfold Get, Metadata_Get. simpl. rewrite Hloop.
      now destruct (collected errs).
Qed.

End MetadataGet.

(** ** Lazy initialisation *)

Section LazyInit.
Import metadata.
Context {W F P : Type}
        {MF : MetadataFetcher (W:=W) F P} {MP : MetadataProvider (W:=W) P}.

Abbreviation lazyProvider := (lazyInitProvider F P).

Lemma lazy_finish_spec (p : lazyProvider) key w :
  let '(o, p', w') := lazy_finish p key w in
  fetcher p' = fetcher p /\ err p' = err p
  /\ (provider p = None -> provider p' = None)
  /\ (provider p <> None -> provider p' <> None)
  /\ (forall e, err p = Some e -> o = Returns "" (Some e)).
Proof.
  unfold lazy_finish. destruct p as [pr [e|] f]; simpl.
  - repeat split; auto. intros e0 [= ->]. reflexivity.
  - destruct pr as [inner|]; simpl.
    + destruct (Get inner key w) as [[o inner'] w']; simpl.
      repeat split; auto; try discriminate.
    + repeat split; auto; try discriminate.
Qed.

(** The four ways a call can go. *)
Inductive call_shape (p : lazyProvider) (key : MetadataKey)
  : outcome -> lazyProvider -> list (lazyEvent P) -> Prop :=
| shape_initialized o p' :
    uninitialized p = false ->
    fetcher p' = fetcher p -> err p' = err p -> uninitialized p' = false ->
    (forall e, err p = Some e -> o = Returns "" (Some e)) ->
    call_shape p key o p' [EvCall key; EvReturn o]
| shape_nil_fetcher :
    uninitialized p = true -> fetcher p = None ->
    call_shape p key Panics p [EvCall key; EvLock]
| shape_unknown f pr o :
    uninitialized p = true -> fetcher p = Some f ->
    o = Returns "" (Some ErrUnknownMetadataKey) ->
    call_shape p key o p
      [EvCall key; EvLock; EvFetched key pr (Some ErrUnknownMetadataKey);
       EvUnlock; EvReturn o]
| shape_constructed f pr e o p' :
    uninitialized p = true -> fetcher p = Some f ->
    e <> Some ErrUnknownMetadataKey ->
    fetcher p' = None -> err p' = failedError (fetcherType f) <$> e ->
    (forall e0, e = Some e0 ->
                o = Returns "" (Some (failedError (fetcherType f) e0))) ->
    call_shape p key o p'
      [EvCall key; EvLock; EvFetched key pr e; EvUnlock; EvReturn o].

Lemma lazy_Get_traced_shape (p : lazyProvider) key w :
  call_shape p key (lazy_Get_traced p key w).1.1.1
             (lazy_Get_traced p key w).1.1.2
             (lazy_Get_traced p key w).2.
Proof.
  unfold lazy_Get_traced.
  destruct (uninitialized p) eqn:Hun.
  - destruct (fetcher p) as [f|] eqn:Hf; [|now constructor].
    destruct (FetchFor f key w) as [[pr e] w1].
    assert (Hcons : e <> Some ErrUnknownMetadataKey ->
      call_shape p key
        (lazy_finish (@mkLazy F P pr (failedError (fetcherType f) <$> e) None) key w1).1.1
        (lazy_finish (@mkLazy F P pr (failedError (fetcherType f) <$> e) None) key w1).1.2
        [EvCall key; EvLock; EvFetched key pr e; EvUnlock;
         EvReturn (lazy_finish (@mkLazy F P pr (failedError (fetcherType f) <$> e) None)
                               key w1).1.1]).
    { intros Hne.
      pose proof (lazy_finish_spec
                    (@mkLazy F P pr (failedError (fetcherType f) <$> e) None) key w1) as Hfin.
      destruct (lazy_finish (@mkLazy F P _ _ _) key w1) as [[o p2] w2]. simpl in *.
      destruct Hfin as (Hf2 & He2 & _ & _ & Ho).
      eapply shape_constructed; eauto.
      intros e0 ->. apply Ho. reflexivity. }
    destruct e as [[]|]; simpl in *;
      try (eapply shape_unknown; now eauto);
      try (apply Hcons; discriminate).
    specialize (Hcons ltac:(discriminate)).
    unfold lazy_finish in *.
    destruct pr as [inner|]; simpl in *; [|exact Hcons].
    destruct (Get inner key w1) as [[o inner'] w2]. exact Hcons.
  - pose proof (lazy_finish_spec p key w) as Hfin.
    destruct (lazy_finish p key w) as [[o p'] w']. simpl.
    destruct Hfin as (Hf' & He' & Hnone & Hsome & Ho).
    constructor; auto.
    unfold uninitialized in *. rewrite He'.
    destruct (provider p) eqn:Hp, (err p) eqn:He; try discriminate;
      destruct (provider p'); auto; exfalso; now apply Hsome.
Qed.

Lemma lazy_Get_traced_inv (p : lazyProvider) key w o p' w' tr :
  lazy_Get_traced p key w = (o, p', w', tr) -> call_shape p key o p' tr.
Proof.
  intros E. pose proof (lazy_Get_traced_shape p key w) as H.
  now rewrite E in H.
Qed.

(** The calls of a run are guarded, pin their construction and construct
    at most once. *)
Definition init_once (calls : list (list (lazyEvent P))) : Prop :=
  (forall tr, tr ∈ calls ->
     forall key pr e, EvFetched key pr e ∈ tr ->
       exists o, tr = [EvCall key; EvLock; EvFetched key pr e; EvUnlock; EvReturn o])
  /\ (forall i tr key pr e,
        calls !! i = Some tr -> EvFetched key pr e ∈ tr ->
        e <> Some ErrUnknownMetadataKey ->
        forall j tr', i < j -> calls !! j = Some tr' ->
          (forall ev, ev ∈ tr' -> is_fetch ev = false)
          /\ (forall e0 o, e = Some e0 -> EvReturn o ∈ tr' ->
                exists name, o = Returns "" (Some (failedError name e0))))
  /\ length (List.filter (existsb is_construction) calls) <= 1.

(** A call after the construction: no fetch, and the pinned error if there
    is one. *)
Definition quiet (pinned : option error) (tr : list (lazyEvent P)) : Prop :=
  (forall ev, ev ∈ tr -> is_fetch ev = false)
  /\ (forall e o, pinned = Some e -> EvReturn o ∈ tr -> o = Returns "" (Some e)).

Ltac elems H :=
  repeat (apply elem_of_cons in H as [H|H]);
  [..|apply elem_of_nil in H; contradiction].

Lemma quiet_no_construction pinned tr :
  quiet pinned tr -> existsb is_construction tr = false.
Proof.
  intros [Hq _]. induction tr as [|ev tr IH]; [reflexivity|]. simpl.
  rewrite IH by (intros ev' H; apply Hq; now right).
  specialize (Hq ev ltac:(left)). destruct ev; try reflexivity; discriminate.
Qed.

Lemma init_once_nil : init_once [].
Proof.
  split; [|split].
  - intros tr H. inversion H.
  - intros i tr key pr e H. now rewrite lookup_nil in H.
  - simpl. lia.
Qed.

Lemma init_once_cons_quiet pinned tr calls :
  quiet pinned tr -> init_once calls -> init_once (tr :: calls).
Proof.
  intros Hq (Hg & Hp & Hc). split; [|split].
  - intros tr' [->|H]%elem_of_cons; [|now apply Hg].
    intros key pr e Hin. apply (proj1 Hq) in Hin. discriminate.
  - intros [|i] tr0 key pr e Hi Hin Hne j tr' Hij Hj.
    + simpl in Hi. injection Hi as <-. apply (proj1 Hq) in Hin. discriminate.
    + destruct j as [|j]; [lia|]. simpl in Hi, Hj.
      exact (Hp i tr0 key pr e Hi Hin Hne j tr' ltac:(lia) Hj).
  - simpl. now rewrite (quiet_no_construction _ _ Hq).
Qed.

Lemma init_once_cons_unknown key pr o calls :
  init_once calls ->
  init_once ([EvCall key; EvLock; EvFetched key pr (Some ErrUnknownMetadataKey);
              EvUnlock; EvReturn o] :: calls).
Proof.
  intros (Hg & Hp & Hc). split; [|split].
  - intros tr' [->|H]%elem_of_cons; [|now apply Hg].
    intros key' pr' e' Hin. elems Hin; try discriminate.
    injection Hin as -> -> ->. now exists o.
  - intros [|i] tr0 key' pr' e' Hi Hin Hne j tr' Hij Hj.
    + simpl in Hi. injection Hi as <-. elems Hin; try discriminate.
      injection Hin as -> -> ->. congruence.
    + destruct j as [|j]; [lia|]. simpl in Hi, Hj.
      exact (Hp i tr0 key' pr' e' Hi Hin Hne j tr' ltac:(lia) Hj).
  - simpl. exact Hc.
Qed.

Lemma init_once_cons_constructed key pr e name o calls :
  e <> Some ErrUnknownMetadataKey ->
  (forall e0, e = Some e0 -> o = Returns "" (Some (failedError name e0))) ->
  Forall (quiet (failedError name <$> e)) calls ->
  init_once ([EvCall key; EvLock; EvFetched key pr e; EvUnlock; EvReturn o]
             :: calls).
Proof.
  intros Hne Ho Hall. rewrite Forall_forall in Hall. split; [|split].
  - intros tr' [->|H]%elem_of_cons.
    + intros key' pr' e' Hin. elems Hin; try discriminate.
      injection Hin as -> -> ->. now exists o.
    + intros key' pr' e' Hin. apply Hall in H as [H _].
      apply H in Hin. discriminate.
  - intros [|i] tr0 key' pr' e' Hi Hin Hne' j tr' Hij Hj.
    + simpl in Hi. injection Hi as <-. elems Hin; try discriminate.
      injection Hin as -> -> ->.
      destruct j as [|j]; [lia|]. simpl in Hj.
      apply list_elem_of_lookup_2 in Hj. apply Hall in Hj as [Hnf Hret].
      split; [exact Hnf|]. intros e0 o' -> Ho'. exists name.
      now apply Hret.
    + simpl in Hi. apply list_elem_of_lookup_2 in Hi.
      apply Hall in Hi as [H _]. apply H in Hin. discriminate.
  - simpl.
    assert (Hz : List.filter (existsb is_construction) calls = []).
    { clear -Hall. induction calls as [|tr calls IH]; [reflexivity|]. simpl.
      rewrite (quiet_no_construction (failedError name <$> e) tr)
        by (apply Hall; left).
      apply IH. intros tr' H. apply Hall. now right. }
    rewrite Hz. destruct (_ || _); simpl; lia.
Qed.

(** Once the fetcher is gone, no call fetches again and the pinned error
    is what every call returns. *)
Lemma lazy_run_pinned keys : forall (p : lazyProvider) w,
  fetcher p = None ->
  Forall (quiet (err p)) (lazy_run p keys w).1.1.
Proof.
  induction keys as [|key rest IH]; intros p w Hf; simpl; [constructor|].
  destruct (lazy_Get_traced p key w) as [[[o p'] w'] tr] eqn:E.
  apply lazy_Get_traced_inv in E.
  assert (Hq : quiet (err p) tr /\ fetcher p' = None /\ err p' = err p).
  { inversion E; subst; try congruence.
    - split; [|split; congruence]. split.
      + intros ev Hev. elems Hev; subst; reflexivity.
      + intros e o' He Hev. elems Hev; try discriminate.
        injection Hev as ->. auto.
    - split; [|auto]. split.
      + intros ev Hev. elems Hev; subst; reflexivity.
      + intros e o' He Hev. elems Hev; discriminate. }
  destruct Hq as (Hq & Hf' & He').
  destruct o as [v e|]; simpl.
  - specialize (IH p' w' Hf'). rewrite He' in IH.
    destruct (lazy_run p' rest w') as [[calls p''] w'']. simpl in *.
    now constructor.
  - constructor; [exact Hq | constructor].
Qed.

Lemma lazy_run_init_once keys : forall (p : lazyProvider) w,
  init_once (lazy_run p keys w).1.1.
Proof.
  induction keys as [|key rest IH]; intros p w; simpl; [apply init_once_nil|].
  destruct (lazy_Get_traced p key w) as [[[o p'] w'] tr] eqn:E.
  apply lazy_Get_traced_inv in E.
  inversion E; subst.
  - (* already initialised *)
    assert (Hq : quiet None [EvCall key; EvReturn o]).
    { split.
      + intros ev H'. elems H'; subst; reflexivity.
      + intros e o' He. discriminate. }
    destruct o as [v e|]; simpl.
    + specialize (IH p' w').
      destruct (lazy_run p' rest w') as [[calls p''] w'']. simpl in *.
      eapply init_once_cons_quiet; eauto.
    + eapply init_once_cons_quiet; eauto using init_once_nil.
  - (* nil fetcher *)
    apply (init_once_cons_quiet None); [|apply init_once_nil]. split.
    + intros ev H'. elems H'; subst; reflexivity.
    + intros e o' He. discriminate.
  - (* the fetcher does not know the key *)
    specialize (IH p' w').
    destruct (lazy_run p' rest w') as [[calls p''] w'']. simpl in *.
    now apply init_once_cons_unknown.
  - (* constructed *)
    pose proof (lazy_run_pinned rest p' w' ltac:(assumption)) as Hpin.
    match goal with H : err p' = _ |- _ => rewrite H in Hpin end.
    destruct o as [v e'|]; simpl.
    + destruct (lazy_run p' rest w') as [[calls p''] w'']. simpl in *.
      eapply init_once_cons_constructed; eauto.
    + eapply init_once_cons_constructed; eauto.
Qed.

(** C3. In any sequence of [Get] calls on a lazily initialised provider,
    whatever the keys: a call of the fetcher happens between Lock and
    Unlock of the provider's mutex; once a call of the fetcher has
    constructed (it came back with a provider or with an error of the
    construction), no later call invokes the fetcher again, and when the
    construction failed every later call returns that same error; so at
    most one call constructs. *)
Theorem lazyInitProvider_constructs_once
    (p : lazyInitProvider F P) (keys : list MetadataKey) (w : W) :
  let calls := (lazy_run p keys w).1.1 in
  (forall tr, tr ∈ calls ->
     forall key pr e, EvFetched key pr e ∈ tr ->
       exists o, tr = [EvCall key; EvLock; EvFetched key pr e; EvUnlock; EvReturn o])
  /\ (forall i tr key pr e,
        calls !! i = Some tr -> EvFetched key pr e ∈ tr ->
        e <> Some ErrUnknownMetadataKey ->
        forall j tr', i < j -> calls !! j = Some tr' ->
          (forall ev, ev ∈ tr' -> is_fetch ev = false)
          /\ (forall e0 o, e = Some e0 -> EvReturn o ∈ tr' ->
                exists name, o = Returns "" (Some (failedError name e0))))
  /\ length (List.filter (existsb is_construction) calls) <= 1.
Proof. apply lazy_run_init_once. Qed.

End LazyInit.

(** ** The snapshot of [EnableOpenAPI] *)

Section Snapshot.
Import metadata resolver.

Variable growslice : nat -> nat -> nat.
Hypothesis growslice_enough : forall c n, n <= growslice c n.
Variable Getenv : string -> string.

(** A slice header that is in use: its array exists and holds its
    capacity. *)
Definition wf_slice (h : heap) (s : slice) : Prop :=
  exists a, arrays h !! array s = Some a /\ cap s = length a /\ len s <= cap s.

(** A header that [append] on [m.providers] cannot disturb: where it
    shares the array of [m.providers] it is no longer than it. *)
Definition snap (m : Metadata) (h : heap) (s : slice) : Prop :=
  (exists a, arrays h !! array s = Some a /\ len s <= length a)
  /\ (array s = array (providers m) -> len s <= len (providers m)).

Definition obj_ok (m : Metadata) (h : heap) (p : ptr) (o : object) : Prop :=
  match o with
  | ENVMetadata => True
  | immutableProviderObj x _ _ => x < p
  | lazyInitProviderObj l =>
      provider l = None
      /\ match fetcher l with
         | Some (OpenAPIFetcher mPre) =>
             snap m h mPre /\ (forall x, Some x ∈ elems h mPre -> x < p)
         | _ => True
         end
  end.

Definition inv (mh : Metadata * heap) : Prop :=
  wf_slice mh.2 (providers mh.1)
  /\ (forall x, Some x ∈ elems mh.2 (providers mh.1) -> x < length (objects mh.2))
  /\ (forall p o, objects mh.2 !! p = Some o -> obj_ok mh.1 mh.2 p o).

Lemma wf_slice_snap m h : wf_slice h (providers m) -> snap m h (providers m).
Proof.
  intros (a & Ha & Hcap & Hlen). split; [|auto].
  exists a. split; [exact Ha | lia].
Qed.

Lemma inv_NewMetadata : inv NewMetadata.
Proof.
  split; [|split]; simpl.
  - exists [Some 1]. simpl. auto.
  - intros x Hx. unfold elems in Hx. simpl in Hx.
    apply list_elem_of_singleton in Hx. injection Hx as ->. simpl. lia.
  - intros [|[|p]] o Ho; simpl in Ho; try discriminate;
      injection Ho as <-; simpl; auto.
Qed.

(** What [append_lazy] does to the heap, in both cases of [append]. *)
Lemma append_lazy_spec f m h :
  inv (m, h) ->
  match f with OpenAPIFetcher mPre => mPre = providers m | _ => True end ->
  let mh' := append_lazy growslice f m h in
  inv mh'
  /\ objects mh'.2
     = objects h ++ [lazyInitProviderObj (mkLazy None None (Some f))]
  /\ elems mh'.2 (providers mh'.1)
     = elems h (providers m) ++ [Some (length (objects h))]
  /\ (forall s, snap m h s -> snap mh'.1 mh'.2 s /\ elems mh'.2 s = elems h s).
Proof.
  intros (Hwf & Helems & Hobjs) Hf. simpl in *.
  destruct Hwf as (a & Ha & Hcap & Hlen).
  set (q := length (objects h)).
  set (o := lazyInitProviderObj (mkLazy None None (Some f))).
  assert (Hel : elems h (providers m) = take (len (providers m)) a).
  { unfold elems. now rewrite Ha. }
  unfold append_lazy, new_object, append. simpl. fold q. fold o.
  destruct (Nat.ltb_spec (len (providers m)) (cap (providers m))) as [Hlt|Hge];
    simpl.
  - (* in place *)
    assert (Hframe : forall s, snap m h s ->
              snap (mkMetadata (mkSlice (array (providers m))
                                        (S (len (providers m)))
                                        (cap (providers m))))
                   (mkHeap (objects h ++ [o])
                           (alter (fun a0 => <[len (providers m) := Some q]> a0)
                                  (array (providers m)) (arrays h))) s
              /\ elems (mkHeap (objects h ++ [o])
                          (alter (fun a0 => <[len (providers m) := Some q]> a0)
                                 (array (providers m)) (arrays h))) s
                 = elems h s).
    { intros s ((b & Hb & Hlb) & Hshare). unfold snap, elems. simpl.
      destruct (decide (array s = array (providers m))) as [Heq|Hne].
      - specialize (Hshare Heq). rewrite Heq in *.
        rewrite list_lookup_alter_eq, Ha. simpl.
        assert (b = a) by congruence. subst b.
        split; [split|].
        + eexists. split; [reflexivity|]. now rewrite length_insert.
        + intros _. lia.
        + now rewrite take_insert_ge by lia.
      - rewrite list_lookup_alter_ne by congruence. rewrite Hb. simpl.
        split; [split|]; [eauto | intros; congruence | reflexivity]. }
    assert (Hnew : elems (mkHeap (objects h ++ [o])
                            (alter (fun a0 => <[len (providers m) := Some q]> a0)
                                   (array (providers m)) (arrays h)))
                     (mkSlice (array (providers m)) (S (len (providers m)))
                              (cap (providers m)))
                   = elems h (providers m) ++ [Some q]).
    { unfold elems at 1. simpl. rewrite list_lookup_alter_eq, Ha. simpl.
      rewrite Hel.
      assert (Hlk : <[len (providers m) := Some q]> a !! len (providers m)
                    = Some (Some q)) by (apply list_lookup_insert_eq; lia).
      rewrite (take_S_r _ _ _ Hlk).
      now rewrite take_insert_ge by lia. }
    split; [|split; [reflexivity | split; [exact Hnew | exact Hframe]]].
    split; [|split]; simpl.
    + exists (<[len (providers m) := Some q]> a). simpl.
      rewrite list_lookup_alter_eq, Ha. simpl.
      rewrite length_insert. repeat split; auto; lia.
    + intros x Hx. rewrite Hnew in Hx. rewrite length_app. simpl.
      apply elem_of_app in Hx as [Hx|Hx].
      * apply Helems in Hx. lia.
      * apply list_elem_of_singleton in Hx. injection Hx as ->. unfold q. lia.
    + intros p o' Hp.
      apply lookup_app_Some in Hp as [Hp|[Hlen' Hp]].
      * specialize (Hobjs p o' Hp). destruct o' as [|x name values|l]; auto.
        destruct Hobjs as [Hnone Hfetch]. split; [exact Hnone|].
        destruct (fetcher l) as [[| |mPre]|]; auto.
        destruct Hfetch as [Hsnap Hlt']. destruct (Hframe _ Hsnap) as [H1 H2].
        split; [exact H1|]. intros x. rewrite H2. apply Hlt'.
      * destruct (p - length (objects h)) eqn:Hd; simpl in Hp; [|discriminate].
        injection Hp as <-. simpl. split; [reflexivity|].
        destruct f as [| |mPre]; auto. subst mPre.
        destruct (Hframe _ (wf_slice_snap m h (ex_intro _ a (conj Ha (conj Hcap Hlen)))))
          as [H1 H2].
        split; [exact H1|]. intros x. rewrite H2. intros Hx.
        apply Helems in Hx. fold q in Hx. lia.
  - (* a new array *)
    assert (Hfull : len (providers m) = length a) by lia.
    set (newcap := growslice (cap (providers m)) (S (len (providers m)))).
    assert (Hnc : S (len (providers m)) <= newcap) by apply growslice_enough.
    set (na := elems h (providers m) ++ Some q
                 :: replicate (newcap - S (len (providers m))) None).
    assert (Helh : forall s, elems (mkHeap (objects h ++ [o]) (arrays h)) s = elems h s)
      by reflexivity.
    rewrite !Helh. fold na.
    assert (Hlen_el : length (elems h (providers m)) = len (providers m)).
    { rewrite Hel, length_take. lia. }
    assert (Hframe : forall s, snap m h s ->
              snap (mkMetadata (mkSlice (length (arrays h))
                                        (S (len (providers m))) newcap))
                   (mkHeap (objects h ++ [o]) (arrays h ++ [na])) s
              /\ elems (mkHeap (objects h ++ [o]) (arrays h ++ [na])) s
                 = elems h s).
    { intros s ((b & Hb & Hlb) & Hshare). unfold snap, elems. simpl.
      rewrite (lookup_app_l_Some _ _ _ _ Hb), Hb. simpl.
      split; [split|]; [eauto| |reflexivity].
      intros Heq. apply lookup_lt_Some in Hb. lia. }
    assert (Hmid : (arrays h ++ [na]) !! length (arrays h) = Some na)
      by now apply list_lookup_middle.
    assert (Hnew : elems (mkHeap (objects h ++ [o]) (arrays h ++ [na]))
                     (mkSlice (length (arrays h)) (S (len (providers m))) newcap)
                   = elems h (providers m) ++ [Some q]).
    { unfold elems at 1. cbn [array len cap arrays].
      rewrite Hmid. cbn [default from_option]. unfold id.
      unfold na. rewrite take_app_ge by lia.
      rewrite Hlen_el.
      replace (S (len (providers m)) - len (providers m)) with 1 by lia.
      reflexivity. }
    split; [|split; [reflexivity | split; [exact Hnew | exact Hframe]]].
    split; [|split]; simpl.
    + exists na. split; [exact Hmid|]. split; [|exact Hnc].
      unfold na. rewrite length_app. simpl. rewrite length_replicate, Hlen_el.
      fold newcap. clearbody newcap. lia.
    + intros x Hx. rewrite Hnew in Hx. rewrite length_app. simpl.
      apply elem_of_app in Hx as [Hx|Hx].
      * apply Helems in Hx. lia.
      * apply list_elem_of_singleton in Hx. injection Hx as ->. unfold q. lia.
    + intros p o' Hp.
      apply lookup_app_Some in Hp as [Hp|[Hlen' Hp]].
      * specialize (Hobjs p o' Hp). destruct o' as [|x name values|l]; auto.
        destruct Hobjs as [Hnone Hfetch]. split; [exact Hnone|].
        destruct (fetcher l) as [[| |mPre]|]; auto.
        destruct Hfetch as [Hsnap Hlt']. destruct (Hframe _ Hsnap) as [H1 H2].
        split; [exact H1|]. intros x. rewrite H2. apply Hlt'.
      * destruct (p - length (objects h)) eqn:Hd; simpl in Hp; [|discriminate].
        injection Hp as <-. simpl. split; [reflexivity|].
        destruct f as [| |mPre]; auto. subst mPre.
        destruct (Hframe _ (wf_slice_snap m h (ex_intro _ a (conj Ha (conj Hcap Hlen)))))
          as [H1 H2].
        split; [exact H1|]. intros x. rewrite H2. intros Hx.
        apply Helems in Hx. fold q in Hx. lia.
Qed.

Lemma run_call_spec c mh :
  inv mh ->
  let mh' := run_call growslice Getenv c mh in
  inv mh'
  /\ (exists l, objects mh'.2 = objects mh.2 ++ l)
  /\ (forall s, snap mh.1 mh.2 s -> snap mh'.1 mh'.2 s /\ elems mh'.2 s = elems mh.2 s).
Proof.
  intros Hinv. destruct mh as [m h].
  assert (Hsame : inv (m, h)
                  /\ (exists l, objects (m, h).2 = objects (m, h).2 ++ l)
                  /\ (forall s, snap m h s -> snap m h s /\ elems h s = elems h s)).
  { split; [exact Hinv|]. split; [exists []; now rewrite app_nil_r | auto]. }
  assert (Happ : forall f,
            match f with OpenAPIFetcher mPre => mPre = providers m | _ => True end ->
            inv (append_lazy growslice f m h)
            /\ (exists l, objects (append_lazy growslice f m h).2 = objects h ++ l)
            /\ (forall s, snap m h s ->
                  snap (append_lazy growslice f m h).1 (append_lazy growslice f m h).2 s
                  /\ elems (append_lazy growslice f m h).2 s = elems h s)).
  { intros f Hf. destruct (append_lazy_spec f m h Hinv Hf) as (H1 & H2 & _ & H4).
    split; [exact H1|]. split; [eauto | exact H4]. }
  destruct c; simpl; unfold EnableEcs, EnableKubernetes, EnableOpenAPI; simpl.
  - destruct (negb _); [exact Hsame | now apply Happ].
  - destruct (String.eqb _ _); [exact Hsame | now apply Happ].
  - now apply Happ.
Qed.

Lemma run_calls_spec cs : forall mh,
  inv mh ->
  let mh' := run_calls growslice Getenv cs mh in
  inv mh'
  /\ (exists l, objects mh'.2 = objects mh.2 ++ l)
  /\ (forall s, snap mh.1 mh.2 s -> snap mh'.1 mh'.2 s /\ elems mh'.2 s = elems mh.2 s).
Proof.
  induction cs as [|c cs IH]; intros mh Hinv.
  - simpl. split; [exact Hinv|]. split; [exists []; now rewrite app_nil_r | auto].
  - change (run_calls growslice Getenv (c :: cs) mh)
      with (run_calls growslice Getenv cs (run_call growslice Getenv c mh)).
    destruct (run_call_spec c mh Hinv) as (H1 & [l1 H2] & H3).
    destruct (IH _ H1) as (H1' & [l2 H2'] & H3'). cbv zeta.
    split; [exact H1'|]. split.
    + exists (l1 ++ l2). rewrite H2', H2. now rewrite app_assoc.
    + intros s Hs. destruct (H3 s Hs) as [Ha Hb].
      destruct (H3' s Ha) as [Ha' Hb']. split; [exact Ha'|].
      now rewrite Hb', Hb.
Qed.

(** Under the invariant a provider consults only providers allocated
    before it. *)
Lemma consults_lt mh p p' : inv mh -> consults mh.2 p p' -> p' < p.
Proof.
  intros (_ & _ & Hobjs) Hc. destruct Hc as [name values Ho|e f Ho|pr e mPre Ho Hin];
    specialize (Hobjs _ _ Ho); simpl in Hobjs.
  - exact Hobjs.
  - destruct Hobjs as [Hnone _]. discriminate.
  - destruct Hobjs as [_ [_ Hlt]]. now apply Hlt.
Qed.

Lemma tc_consults_lt mh p p' : inv mh -> tc (consults mh.2) p p' -> p' < p.
Proof.
  intros Hinv Htc. induction Htc as [x y Hxy|x y z Hxy _ IH].
  - now apply (consults_lt mh).
  - apply (consults_lt mh) in Hxy; [lia | exact Hinv].
Qed.

(** C4. [EnableOpenAPI], called after any calls that built the chain,
    appends a lazy provider whose fetcher is given the chain as it was:
    the elements of [mPre] are exactly the providers registered before,
    the new provider is not one of them, and this stays so whatever is
    appended to the chain afterwards, although [mPre] and [m.providers]
    may share their backing array. No chain of [Get] calls that starts at
    the new provider comes back to it. *)
Theorem EnableOpenAPI_snapshot (before after : list call) :
  let mh0 := run_calls growslice Getenv before NewMetadata in
  let mh1 := EnableOpenAPI growslice mh0.1 mh0.2 in
  let mh2 := run_calls growslice Getenv after mh1 in
  let q := length (objects mh0.2) in
  let mPre := providers mh0.1 in
  objects mh2.2 !! q
  = Some (lazyInitProviderObj (mkLazy None None (Some (OpenAPIFetcher mPre))))
  /\ elems mh1.2 (providers mh1.1) = elems mh0.2 (providers mh0.1) ++ [Some q]
  /\ elems mh2.2 mPre = elems mh0.2 (providers mh0.1)
  /\ (Some q ∉ elems mh2.2 mPre)
  /\ not (tc (consults mh2.2) q q).
Proof.
  intros mh0 mh1 mh2 q mPre.
  destruct (run_calls_spec before NewMetadata inv_NewMetadata) as (Hinv0 & _ & _).
  fold mh0 in Hinv0.
  assert (Hinv0' : inv (mh0.1, mh0.2)) by now destruct mh0.
  destruct (append_lazy_spec (OpenAPIFetcher mPre) mh0.1 mh0.2 Hinv0' eq_refl)
    as (Hinv1 & Hobj1 & Hel1 & Hframe1).
  change (append_lazy growslice (OpenAPIFetcher mPre) mh0.1 mh0.2) with mh1 in *.
  destruct (run_calls_spec after mh1 Hinv1) as (Hinv2 & [l Hobj2] & Hframe2).
  fold mh2 in Hinv2, Hobj2, Hframe2.
  assert (Hsnap0 : snap mh0.1 mh0.2 mPre)
    by (apply wf_slice_snap, Hinv0).
  destruct (Hframe1 _ Hsnap0) as [Hsnap1 Hsame1].
  destruct (Hframe2 _ Hsnap1) as [Hsnap2 Hsame2].
  assert (Hstable : elems mh2.2 mPre = elems mh0.2 (providers mh0.1))
    by (rewrite Hsame2, Hsame1; reflexivity).
  split; [|split; [exact Hel1 | split; [exact Hstable | split]]].
  - rewrite Hobj2, Hobj1. rewrite <- app_assoc. simpl.
    now apply list_lookup_middle.
  - rewrite Hstable. intros Hin.
    destruct Hinv0 as (_ & Hlt & _). apply Hlt in Hin. fold q in Hin. lia.
  - intros Htc. apply (tc_consults_lt mh2) in Htc; [lia | exact Hinv2].
Qed.

End Snapshot.

(** ** Symbolic execution of a handler *)

(** One step: the answer of the next call, or the case of a test. *)
Ltac handler_step :=
  match goal with
  | |- context [node.respond ?A ?c ?w] =>
      let a := fresh "a" in
      let w' := fresh "w" in
      destruct (node.respond A c w) as [a w']; cbn
  | |- context [match ?x with _ => _ end] =>
      is_var x;
      lazymatch type of x with
      | bool => idtac
      | option _ => idtac
      | prod _ _ => idtac
      end;
      destruct x; cbn
  | |- context [match ?x with _ => _ end] =>
      lazymatch type of x with
      | bool => idtac
      | option _ => idtac
      end;
      lazymatch x with
      | context [match _ with _ => _ end] => fail
      | _ => idtac
      end;
      let E := fresh "E" in
      destruct x eqn:E; cbn
  end.

(** The event at a position of a trace that is a list of known length. *)
Ltac trace_position H i :=
  repeat (destruct i as [|i]; cbn in H; try discriminate H).

(** A position in a trace of known length at which the goal holds. *)
Ltac find_position :=
  let rec go n :=
    first [ exists n; cbn; reflexivity
          | lazymatch n with
            | 40 => fail
            | _ => go (S n)
            end ] in
  go 0.

(** No position of a trace of known length holds an event of the kind. *)
Ltac no_position i :=
  repeat (destruct i as [|i]; cbn; try reflexivity).

(** ** Expand *)

Section Expand.
Import node disk.
Local Arguments strings.Contains : simpl never.
Local Arguments strings.HasPrefix : simpl never.
Local Arguments String.eqb : simpl never.
Local Arguments Z.ltb : simpl never.
Local Arguments Z.mul : simpl never.

Context {W : Type} {C : Collaborators (W:=W)}.
Variable L : Lib.

(** C8. In every run of Expand with a positive requested byte count in
    which the filesystem was grown (the call of Resize succeeded), the
    capacity of the block device is measured next, and: if it is smaller
    than the requested bytes the call fails with Aborted (retryable), not
    with a fatal code; otherwise the call succeeds and the response
    carries the measured capacity. *)
Theorem NodeExpandVolume_capacity_check (req : NodeExpandVolumeRequest) w fs :
  (0 < expand_RequiredBytes req)%Z ->
  let rs := run (NodeExpandVolume L req) w fs in
  forall i devicePath volumePath,
    trace rs.2 !! i ≫= sel_Resize = Some (devicePath, volumePath, (true, None)) ->
    exists capacity,
      trace rs.2 !! S i ≫= sel_getBlockDeviceCapacity = Some (devicePath, capacity)
      /\ ((capacity < expand_RequiredBytes req)%Z ->
          rs.1 = Some (Fail (Status Aborted)))
      /\ ((expand_RequiredBytes req <= capacity)%Z ->
          rs.1 = Some (OK (mkExpandResponse capacity))).
Proof.
  intros Hpos rs i dp vp. subst rs.
  unfold run, NodeExpandVolume, expand_body, deleteUntagAutoSnapshot.
  unfold bind, call, ret, exit, panic, log. cbn.
  repeat handler_step.
  all: intros H; trace_position H i.
  all: simplify_eq/=.
  all: eexists; (split; [reflexivity|]).
  all: match goal with
       | E : (_ && _) = _ |- _ =>
           rewrite ?andb_true_iff, ?andb_false_iff, ?Z.ltb_lt, ?Z.ltb_ge in E
       end.
  all: split; intros Hc; try reflexivity; exfalso; lia.
Qed.

(** C7, as the code has it. In every run of Expand in which growpart was
    invoked (the device is partition-backed) and failed: when its output
    reports NOCHANGE together with one of the two at-maximum-size reasons
    ("it cannot be grown", "could only be grown by"), the call succeeds
    with the empty response, which carries no capacity; the capacities of
    the partition and of the root device are measured and written to the
    log line only. With any other output (a NOCHANGE with another reason,
    or any other failure) the call fails with InvalidArgument. *)
Theorem NodeExpandVolume_growpart_nochange (req : NodeExpandVolumeRequest) w fs :
  let rs := run (NodeExpandVolume L req) w fs in
  forall i rootPath index output e,
    trace rs.2 !! i ≫= sel_growpart = Some (rootPath, index, (output, Some e)) ->
    index <> ""
    /\ if strings.Contains output "NOCHANGE"
          && (strings.Contains output "it cannot be grown"
              || strings.Contains output "could only be grown by")
       then
         rs.1 = Some (OK (mkExpandResponse 0))
         /\ exists devicePath deviceCapacity rootCapacity,
             trace rs.2 !! S i ≫= sel_getBlockDeviceCapacity
             = Some (devicePath, deviceCapacity)
             /\ trace rs.2 !! S (S i) ≫= sel_getBlockDeviceCapacity
                = Some (rootPath, rootCapacity)
             /\ trace rs.2 !! S (S (S i)) ≫= sel_Logged
                = Some (LogNoNeedToGrow (expand_RequiredBytes req)
                                        rootCapacity deviceCapacity)
       else rs.1 = Some (Fail (Status InvalidArgument)).
Proof.
  intros rs i rootPath index output e. subst rs.
  unfold run, NodeExpandVolume, expand_body, deleteUntagAutoSnapshot.
  unfold bind, call, ret, exit, panic, log. cbn.
  repeat handler_step.
  all: intros H; trace_position H i.
  all: simplify_eq/=.
  all: split;
    [ match goal with
      | E : negb (String.eqb ?x "") = true |- ?x <> "" =>
          intros ->; vm_compute in E; discriminate E
      end | ].
  all: try congruence.
  all: split; [reflexivity|]; do 3 eexists; repeat split; reflexivity.
Qed.

End Expand.

Section ExpandExamples.
Import node disk scenarios.

Lemma NodeExpandVolume_capacity_check_witness :
  (run (NodeExpandVolume (C:=ten_GiB) golib.unix (expand_request (20 * GiB))) tt ∅).1
  = Some (Fail (Status Aborted))
  /\ (run (NodeExpandVolume (C:=ten_GiB) golib.unix (expand_request (5 * GiB))) tt ∅).1
     = Some (OK (mkExpandResponse (10 * GiB))).
Proof.
  split.
  - destruct (NodeExpandVolume_capacity_check (C:=ten_GiB) golib.unix
                (expand_request (20 * GiB)) tt ∅ eq_refl 4 _ _ eq_refl)
      as (capacity & Hcap & Hlt & _).
    injection Hcap as <-. apply Hlt. reflexivity.
  - destruct (NodeExpandVolume_capacity_check (C:=ten_GiB) golib.unix
                (expand_request (5 * GiB)) tt ∅ eq_refl 4 _ _ eq_refl)
      as (capacity & Hcap & _ & Hge).
    injection Hcap as <-. apply Hge. discriminate.
Defined.

(** Against C7 as stated: growpart finds the first partition of /dev/vdb
    at its maximum size, the capacity of the partition is measured as
    10 GiB, and Expand succeeds with a response that does not report it:
    the response is the empty one. *)
Lemma growpart_nochange_reports_no_capacity :
  let rs := run (NodeExpandVolume (C:=partition_at_maximum) golib.unix
                   (expand_request (20 * GiB))) tt ∅ in
  trace rs.2 !! 4 ≫= sel_growpart
  = Some ("/dev/vdb", "1",
          ("NOCHANGE: partition 1 is size 20969439. it cannot be grown",
           Some (mkError "exit status 1" false)))
  /\ trace rs.2 !! 5 ≫= sel_getBlockDeviceCapacity
     = Some ("/dev/vdb1", (10 * GiB)%Z)
  /\ exists resp,
      rs.1 = Some (OK resp)
      /\ CapacityBytes resp = 0%Z
      /\ CapacityBytes resp <> (10 * GiB)%Z.
Proof.
  vm_compute. repeat split. eexists. repeat split. discriminate.
Qed.

Lemma NodeExpandVolume_growpart_nochange_witness :
  (run (NodeExpandVolume (C:=partition_at_maximum) golib.unix
                         (expand_request (20 * GiB))) tt ∅).1
  = Some (OK (mkExpandResponse 0)).
Proof.
  exact (proj1 (proj2 (NodeExpandVolume_growpart_nochange (C:=partition_at_maximum)
                         golib.unix (expand_request (20 * GiB)) tt ∅
                         4 _ _ _ _ eq_refl))).
Defined.

End ExpandExamples.

(** ** The Device Record store of pkg/ens *)

Section Store.
Import node ens.
Local Arguments String.eqb : simpl never.
Local Arguments String.append : simpl never.

Context {W : Type} {C : Collaborators (W:=W)}.
Variable L : Lib.

(** The file of the live record of a volume, and the file its record is
    archived to at a given time. *)
Definition live (volumeID : string) : string :=
  path_Join L (ens_VolumeDir L) (volumeID +:+ ".conf").
Definition archive (volumeID timeStr : string) : string :=
  path_Join L (ens_VolumeDirRemove L) (volumeID +:+ "-" +:+ timeStr +:+ ".conf").

Lemma removeVolumeConfig_spec {R} volumeID (s : State W) :
  let rs := removeVolumeConfig (R:=R) L volumeID s in
  match files s !! live volumeID with
  | None => rs.1 = Next None /\ files rs.2 = files s
  | Some content =>
      exists timeStr,
        (rs.1 = Next None
         /\ files rs.2
            = <[archive volumeID timeStr := content]>
                (delete (live volumeID) (files s)))
        \/ (exists e, rs.1 = Next (Some e) /\ files rs.2 = files s)
  end.
Proof.
  unfold removeVolumeConfig, store_IsFileExisting, store_Rename.
  unfold bind, call, ret, get_files, put_files. cbn. fold (live volumeID).
  destruct (files s !! live volumeID) as [content|] eqn:Hlive.
  - rewrite bool_decide_eq_true_2 by eauto. cbn.
    destruct (respond string TimeNowFormat (world s)) as [timeStr w1]. cbn.
    rewrite Hlive. cbn.
    destruct (respond _ (Rename _ _) w1) as [[e|] w2]; cbn.
    + exists timeStr. right. eauto.
    + exists timeStr. left. split; reflexivity.
  - rewrite bool_decide_eq_false_2 by (intros [? ?]; discriminate). cbn. auto.
Qed.

Local Arguments removeVolumeConfig : simpl never.
Local Arguments store_WriteFile : simpl never.

Lemma saveVolumeConfig_spec {R} volumeID devicePath (s : State W) :
  let rs := saveVolumeConfig (R:=R) L volumeID devicePath s in
  (* it failed before anything was written *)
  (exists e, rs.1 = Next (Some e) /\ files rs.2 = files s)
  \/ exists archived,
      (* the existing record, if any, was archived *)
      match files s !! live volumeID with
      | None => archived = files s
      | Some content =>
          exists timeStr,
            archived = <[archive volumeID timeStr := content]>
                         (delete (live volumeID) (files s))
      end
      /\ (* and the write went through, or failed and left something *)
         ((rs.1 = Next None
           /\ files rs.2 = <[live volumeID := devicePath]> archived)
          \/ (exists e remains,
                rs.1 = Next (Some e)
                /\ files rs.2 = <[live volumeID := remains]> archived)
          \/ (exists e,
                rs.1 = Next (Some e)
                /\ files rs.2 = delete (live volumeID) archived)).
Proof.
  unfold saveVolumeConfig, bind, call, ret. cbn.
  destruct (respond _ (CreateDest (ens_VolumeDir L)) (world s)) as [[e|] w1];
    cbn; [left; eauto|].
  destruct (respond _ (CreateDest (ens_VolumeDirRemove L)) w1) as [[e|] w2];
    cbn; [left; eauto|].
  pose proof (removeVolumeConfig_spec (R:=R) volumeID
                (mkState w2 (files s)
                   ((trace s ++ [Ev (CreateDest (ens_VolumeDir L)) None])
                      ++ [Ev (CreateDest (ens_VolumeDirRemove L)) None])))
    as Hrm.
  cbn in Hrm.
  destruct (removeVolumeConfig (R:=R) L volumeID _) as [r s3]. cbn in Hrm.
  fold (live volumeID).
  assert (Hwrite : forall archived, files s3 = archived ->
    (store_WriteFile (R:=R) (live volumeID) devicePath s3).1 = Next None
    /\ files (store_WriteFile (R:=R) (live volumeID) devicePath s3).2
       = <[live volumeID := devicePath]> archived
    \/ (exists e remains,
          (store_WriteFile (R:=R) (live volumeID) devicePath s3).1 = Next (Some e)
          /\ files (store_WriteFile (R:=R) (live volumeID) devicePath s3).2
             = <[live volumeID := remains]> archived)
    \/ (exists e,
          (store_WriteFile (R:=R) (live volumeID) devicePath s3).1 = Next (Some e)
          /\ files (store_WriteFile (R:=R) (live volumeID) devicePath s3).2
             = delete (live volumeID) archived)).
  { intros archived <-. unfold store_WriteFile.
    unfold bind, call, ret, get_files, put_files. cbn.
    destruct (respond _ (WriteFile _ _) (world s3)) as [[[e [remains|]]|] w4]; cbn.
    - right. left. eauto.
    - right. right. eauto.
    - left. auto. }
  destruct (files s !! live volumeID) as [content|] eqn:Hlive.
  - destruct Hrm as [timeStr [[-> Hfiles]|[e [-> Hfiles]]]]; cbn.
    + right. eexists. split; [exists timeStr; reflexivity|].
      apply Hwrite, Hfiles.
    + left. eauto.
  - destruct Hrm as [-> Hfiles]. cbn.
    right. eexists. split; [reflexivity|]. apply Hwrite, Hfiles.
Qed.

(** C6, as the code has it. The live record of a volume is the one file
    [<VolumeDir>/<volumeID>.conf]. An archival that succeeds renames it to
    [<VolumeDirRemove>/<volumeID>-<timestamp>.conf]; a write that succeeds
    first archives the record that exists and then holds the new device
    path. Neither operation changes any file other than the live record
    and the archive file of that name, and neither removes a file other
    than the live record: an archive entry is replaced only by a later
    archival under the same name, and is never deleted. *)
Theorem volume_config_archive (volumeID devicePath : string) (s : State W) :
  let rm := removeVolumeConfig (R:=reply unit) L volumeID s in
  let sv := saveVolumeConfig (R:=reply unit) L volumeID devicePath s in
  (rm.1 = Next None ->
   forall content, files s !! live volumeID = Some content ->
     exists timeStr,
       files rm.2 = <[archive volumeID timeStr := content]>
                      (delete (live volumeID) (files s)))
  /\ (sv.1 = Next None ->
      files sv.2 !! live volumeID = Some devicePath
      /\ forall content, files s !! live volumeID = Some content ->
           exists timeStr,
             files sv.2
             = <[live volumeID := devicePath]>
                 (<[archive volumeID timeStr := content]>
                    (delete (live volumeID) (files s))))
  /\ (forall p, p <> live volumeID ->
        (forall timeStr, p <> archive volumeID timeStr) ->
        files rm.2 !! p = files s !! p /\ files sv.2 !! p = files s !! p)
  /\ (forall p, p <> live volumeID -> is_Some (files s !! p) ->
        is_Some (files rm.2 !! p) /\ is_Some (files sv.2 !! p)).
Proof.
  intros rm sv.
  pose proof (removeVolumeConfig_spec (R:=reply unit) volumeID s) as Hrm.
  pose proof (saveVolumeConfig_spec (R:=reply unit) volumeID devicePath s) as Hsv.
  fold rm in Hrm. fold sv in Hsv. cbv zeta in Hrm, Hsv.
  clearbody rm sv.
  split; [|split; [|split]].
  - intros Hok content Hlive. rewrite Hlive in Hrm.
    destruct Hrm as [timeStr [[_ Hf]|[e [He _]]]]; [eauto | congruence].
  - intros Hok.
    destruct Hsv as [[e [He _]]|[archived [Harch Hw]]]; [congruence|].
    destruct Hw as [[_ Hf]|[[e [r [He _]]]|[e [He _]]]]; try congruence.
    split; [rewrite Hf; apply lookup_insert_eq|].
    intros content Hlive. rewrite Hlive in Harch.
    destruct Harch as [timeStr ->]. eauto.
  - intros p Hp Hparch. split.
    + destruct (files s !! live volumeID) as [content|].
      * destruct Hrm as [timeStr [[_ ->]|[e [_ ->]]]]; [|reflexivity].
        rewrite lookup_insert_ne by (intros Heq; apply (Hparch timeStr); auto).
        now rewrite lookup_delete_ne by auto.
      * destruct Hrm as [_ ->]. reflexivity.
    + destruct Hsv as [[e [_ ->]]|[archived [Harch Hw]]]; [reflexivity|].
      assert (Ha : archived !! p = files s !! p).
      { destruct (files s !! live volumeID) as [content|].
        - destruct Harch as [timeStr ->].
          rewrite lookup_insert_ne by (intros Heq; apply (Hparch timeStr); auto).
          now rewrite lookup_delete_ne by auto.
        - now subst archived. }
      destruct Hw as [[_ ->]|[[e [r [_ ->]]]|[e [_ ->]]]];
        rewrite ?lookup_insert_ne, ?lookup_delete_ne by auto; exact Ha.
  - intros p Hp Hsome. split.
    + destruct (files s !! live volumeID) as [content|].
      * destruct Hrm as [timeStr [[_ ->]|[e [_ ->]]]]; [|exact Hsome].
        destruct (decide (archive volumeID timeStr = p)) as [<-|Hne].
        -- rewrite lookup_insert_eq. eauto.
        -- rewrite lookup_insert_ne by auto.
           now rewrite lookup_delete_ne by auto.
      * destruct Hrm as [_ ->]. exact Hsome.
    + destruct Hsv as [[e [_ ->]]|[archived [Harch Hw]]]; [exact Hsome|].
      assert (Ha : is_Some (archived !! p)).
      { destruct (files s !! live volumeID) as [content|].
        - destruct Harch as [timeStr ->].
          destruct (decide (archive volumeID timeStr = p)) as [<-|Hne].
          + rewrite lookup_insert_eq. eauto.
          + rewrite lookup_insert_ne by auto.
            now rewrite lookup_delete_ne by auto.
        - now subst archived. }
      destruct Hw as [[_ ->]|[[e [r [_ ->]]]|[e [_ ->]]]];
        rewrite ?lookup_insert_ne, ?lookup_delete_ne by auto; exact Ha.
Qed.

End Store.

Section StoreExamples.
Import node scenarios.

(** Against C6 as stated: an archive entry of a volume is overwritten by
    the next archival of the same volume within the same second. *)
Lemma archive_entry_overwritten :
  let s0 := mkState tt (∅ : gmap string string) [] in
  let s1 := (write_twice s0).2 in
  let s2 := (then_archive s1).2 in
  let entry := "/host/etc/kubernetes/volumes/disk/remove/d-1-2024-05-06-07:08:09.conf" in
  files s1 !! entry = Some "/dev/vdb"
  /\ files s2 !! entry = Some "/dev/vdc"
  /\ map_to_list (files s2) = [(entry, "/dev/vdc")].
Proof. vm_compute. auto. Qed.

End StoreExamples.

(** ** Unstage *)

Section Unstage.
Import node views.
Local Arguments strings.Contains : simpl never.
Local Arguments String.eqb : simpl never.
Local Arguments String.append : simpl never.

Context {W : Type} {C : Collaborators (W:=W)}.
Variable L : Lib.

Ltac run_handler :=
  unfold run, bind, call, ret, exit, panic, log, get_files, put_files; cbn;
  repeat handler_step.

Lemma ens_unstage_archive (cfg : ens.GlobalConfig) (req : NodeUnstageVolumeRequest) w fs :
  let rs := run (ens.NodeUnstageVolume L cfg req) w fs in
  rs.1 = Some (OK tt) ->
  if String.eqb (ens.EnableAttachDetachController cfg) "false" then
    exists i,
      trace rs.2 !! i ≫= sel_ens_detachDisk
      = Some (unstage_VolumeId req, ens.InstanceID cfg, None)
      /\ match fs !! live L (unstage_VolumeId req) with
         | None => files rs.2 = fs /\ omap sel_Rename (trace rs.2) = []
         | Some content =>
             exists timeStr a,
               trace rs.2 !! S i ≫= sel_TimeNowFormat = Some timeStr
               /\ trace rs.2 !! S (S i) ≫= sel_Rename
                  = Some (live L (unstage_VolumeId req),
                          archive L (unstage_VolumeId req) timeStr, a)
               /\ files rs.2
                  = match a with
                    | None =>
                        <[archive L (unstage_VolumeId req) timeStr := content]>
                          (delete (live L (unstage_VolumeId req)) fs)
                    | Some _ => fs
                    end
         end
  else
    files rs.2 = fs
    /\ omap sel_Rename (trace rs.2) = []
    /\ forall i, trace rs.2 !! i ≫= sel_ens_detachDisk = None.
Proof.
  intros rs. subst rs.
  unfold ens.NodeUnstageVolume, ens.removeVolumeConfig, ens.store_IsFileExisting,
    ens.store_Rename, ens.fail_if, ens.pass_if, live, archive.
  run_handler.
  all: intros H; try discriminate H.
  all: try match goal with
           | E : bool_decide (is_Some None) = true |- _ =>
               apply bool_decide_eq_true in E; destruct E; discriminate
           | E : bool_decide (is_Some (Some _)) = false |- _ =>
               apply bool_decide_eq_false in E; exfalso; apply E; eauto
           end.
  all: try (split; [reflexivity | split; [reflexivity | intros i; no_position i]]).
  all: let rec go n :=
         first [ exists n; split;
                 [ cbn; reflexivity
                 | first [ split; reflexivity
                         | eexists _, _; repeat split; cbn; reflexivity ] ]
               | lazymatch n with 40 => fail | _ => go (S n) end ] in
       go 0.
Qed.

Lemma disk_unstage_archive (cfg : disk.GlobalConfig) (req : NodeUnstageVolumeRequest) w fs :
  let rs := run (disk.NodeUnstageVolume L cfg req) w fs in
  rs.1 = Some (OK tt) ->
  if negb (disk.ADControllerEnable cfg) && negb (disk.DetachDisabled cfg) then
    exists i a,
      trace rs.2 !! i ≫= sel_detachDisk
      = Some (unstage_VolumeId req, disk.nodeID cfg, None)
      /\ trace rs.2 !! S i ≫= sel_disk_removeVolumeConfig
         = Some (unstage_VolumeId req, a)
  else
    forall i,
      trace rs.2 !! i ≫= sel_detachDisk = None
      /\ trace rs.2 !! i ≫= sel_disk_removeVolumeConfig = None.
Proof.
  intros rs. subst rs.
  unfold disk.NodeUnstageVolume, disk.fail_if, disk.pass_if.
  run_handler.
  all: intros H; try discriminate H.
  all: try (intros i; split; no_position i).
  all: let rec go n :=
         first [ exists n; eexists; split; cbn; reflexivity
               | lazymatch n with 40 => fail | _ => go (S n) end ] in
       go 0.
Qed.

(** C10, as the code has it. An Unstage call that succeeds archives the
    Device Record only where this component performs the detach. In
    pkg/ens, with the attach controller flag "false", the disk is detached
    and, when the volume has a live record, the time is read and the
    record is renamed to its archive file right after the detach: the
    record is then in the archive and no longer live, unless the rename
    fails, which is ignored and leaves the store as it was. With any
    other value of the flag nothing is detached or renamed and the store
    is unchanged. In pkg/disk, with the attach controller disabled and
    detach not disabled, removeVolumeConfig is called right after the
    detach; when the attach controller is enabled or detach is disabled,
    neither is called. *)
Theorem unstage_archives_only_when_detaching (req : NodeUnstageVolumeRequest) w fs :
  (forall cfg : ens.GlobalConfig,
      let rs := run (ens.NodeUnstageVolume L cfg req) w fs in
      rs.1 = Some (OK tt) ->
      if String.eqb (ens.EnableAttachDetachController cfg) "false" then
        exists i,
          trace rs.2 !! i ≫= sel_ens_detachDisk
          = Some (unstage_VolumeId req, ens.InstanceID cfg, None)
          /\ match fs !! live L (unstage_VolumeId req) with
             | None => files rs.2 = fs /\ omap sel_Rename (trace rs.2) = []
             | Some content =>
                 exists timeStr a,
                   trace rs.2 !! S i ≫= sel_TimeNowFormat = Some timeStr
                   /\ trace rs.2 !! S (S i) ≫= sel_Rename
                      = Some (live L (unstage_VolumeId req),
                              archive L (unstage_VolumeId req) timeStr, a)
                   /\ files rs.2
                      = match a with
                        | None =>
                            <[archive L (unstage_VolumeId req) timeStr := content]>
                              (delete (live L (unstage_VolumeId req)) fs)
                        | Some _ => fs
                        end
             end
      else
        files rs.2 = fs
        /\ omap sel_Rename (trace rs.2) = []
        /\ forall i, trace rs.2 !! i ≫= sel_ens_detachDisk = None)
  /\ (forall cfg : disk.GlobalConfig,
        let rs := run (disk.NodeUnstageVolume L cfg req) w fs in
        rs.1 = Some (OK tt) ->
        if negb (disk.ADControllerEnable cfg) && negb (disk.DetachDisabled cfg) then
          exists i a,
            trace rs.2 !! i ≫= sel_detachDisk
            = Some (unstage_VolumeId req, disk.nodeID cfg, None)
            /\ trace rs.2 !! S i ≫= sel_disk_removeVolumeConfig
               = Some (unstage_VolumeId req, a)
        else
          forall i,
            trace rs.2 !! i ≫= sel_detachDisk = None
            /\ trace rs.2 !! i ≫= sel_disk_removeVolumeConfig = None).
Proof.
  split; intros cfg.
  - apply ens_unstage_archive.
  - apply disk_unstage_archive.
Qed.

End Unstage.

Section UnstageExamples.
Import node views scenarios.

(** Against C10 as stated: where detach is left to the attach controller,
    Unstage succeeds and the record of the volume is still the live one;
    nothing is in the archive directory. *)
Lemma unstage_delegated_keeps_record :
  let rs := run (ens.NodeUnstageVolume (C:=always_quiet) golib.unix
                   ens_delegated unstage_request) tt one_record in
  rs.1 = Some (OK tt)
  /\ files rs.2 !! "/host/etc/kubernetes/volumes/disk/d-1.conf" = Some "/dev/vdb"
  /\ map_to_list (files rs.2)
     = [("/host/etc/kubernetes/volumes/disk/d-1.conf", "/dev/vdb")].
Proof. vm_compute. auto. Qed.

Lemma unstage_archives_only_when_detaching_witness :
  let rs := run (ens.NodeUnstageVolume (C:=always_quiet) golib.unix
                   ens_detaching unstage_request) tt one_record in
  omap sel_Rename (trace rs.2)
  = [(live golib.unix "d-1", archive golib.unix "d-1" "2024-05-06-07:08:09", None)]
  /\ files rs.2 !! live golib.unix "d-1" = None
  /\ files rs.2 !! archive golib.unix "d-1" "2024-05-06-07:08:09" = Some "/dev/vdb".
Proof.
  destruct (proj1 (unstage_archives_only_when_detaching (C:=always_quiet)
                     golib.unix unstage_request tt one_record)
                  ens_detaching eq_refl)
    as (i & Hdetach & timeStr & a & Htime & Hrename & Hfiles).
  trace_position Hdetach i.
  injection Htime as <-. injection Hrename as <-.
  split; [reflexivity|]. rewrite Hfiles. split; reflexivity.
Defined.

End UnstageExamples.

(** ** Stage and Publish *)

(** The run of a handler, named and stated once. *)
Ltac name_run :=
  match goal with
  | rs := ?t |- _ =>
      let H := fresh "Hrs" in
      assert (H : rs = t) by reflexivity; clearbody rs; revert H
  end.

(** The answer of the device check, kept with the state it was given in. *)
Ltac check_step :=
  match goal with
  | |- context [node.respond ?A (node.CheckDeviceAvailable ?d ?v ?t) ?w] =>
      let a := fresh "a" in
      let w' := fresh "w" in
      let E := fresh "Echeck" in
      destruct (node.respond A (node.CheckDeviceAvailable d v t) w) as [a w'] eqn:E;
      cbn
  end.

(** The case of the access type of a capability. *)
Ltac access_step :=
  match goal with
  | |- context [match ?x with _ => _ end] =>
      is_var x;
      lazymatch type of x with
      | node.AccessType => destruct x; cbn
      end
  end.

(** The slice and the heap that an [append] leaves. *)
Ltac append_step :=
  match goal with
  | |- context [slices.append ?g ?h ?s ?x] =>
      let s' := fresh "s" in
      let h' := fresh "h" in
      destruct (slices.append g h s x) as [s' h']; cbn
  end.

(** The element is in a list of known elements. *)
Ltac in_list := repeat first [apply list_elem_of_here | apply list_elem_of_further].

(** The element is in a list that is made of known elements and of
    segments. *)
Ltac in_trace :=
  first [ apply list_elem_of_here
        | apply list_elem_of_further; in_trace
        | apply elem_of_app; first [ left; in_trace | right; in_trace ] ].

(** The same, with a segment whose element is given. *)
Ltac in_trace_with H :=
  first [ exact H
        | apply list_elem_of_here
        | apply list_elem_of_further; in_trace_with H
        | apply elem_of_app; first [ left; in_trace_with H | right; in_trace_with H ] ].

(** The cases of a membership in a list of known length. *)
Ltac elem_of_list H :=
  repeat match type of H with
         | _ ∈ [] => apply elem_of_nil in H; destruct H
         | _ ∈ _ :: _ => apply elem_of_cons in H; destruct H as [H|H]
         end.

Section Stage.
Import node views.
Local Arguments strings.Contains : simpl never.
Local Arguments strings.HasPrefix : simpl never.
Local Arguments strings.HasSuffix : simpl never.
Local Arguments strings.Cut : simpl never.
Local Arguments strings.Split : simpl never.
Local Arguments strings.Join : simpl never.
Local Arguments String.eqb : simpl never.
Local Arguments String.append : simpl never.
Local Arguments Z.eqb : simpl never.
Local Arguments mountopts.collectMountOptions : simpl never.
Local Arguments Nat.ltb : simpl never.
Local Arguments slices.append : simpl never.
Local Arguments slices.elems : simpl never.

Context {W : Type} {C : Collaborators (W:=W)}.
Variable L : Lib.

(** *** The entries of sysConfig *)

(** An entry without "=". *)
Definition malformed (configStr : string) : bool :=
  negb (strings.Cut configStr "=").2.

(** The directory of a device under /sys/block, the file an entry is
    written to in pkg/ens, and the entries whose file is outside the
    directory. *)
Definition sysfs_dir (device : string) : string :=
  "/sys/block/" +:+ filepath_Base L device +:+ "/".

Definition sysfs_file (device configStr : string) : string :=
  filepath_Clean L (sysfs_dir device +:+ (strings.Cut configStr "=").1.1).

Definition escaping (device configStr : string) : bool :=
  negb (strings.HasPrefix (sysfs_file device configStr) (sysfs_dir device)).

(** The event of the write of an entry, in pkg/ens and in pkg/disk. *)
Definition ens_written (device : string) (ev : Event) (configStr : string) : Prop :=
  exists a, ev = Ev (WriteTrunc (sysfs_file device configStr)
                                (strings.Cut configStr "=").1.2) a.

Definition disk_written (device : string) (ev : Event) (configStr : string) : Prop :=
  exists a, ev = Ev (WriteSysfs device (strings.Cut configStr "=").1.1
                                (strings.Cut configStr "=").1.2) a.

(** The writes of a trace are those of the given entries, in order. *)
Definition ens_writes (device : string)
    (calls : list (string * string * option goerror)) (entries : list string) : Prop :=
  Forall2 (fun x entry => x.1 = (sysfs_file device entry, (strings.Cut entry "=").1.2))
          calls entries.

Definition disk_writes (device : string)
    (calls : list (string * string * string * option goerror))
    (entries : list string) : Prop :=
  Forall2 (fun x entry =>
             x.1 = (device, (strings.Cut entry "=").1.1, (strings.Cut entry "=").1.2))
          calls entries.

(** The device that a call of pkg/ens gave for the volume: the attach
    call, or the lookup when the attach controller attaches. *)
Definition ens_device (ev : Event) : option string :=
  match ev with
  | Ev c a =>
      match c in Call A return A -> option string with
      | ens_attachDisk _ _ => fun a => Some a.1
      | ens_getVolumeDeviceName _ => fun a => Some a
      | _ => fun _ => None
      end a
  | Logged _ => None
  end.

Ltac loop_stops :=
  split; [auto|]; split; [reflexivity|];
  exists [], 0; rewrite app_nil_r; split; [reflexivity | constructor].

Lemma ens_sysConfig_loop_rejects device pre bad post : forall s : State W,
  malformed bad || escaping device bad = true ->
  let r := ens.sysConfig_loop L device (pre ++ bad :: post) s in
  (r.1 = Return (Fail (Status Aborted)) \/ r.1 = Return (Fail (Status Internal)))
  /\ files r.2 = files s
  /\ exists evs n,
      trace r.2 = trace s ++ evs
      /\ Forall2 (ens_written device) evs (take n pre).
Proof.
  induction pre as [|entry pre IH]; intros s Hbad; cbn.
  - unfold malformed, escaping, sysfs_file, sysfs_dir in Hbad.
    destruct (strings.Cut bad "=") as [[key value] found]. cbn in Hbad.
    destruct found; cbn in *; [rewrite Hbad; cbn|]; loop_stops.
  - destruct (strings.Cut entry "=") as [[key value] found] eqn:Hcut.
    destruct found; cbn; [|loop_stops].
    destruct (strings.HasPrefix _ _); cbn; [|loop_stops].
    unfold bind, call. cbn.
    destruct (respond _ (WriteTrunc _ value) (world s)) as [[e|] w1]; cbn.
    + split; [auto|]. split; [reflexivity|].
      eexists [_], 1. split; [reflexivity|]. cbn. rewrite take_0.
      constructor; [|constructor].
      eexists. unfold sysfs_file, sysfs_dir. rewrite Hcut. reflexivity.
    + match goal with
      | |- context [ens.sysConfig_loop L device _ ?s1] =>
          destruct (IH s1 Hbad) as (Hr & Hf & evs & n & Htr & Hevs)
      end.
      split; [exact Hr|]. split; [rewrite Hf; reflexivity|].
      eexists (_ :: evs), (S n). split.
      * rewrite Htr. cbn. rewrite <- app_assoc. reflexivity.
      * cbn. constructor; [|exact Hevs].
        eexists. unfold sysfs_file, sysfs_dir. rewrite Hcut. reflexivity.
Qed.

(** The loop of pkg/ens writes a prefix of the entries and changes no
    record. *)
Lemma ens_sysConfig_loop_events device configList : forall s : State W,
  let r := ens.sysConfig_loop L device configList s in
  (r.1 = Next tt \/ exists e, r.1 = Return (Fail e))
  /\ files r.2 = files s
  /\ exists evs n,
      trace r.2 = trace s ++ evs
      /\ Forall2 (ens_written device) evs (take n configList).
Proof.
  induction configList as [|entry rest IH]; intros s; cbn.
  - split; [auto|]. split; [reflexivity|].
    exists [], 0. rewrite app_nil_r. split; [reflexivity | constructor].
  - destruct (strings.Cut entry "=") as [[key value] found] eqn:Hcut.
    destruct found; cbn.
    2:{ split; [right; eexists; reflexivity|]. split; [reflexivity|].
        exists [], 0. rewrite app_nil_r. split; [reflexivity | constructor]. }
    destruct (strings.HasPrefix _ _); cbn.
    2:{ split; [right; eexists; reflexivity|]. split; [reflexivity|].
        exists [], 0. rewrite app_nil_r. split; [reflexivity | constructor]. }
    unfold bind, call. cbn.
    destruct (respond _ (WriteTrunc _ value) (world s)) as [[e|] w1]; cbn.
    + split; [right; eexists; reflexivity|]. split; [reflexivity|].
      eexists [_], 1. split; [reflexivity|]. cbn. rewrite take_0.
      constructor; [|constructor].
      eexists. unfold sysfs_file, sysfs_dir. rewrite Hcut. reflexivity.
    + match goal with
      | |- context [ens.sysConfig_loop L device _ ?s1] =>
          destruct (IH s1) as (Hr & Hf & evs & n & Htr & Hevs)
      end.
      split; [exact Hr|]. split; [rewrite Hf; reflexivity|].
      eexists (_ :: evs), (S n). split.
      * rewrite Htr. cbn. rewrite <- app_assoc. reflexivity.
      * cbn. constructor; [|exact Hevs].
        eexists. unfold sysfs_file, sysfs_dir. rewrite Hcut. reflexivity.
Qed.

Lemma disk_sysConfig_loop_events device configList : forall s : State W,
  let r := disk.sysConfig_loop device configList s in
  (r.1 = Next tt \/ r.1 = Return (Fail (Status Aborted)))
  /\ files r.2 = files s
  /\ exists evs n,
      trace r.2 = trace s ++ evs
      /\ Forall2 (disk_written device) evs (take n configList).
Proof.
  induction configList as [|entry rest IH]; intros s; cbn; [loop_stops|].
  destruct (strings.Cut entry "=") as [[key value] found] eqn:Hcut.
  destruct found; cbn; [|loop_stops].
  unfold bind, call. cbn.
  destruct (respond _ (WriteSysfs device key value) (world s)) as [[e|] w1]; cbn.
  - split; [auto|]. split; [reflexivity|].
    eexists [_], 1. split; [reflexivity|]. cbn. rewrite take_0.
    constructor; [|constructor].
    eexists. rewrite Hcut. reflexivity.
  - match goal with
    | |- context [disk.sysConfig_loop device _ ?s1] =>
        destruct (IH s1) as (Hr & Hf & evs & n & Htr & Hevs)
    end.
    split; [exact Hr|]. split; [rewrite Hf; reflexivity|].
    eexists (_ :: evs), (S n). split.
    + rewrite Htr. cbn. rewrite <- app_assoc. reflexivity.
    + cbn. constructor; [|exact Hevs].
      eexists. rewrite Hcut. reflexivity.
Qed.

Lemma disk_sysConfig_loop_rejects device pre bad post : forall s : State W,
  malformed bad = true ->
  let r := disk.sysConfig_loop device (pre ++ bad :: post) s in
  r.1 = Return (Fail (Status Aborted))
  /\ files r.2 = files s
  /\ exists evs n,
      trace r.2 = trace s ++ evs
      /\ Forall2 (disk_written device) evs (take n pre).
Proof.
  induction pre as [|entry pre IH]; intros s Hbad; cbn.
  - unfold malformed in Hbad.
    destruct (strings.Cut bad "=") as [[key value] found]. cbn in Hbad.
    destruct found; [discriminate|]. cbn. loop_stops.
  - destruct (strings.Cut entry "=") as [[key value] found] eqn:Hcut.
    destruct found; cbn; [|loop_stops].
    unfold bind, call. cbn.
    destruct (respond _ (WriteSysfs device key value) (world s)) as [[e|] w1]; cbn.
    + split; [auto|]. split; [reflexivity|].
      eexists [_], 1. split; [reflexivity|]. cbn. rewrite take_0.
      constructor; [|constructor].
      eexists. rewrite Hcut. reflexivity.
    + match goal with
      | |- context [disk.sysConfig_loop device _ ?s1] =>
          destruct (IH s1 Hbad) as (Hr & Hf & evs & n & Htr & Hevs)
      end.
      split; [exact Hr|]. split; [rewrite Hf; reflexivity|].
      eexists (_ :: evs), (S n). split.
      * rewrite Htr. cbn. rewrite <- app_assoc. reflexivity.
      * cbn. constructor; [|exact Hevs].
        eexists. rewrite Hcut. reflexivity.
Qed.

Lemma ens_written_trace device evs entries :
  Forall2 (ens_written device) evs entries ->
  ens_writes device (omap sel_WriteTrunc evs) entries
  /\ Forall (fun ev => is_mount ev = false) evs.
Proof.
  induction 1 as [|ev entry evs entries [a ->] _ [IH1 IH2]]; cbn.
  - split; constructor.
  - split; constructor; auto.
Qed.

Lemma disk_written_trace device evs entries :
  Forall2 (disk_written device) evs entries ->
  disk_writes device (omap sel_WriteSysfs evs) entries
  /\ Forall (fun ev => is_mount ev = false) evs
  /\ omap sel_CheckDeviceAvailable evs = []
  /\ omap sel_disk_saveVolumeConfig evs = [].
Proof.
  induction 1 as [|ev entry evs entries [a ->] _ (IH1 & IH2 & IH3 & IH4)]; cbn.
  - repeat split; constructor.
  - repeat split; try constructor; auto.
Qed.

Local Arguments ens.sysConfig_loop : simpl never.
Local Arguments disk.sysConfig_loop : simpl never.

(** *** Stage of pkg/ens with an entry that is rejected *)

Lemma ens_stage_rejects (cfg : ens.GlobalConfig) (req : NodeStageVolumeRequest) w fs
    value pre bad post :
  stage_VolumeContext req !! ens.SYS_CONFIG_TAG = Some value ->
  strings.Split (strings_TrimSpace L value) "," = pre ++ bad :: post ->
  let rs := run (ens.NodeStageVolume L cfg req) w fs in
  (malformed bad = true
   \/ forall device,
        device ∈ omap ens_device (trace rs.2) -> escaping device bad = true) ->
  ((exists e, rs.1 = Some (Fail e))
   \/ (rs.1 = Some (OK tt)
       /\ files rs.2 = fs
       /\ omap sel_ens_attachDisk (trace rs.2) = []
       /\ omap sel_WriteTrunc (trace rs.2) = []))
  /\ (exists device n, ens_writes device (omap sel_WriteTrunc (trace rs.2)) (take n pre))
  /\ Forall (fun ev => is_mount ev = false) (trace rs.2).
Proof.
  intros Hctx Hsplit rs. name_run.
  unfold ens.NodeStageVolume, ens.saveVolumeConfig, ens.removeVolumeConfig,
    ens.store_IsFileExisting, ens.store_Rename, ens.store_WriteFile,
    ens.fail_if, ens.pass_if.
  rewrite Hctx, Hsplit.
  unfold run, bind, call, ret, exit, panic, log, get_files, put_files; cbn.
  repeat first
    [ match goal with
      | |- context [ens.sysConfig_loop L ?d (pre ++ bad :: post) ?s] =>
          let Hl := fresh "Hloop" in
          let r := fresh "r" in
          let wl := fresh "wl" in
          let fsl := fresh "fsl" in
          let trl := fresh "trl" in
          destruct (malformed bad || escaping d bad) eqn:Hb;
          [ pose proof (ens_sysConfig_loop_rejects d pre bad post s Hb) as Hl;
            cbv zeta in Hl;
            destruct (ens.sysConfig_loop L d (pre ++ bad :: post) s)
              as [r [wl fsl trl]];
            cbn in Hl;
            destruct Hl as (Hr & Hfiles & evs & n & Htrace & Hevs);
            apply ens_written_trace in Hevs; destruct Hevs as [Hwr Hnm];
            subst fsl trl; destruct Hr as [Hr | Hr]; subst r; cbn
          | pose proof (ens_sysConfig_loop_events d (pre ++ bad :: post) s) as Hl;
            cbv zeta in Hl;
            destruct (ens.sysConfig_loop L d (pre ++ bad :: post) s)
              as [r [wl fsl trl]];
            cbn in Hl;
            destruct Hl as (Hr & Hfiles & evs & n & Htrace & _);
            subst fsl trl; destruct Hr as [Hr | [e Hr]]; cbn in Hr; subst r; cbn ]
      end
    | access_step
    | handler_step ].
  all: intros ->; cbn; intros Hbad.
  (* the entry is not one that the loop rejects: the hypothesis fails *)
  all: try (exfalso;
            apply orb_false_iff in Hb; destruct Hb as [Hm He];
            destruct Hbad as [Hbad | Hbad];
            [ rewrite Hbad in Hm; discriminate Hm
            | rewrite Hbad in He;
              [ discriminate He
              | rewrite ?omap_app; cbn; in_trace ] ]).
  all: split; [|split].
  all: try (left; eexists; reflexivity).
  all: try (right; repeat split; reflexivity).
  all: try (exists "", 0; constructor).
  all: try (repeat constructor; fail).
  all: try (eexists _, _; eassumption).
  all: repeat (apply Forall_cons; split; [reflexivity|]); assumption.
Qed.

(** *** The first part of Stage of pkg/disk *)

Lemma stage_device_spec (cfg : disk.GlobalConfig) (req : NodeStageVolumeRequest)
    (s : State W) :
  let r := disk.stage_device L cfg req s in
  files r.2 = files s
  /\ exists evs,
      trace r.2 = trace s ++ evs
      /\ omap sel_disk_saveVolumeConfig evs = []
      /\ omap sel_WriteSysfs evs = []
      /\ Forall (fun ev => is_mount ev = false) evs
      /\ match r.1 with
         | Next _ => omap sel_CheckDeviceAvailable evs = []
         | Return rep =>
             ((exists e, rep = Fail e)
              \/ (rep = OK tt /\ omap sel_attachDisk evs = []))
             /\ forall d v t a,
                 (d, v, t, a) ∈ omap sel_CheckDeviceAvailable evs ->
                 (exists w', (respond _ (CheckDeviceAvailable d v t) w').1 = a)
                 /\ (is_Some a -> rep = Fail (Status Internal))
         | Panic => False
         end.
Proof.
  unfold disk.stage_device, disk.stage_attach, disk.option_enabled,
    disk.fail_if, disk.pass_if.
  unfold bind, call, ret, exit, panic, log, get_files, put_files; cbn.
  repeat first [check_step | handler_step].
  all: (split; [reflexivity|]).
  all: eexists; split;
    [ repeat rewrite <- app_assoc; cbn; reflexivity | cbn ].
  all: (split; [reflexivity|]); (split; [reflexivity|]).
  all: (split; [repeat constructor|]).
  all: try reflexivity.
  all: split; [first [left; eexists; reflexivity | right; split; reflexivity]|].
  all: intros d v t a0' Hin; elem_of_list Hin.
  all: simplify_eq.
  all: split; [eexists; erewrite Echeck; reflexivity|].
  all: intros [? ?]; (reflexivity || discriminate).
Qed.

Local Arguments disk.stage_device : simpl never.

Ltac device_step :=
  match goal with
  | |- context [disk.stage_device ?L0 ?cfg ?req ?s] =>
      let Hd := fresh "Hd" in
      let r := fresh "r" in
      let wd := fresh "wd" in
      let fsd := fresh "fsd" in
      let trd := fresh "trd" in
      pose proof (stage_device_spec cfg req s) as Hd; cbv zeta in Hd;
      destruct (disk.stage_device L0 cfg req s) as [r [wd fsd trd]]; cbn in Hd;
      destruct Hd as (Hf0 & evs0 & Htr0 & Hns0 & Hnw0 & Hnm0 & Hr0);
      subst fsd trd;
      destruct r as [[targetPath device]|rep|]; cbn in Hr0 |- *;
      [ | | destruct Hr0]
  end.

(** *** Stage of pkg/disk with a malformed entry *)

Lemma disk_stage_rejects (cfg : disk.GlobalConfig) (req : NodeStageVolumeRequest) w fs
    value pre bad post :
  stage_VolumeContext req !! disk.SysConfigTag = Some value ->
  strings.Split (strings_TrimSpace L value) "," = pre ++ bad :: post ->
  malformed bad = true ->
  let rs := run (disk.NodeStageVolume L cfg req) w fs in
  ((exists e, rs.1 = Some (Fail e))
   \/ (rs.1 = Some (OK tt)
       /\ omap sel_attachDisk (trace rs.2) = []
       /\ omap sel_disk_saveVolumeConfig (trace rs.2) = []
       /\ omap sel_WriteSysfs (trace rs.2) = []))
  /\ (exists device n, disk_writes device (omap sel_WriteSysfs (trace rs.2)) (take n pre))
  /\ Forall (fun ev => is_mount ev = false) (trace rs.2).
Proof.
  intros Hctx Hsplit Hbad rs. name_run.
  unfold disk.NodeStageVolume, disk.fail_if, disk.pass_if.
  rewrite Hctx, Hsplit.
  unfold run, bind, call, ret, exit, panic, log, get_files, put_files; cbn.
  repeat first
    [ device_step
    | match goal with
      | |- context [disk.sysConfig_loop ?d (pre ++ bad :: post) ?s] =>
          let Hl := fresh "Hloop" in
          let r := fresh "r" in
          let wl := fresh "wl" in
          let fsl := fresh "fsl" in
          let trl := fresh "trl" in
          pose proof (disk_sysConfig_loop_rejects d pre bad post s Hbad) as Hl;
          cbv zeta in Hl;
          destruct (disk.sysConfig_loop d (pre ++ bad :: post) s) as [r [wl fsl trl]];
          cbn in Hl;
          destruct Hl as (Hr & Hfiles & evs & n & Htrace & Hevs);
          apply disk_written_trace in Hevs; destruct Hevs as (Hwr & Hnm & _ & _);
          subst r fsl trl; cbn
      end
    | handler_step ].
  all: intros ->; cbn.
  all: rewrite ?omap_app, ?Forall_app; cbn; rewrite ?Hns0, ?Hnw0; cbn.
  4: destruct Hr0 as [[[e ->] | [-> Hna]] _].
  all: split;
    [ first [left; eexists; reflexivity | right; repeat split; assumption]
    | split;
      [ first [exists "", 0; constructor | eexists _, _; eassumption]
      | repeat split; first [assumption | repeat constructor] ] ].
Qed.

(** C9, as the code has it. Stage parses the sysConfig option after the
    volume is attached and its Device Record is written, and it writes the
    entries one by one. For a request whose sysConfig list has an entry
    that is rejected (in pkg/ens: an entry without "=", or one whose
    cleaned file is outside the directory under /sys/block of the device
    that the run obtained for the volume, be it inside the directory of
    another device; in pkg/disk: an entry without "="), every run either
    fails, or returns success before the attach step because the volume is
    staged already, and then nothing is attached, recorded or written. In
    every run the sysfs writes are those of entries before the rejected
    one, in order (none for the rejected entry or a later one), and
    nothing is formatted or mounted. *)
Theorem sysConfig_entry_rejected (req : NodeStageVolumeRequest) w fs
    value pre bad post :
  stage_VolumeContext req !! ens.SYS_CONFIG_TAG = Some value ->
  strings.Split (strings_TrimSpace L value) "," = pre ++ bad :: post ->
  (forall cfg : ens.GlobalConfig,
      let rs := run (ens.NodeStageVolume L cfg req) w fs in
      (malformed bad = true
       \/ forall device,
            device ∈ omap ens_device (trace rs.2) -> escaping device bad = true) ->
      ((exists e, rs.1 = Some (Fail e))
       \/ (rs.1 = Some (OK tt)
           /\ files rs.2 = fs
           /\ omap sel_ens_attachDisk (trace rs.2) = []
           /\ omap sel_WriteTrunc (trace rs.2) = []))
      /\ (exists device n,
             ens_writes device (omap sel_WriteTrunc (trace rs.2)) (take n pre))
      /\ Forall (fun ev => is_mount ev = false) (trace rs.2))
  /\ (forall cfg : disk.GlobalConfig,
        malformed bad = true ->
        let rs := run (disk.NodeStageVolume L cfg req) w fs in
        ((exists e, rs.1 = Some (Fail e))
         \/ (rs.1 = Some (OK tt)
             /\ omap sel_attachDisk (trace rs.2) = []
             /\ omap sel_disk_saveVolumeConfig (trace rs.2) = []
             /\ omap sel_WriteSysfs (trace rs.2) = []))
        /\ (exists device n,
               disk_writes device (omap sel_WriteSysfs (trace rs.2)) (take n pre))
        /\ Forall (fun ev => is_mount ev = false) (trace rs.2)).
Proof.
  intros Hctx Hsplit. split; intros cfg.
  - exact (ens_stage_rejects cfg req w fs value pre bad post Hctx Hsplit).
  - intros Hbad.
    exact (disk_stage_rejects cfg req w fs value pre bad post Hctx Hsplit Hbad).
Qed.

(** *** The device check of Stage *)

Ltac loop_step :=
  match goal with
  | |- context [disk.sysConfig_loop ?d ?l ?s] =>
      let Hl := fresh "Hloop" in
      let r := fresh "r" in
      let wl := fresh "wl" in
      let fsl := fresh "fsl" in
      let trl := fresh "trl" in
      pose proof (disk_sysConfig_loop_events d l s) as Hl;
      cbv zeta in Hl;
      destruct (disk.sysConfig_loop d l s) as [r [wl fsl trl]];
      cbn in Hl;
      destruct Hl as (Hr & Hfiles & evs & n & Htrace & Hevs);
      apply disk_written_trace in Hevs; destruct Hevs as (_ & _ & Hnc & Hns);
      subst fsl trl; destruct Hr as [Hr | Hr]; cbn in Hr; subst r; cbn
  end.

Lemma disk_stage_check (cfg : disk.GlobalConfig) (req : NodeStageVolumeRequest) w fs :
  let rs := run (disk.NodeStageVolume L cfg req) w fs in
  forall d v t a,
    (d, v, t, a) ∈ omap sel_CheckDeviceAvailable (trace rs.2) ->
    (exists w', (respond _ (CheckDeviceAvailable d v t) w').1 = a)
    /\ (is_Some a ->
        rs.1 = Some (Fail (Status Internal))
        /\ omap sel_disk_saveVolumeConfig (trace rs.2) = []
        /\ files rs.2 = fs).
Proof.
  intros rs d v t a. name_run.
  unfold disk.NodeStageVolume, disk.fail_if, disk.pass_if.
  unfold run, bind, call, ret, exit, panic, log, get_files, put_files; cbn.
  repeat first [device_step | check_step | loop_step | access_step | handler_step].
  all: intros ->; cbn.
  all: rewrite ?omap_app; cbn; rewrite ?Hns0, ?Hnc, ?Hns; cbn.
  all: intros Hin.
  all: try match type of Hr0 with
           | _ /\ _ =>
               destruct (proj2 Hr0 d v t a Hin) as [Hex Hint];
               split; [exact Hex|]; intros Hs; rewrite (Hint Hs); auto
           end.
  all: rewrite Hr0 in Hin; cbn in Hin; elem_of_list Hin; simplify_eq.
  all: split; [eexists; erewrite Echeck; reflexivity|].
  all: intros [? ?]; try discriminate.
  all: auto.
Qed.

Lemma CheckDeviceAvailable_spec_passes devFor expectName devicePath volumeID :
  disk.CheckDeviceAvailable_spec devFor expectName devicePath volumeID = None ->
  devFor devicePath = devFor (expectName volumeID).
Proof.
  unfold disk.CheckDeviceAvailable_spec.
  destruct (devFor devicePath) as [major minor].
  destruct (devFor (expectName volumeID)) as [major' minor'].
  destruct (Z.eqb_spec major major'), (Z.eqb_spec minor minor'); cbn;
    intros; congruence.
Qed.

(** *** The device check of Publish *)

(** The device of the staging mount has been verified: it is tmpfs and
    nothing was compared, or its major and minor numbers were read after
    the expected device name of the volume was obtained, and they are
    those of the expected device. *)
Definition verified (volumeID realDevice : string) (evs : list Event) : Prop :=
  (realDevice = "tmpfs" /\ omap sel_DevFor evs = [])
  \/ exists expectName major minor,
      (volumeID, (expectName, None)) ∈ omap sel_GetVolumeDeviceName evs
      /\ omap sel_DevFor evs
         = [(realDevice, (major, minor, None)); (expectName, (major, minor, None))].

(** The numbers of the two devices were read and differ. *)
Definition mismatch (calls : list (string * (Z * Z * option goerror))) : Prop :=
  exists real expect major minor e major' minor' e',
    calls = [(real, (major, minor, e)); (expect, (major', minor', e'))]
    /\ (major <> major' \/ minor <> minor').

(** The mounts of the device check: the staging path is mounted again,
    from the device that was given as the expected one of the volume. *)
Definition remount (volumeID sourcePath : string) (evs : list Event)
    (x : string * string * string * list string * option goerror) : Prop :=
  x.1.1.1.2 = sourcePath
  /\ (volumeID, (x.1.1.1.1, None)) ∈ omap sel_GetVolumeDeviceName evs.

Lemma publish_check_device_spec growslice (req : NodePublishVolumeRequest)
    sourcePath fsType flags h (s : State W) :
  let r := disk.publish_check_device growslice req sourcePath fsType flags h s in
  files r.2 = files s
  /\ exists evs,
      trace r.2 = trace s ++ evs
      /\ omap sel_SetVolumeIOLimit evs = []
      /\ Forall (remount (publish_VolumeId req) sourcePath evs) (omap sel_Mount evs)
      /\ match r.1 with
         | Next (realDevice, _) => verified (publish_VolumeId req) realDevice evs
         | Return rep => rep = Fail (Status Internal)
         | Panic => False
         end
      /\ (mismatch (omap sel_DevFor evs) -> r.1 = Return (Fail (Status Internal))).
Proof.
  unfold disk.publish_check_device, disk.fail_if.
  unfold bind, call, ret, exit, panic, log, get_files, put_files; cbn.
  repeat first [append_step | access_step | handler_step].
  all: (split; [reflexivity|]).
  all: eexists; split;
    [ repeat rewrite <- app_assoc; cbn; reflexivity | cbn ].
  all: (split; [reflexivity|]).
  all: (split; [repeat constructor; cbn; in_list|]).
  all: split.
  all: try reflexivity.
  all: try (intros (? & ? & ? & ? & ? & ? & ? & ? & ? & ?); discriminate).
  all: repeat match goal with
              | E : negb _ = false |- _ => apply negb_false_iff in E
              | E : (_ && _) = true |- _ => apply andb_true_iff in E; destruct E
              | E : (_ =? _)%Z = true |- _ => apply Z.eqb_eq in E
              | E : String.eqb _ "tmpfs" = true |- _ => apply String.eqb_eq in E
              end.
  all: subst.
  all: try (left; split; reflexivity).
  all: try (right; do 3 eexists; split; [apply list_elem_of_here | reflexivity]).
  all: intros (? & ? & ? & ? & ? & ? & ? & ? & Heq & [Hne | Hne]);
    injection Heq as -> -> -> -> -> -> -> ->; congruence.
Qed.

Local Arguments disk.publish_check_device : simpl never.

Ltac check_device_step :=
  match goal with
  | |- context [disk.publish_check_device ?g ?req ?p ?f ?m ?h ?s] =>
      let Hd := fresh "Hd" in
      let r := fresh "r" in
      let wd := fresh "wd" in
      let fsd := fresh "fsd" in
      let trd := fresh "trd" in
      let hd := fresh "h" in
      pose proof (publish_check_device_spec g req p f m h s) as Hd; cbv zeta in Hd;
      destruct (disk.publish_check_device g req p f m h s) as [r [wd fsd trd]];
      cbn in Hd;
      destruct Hd as (Hf0 & evs0 & Htr0 & Hnl0 & Hnm0 & Hr0 & Hmis0);
      subst fsd trd;
      destruct r as [[realDevice hd]|rep|]; cbn in Hr0 |- *;
      [ | subst rep | destruct Hr0]
  end.

(** A trace that is given with its first events, split before two
    events that follow each other. *)
Lemma split_cons (x : Event) l pre r : l = pre ++ r -> x :: l = (x :: pre) ++ r.
Proof. intros ->. reflexivity. Qed.

Ltac split_trace :=
  first [ reflexivity | apply split_cons; split_trace ].

(** The bind mount of Publish: the mount of the staging path onto the
    target, made right after the IO limit was set. *)
Definition guarded_mount (req : NodePublishVolumeRequest) (tr : list Event)
    (x : string * string * string * list string * option goerror) : Prop :=
  x.1.1.1 = (publish_StagingTargetPath req, publish_TargetPath req)
  /\ exists realDevice pre post,
      tr = pre ++ [Ev (SetVolumeIOLimit realDevice req) None;
                   Ev (Mount x.1.1.1.1 x.1.1.1.2 x.1.1.2 x.1.2) x.2] ++ post.

Lemma disk_publish_check (cfg : disk.GlobalConfig) growslice
    (req : NodePublishVolumeRequest) spare w fs :
  let rs := run (disk.NodePublishVolume L cfg growslice req spare) w fs in
  (forall realDevice a,
      (realDevice, req, a) ∈ omap sel_SetVolumeIOLimit (trace rs.2) ->
      verified (publish_VolumeId req) realDevice (trace rs.2))
  /\ (forall x, x ∈ omap sel_Mount (trace rs.2) ->
        remount (publish_VolumeId req) (publish_StagingTargetPath req) (trace rs.2) x
        \/ guarded_mount req (trace rs.2) x)
  /\ (mismatch (omap sel_DevFor (trace rs.2)) ->
        rs.1 = Some (Fail (Status Internal))
        /\ omap sel_SetVolumeIOLimit (trace rs.2) = []).
Proof.
  intros rs. name_run.
  unfold disk.NodePublishVolume, disk.publish_runv, slices.of_request,
    disk.mountDeviceToGlobal, disk.unmountStageTarget, disk.fail_if, disk.pass_if.
  unfold run, bind, call, ret, exit, panic, log, get_files, put_files; cbn.
  repeat first [check_device_step | append_step | access_step | handler_step].
  all: intros ->; cbn.
  all: rewrite ?omap_app; cbn; rewrite ?Hnl0; cbn.
  all: try (split; [intros ? ? Hin; elem_of_list Hin|];
            split; [intros ? Hin; elem_of_list Hin|];
            intros (? & ? & ? & ? & ? & ? & ? & ? & ? & ?); discriminate).
  all: rewrite ?app_nil_r.
  all: split; [|split].
  all: try (intros Hm; specialize (Hmis0 Hm); discriminate).
  all: try (intros ? ? Hin; elem_of_list Hin; fail).
  all: try (intros rd a' Hin; elem_of_list Hin; simplify_eq;
            unfold verified in Hr0 |- *; cbn; rewrite ?omap_app; cbn;
            rewrite ?app_nil_r;
            destruct Hr0 as [[-> Hd]|(en & major & minor & Hen & Hd)];
            rewrite Hd;
            [ left; split; reflexivity
            | right; exists en, major, minor;
              split; [rewrite ?elem_of_app; auto | reflexivity] ]).
  all: try (intros x Hin; unfold remount, guarded_mount; cbn;
            rewrite ?omap_app; cbn; rewrite Forall_forall in Hnm0;
            first
              [ (apply elem_of_app in Hin; destruct Hin as [Hin|Hin]);
                [ left; destruct (Hnm0 x Hin) as [Ht Hs];
                  split; [exact Ht | in_trace_with Hs]
                | elem_of_list Hin; subst x; right;
                  split; [reflexivity|]; cbn;
                  repeat rewrite <- app_assoc; cbn;
                  eexists _, _, _; split_trace ]
              | left; destruct (Hnm0 x Hin) as [Ht Hs];
                split; [exact Ht | in_trace_with Hs] ]).
  all: intros _; split; reflexivity.
Qed.

(** C2. The device check of Stage, [CheckDeviceAvailable], is made on the
    source side and decided outside the sources; assume that it passes a
    device only if the major and minor numbers of the device are those of
    the device expected for the volume. Then in every run of Stage of
    pkg/disk in which a device is checked and the check fails, or the
    numbers of the checked device differ from the expected ones, the call
    fails with Internal and [saveVolumeConfig], which writes the Device
    Record of pkg/disk, is not called. In every run of Publish of pkg/disk,
    whatever the capacity of the slice of mount flags, the IO limit is set
    on the device of the staging mount only when that device is tmpfs or
    its major and minor numbers have been read and are equal to those of
    the expected device of the volume. Every mount that is made either
    mounts the staging path again, from the device that was given as the
    expected one, or is the bind mount of the staging path onto the target
    and follows at once the call that set the IO limit without error,
    whatever options it carries. When the numbers were read and differ,
    the call fails with Internal and the IO limit is not set. *)
Theorem device_verification (devFor : string -> Z * Z) (expectName : string -> string) :
  (forall d v t w,
      (respond _ (CheckDeviceAvailable d v t) w).1 = None ->
      disk.CheckDeviceAvailable_spec devFor expectName d v = None) ->
  (forall (cfg : disk.GlobalConfig) (req : NodeStageVolumeRequest) w fs,
      let rs := run (disk.NodeStageVolume L cfg req) w fs in
      forall d v t a,
        (d, v, t, a) ∈ omap sel_CheckDeviceAvailable (trace rs.2) ->
        is_Some a \/ devFor d <> devFor (expectName v) ->
        rs.1 = Some (Fail (Status Internal))
        /\ omap sel_disk_saveVolumeConfig (trace rs.2) = [])
  /\ (forall (cfg : disk.GlobalConfig) growslice (req : NodePublishVolumeRequest)
             spare w fs,
        let rs := run (disk.NodePublishVolume L cfg growslice req spare) w fs in
        (forall realDevice a,
            (realDevice, req, a) ∈ omap sel_SetVolumeIOLimit (trace rs.2) ->
            verified (publish_VolumeId req) realDevice (trace rs.2))
        /\ (forall x,
              x ∈ omap sel_Mount (trace rs.2) ->
              remount (publish_VolumeId req) (publish_StagingTargetPath req)
                      (trace rs.2) x
              \/ guarded_mount req (trace rs.2) x)
        /\ (mismatch (omap sel_DevFor (trace rs.2)) ->
              rs.1 = Some (Fail (Status Internal))
              /\ omap sel_SetVolumeIOLimit (trace rs.2) = [])).
Proof.
  intros Hcheck. split.
  - intros cfg req w fs rs d v t a Hin Hbad.
    destruct (disk_stage_check cfg req w fs d v t a Hin) as [[w' Hw'] Hfail].
    assert (Hs : is_Some a).
    { destruct a as [e|]; [eauto|].
      destruct Hbad as [[e He]|Hne]; [discriminate He|].
      exfalso. apply Hne.
      apply CheckDeviceAvailable_spec_passes, (Hcheck d v t w'), Hw'. }
    destruct (Hfail Hs) as (Hrep & Hsave & _). split; assumption.
  - intros cfg growslice req spare w fs. apply disk_publish_check.
Qed.

End Stage.

Section StageExamples.
Import node scenarios more_scenarios.

(** Against C9 as stated: Stage of pkg/ens rejects the second entry of the
    list, which has no "=", and a key that leaves the directory of the
    device, only after the volume is attached and its record is written;
    in the first run the first entry has been written to sysfs as well. *)
Lemma sysConfig_rejected_after_attach :
  let malformed_entry :=
    run (ens.NodeStageVolume (C:=always_quiet) golib.unix ens_detaching
           (stage_request "queue/scheduler=none,read_ahead_kb")) tt ∅ in
  let escaping_key :=
    run (ens.NodeStageVolume (C:=always_quiet) golib.unix ens_detaching
           (stage_request "../vda/queue/scheduler=none")) tt ∅ in
  (malformed_entry.1 = Some (Fail (Status Aborted))
   /\ omap sel_ens_attachDisk (trace malformed_entry.2)
      = [("d-1", "i-1", ("/dev/vdb", None))]
   /\ omap sel_WriteTrunc (trace malformed_entry.2)
      = [("/sys/block/vdb/queue/scheduler", "none", None)]
   /\ map_to_list (files malformed_entry.2)
      = [("/host/etc/kubernetes/volumes/disk/d-1.conf", "/dev/vdb")])
  /\ (escaping_key.1 = Some (Fail (Status Aborted))
      /\ omap sel_ens_attachDisk (trace escaping_key.2)
         = [("d-1", "i-1", ("/dev/vdb", None))]
      /\ map_to_list (files escaping_key.2)
         = [("/host/etc/kubernetes/volumes/disk/d-1.conf", "/dev/vdb")]).
Proof. vm_compute. auto 10. Qed.

Lemma sysConfig_entry_rejected_witness :
  let malformed_entry :=
    run (ens.NodeStageVolume (C:=always_quiet) golib.unix ens_detaching
           (stage_request "queue/scheduler=none,read_ahead_kb")) tt ∅ in
  let escaping_key :=
    run (ens.NodeStageVolume (C:=always_quiet) golib.unix ens_detaching
           (stage_request "queue/scheduler=none,../vda/queue/scheduler=none")) tt ∅ in
  ((exists device n,
       ens_writes golib.unix device (omap sel_WriteTrunc (trace malformed_entry.2))
                  (take n ["queue/scheduler=none"]))
   /\ Forall (fun ev => is_mount ev = false) (trace malformed_entry.2))
  /\ ((exists device n,
          ens_writes golib.unix device (omap sel_WriteTrunc (trace escaping_key.2))
                     (take n ["queue/scheduler=none"]))
      /\ Forall (fun ev => is_mount ev = false) (trace escaping_key.2)).
Proof.
  split.
  - refine (proj2 (proj1 (sysConfig_entry_rejected (C:=always_quiet) golib.unix
              (stage_request "queue/scheduler=none,read_ahead_kb") tt ∅
              "queue/scheduler=none,read_ahead_kb"
              ["queue/scheduler=none"] "read_ahead_kb" [] _ _) ens_detaching _)).
    + vm_compute. reflexivity.
    + vm_compute. reflexivity.
    + left. reflexivity.
  - refine (proj2 (proj1 (sysConfig_entry_rejected (C:=always_quiet) golib.unix
              (stage_request "queue/scheduler=none,../vda/queue/scheduler=none") tt ∅
              "queue/scheduler=none,../vda/queue/scheduler=none"
              ["queue/scheduler=none"] "../vda/queue/scheduler=none" [] _ _)
              ens_detaching _)).
    + vm_compute. reflexivity.
    + vm_compute. reflexivity.
    + right. intros device Hin. vm_compute in Hin.
      change (device ∈ ["/dev/vdb"]) in Hin.
      elem_of_list Hin. subst device. vm_compute. reflexivity.
Defined.

Lemma device_verification_witness :
  (let rs := run (disk.NodeStageVolume (C:=stale_device) golib.unix disk_detaching
                    (stage_request "queue/scheduler=none")) tt ∅ in
   rs.1 = Some (Fail (Status Internal))
   /\ omap sel_disk_saveVolumeConfig (trace rs.2) = [])
  /\ (let rs := run (disk.NodePublishVolume (C:=hidden_device) golib.unix
                      disk_detaching doubling publish_request [""; ""]) 0 ∅ in
      guarded_mount publish_request (trace rs.2)
        (publish_StagingTargetPath publish_request,
         publish_TargetPath publish_request, "ext4",
         ["noatime"; "shared"; "ro"], None)).
Proof.
  split.
  - refine (proj1 (device_verification (C:=stale_device) golib.unix stale_link by_id _)
              disk_detaching (stage_request "queue/scheduler=none") tt ∅
              "/dev/vdb" "d-1"
              "/var/lib/kubelet/plugins/kubernetes.io/csi/pv/pv-1/globalmount"
              (Some (mkError "device is not the expected device of the volume" false))
              _ _).
    + intros d v t w H. exact H.
    + vm_compute. apply list_elem_of_here.
    + right. vm_compute. discriminate.
  - destruct (proj1 (proj2 (proj2 (device_verification (C:=hidden_device) golib.unix
                (fun _ => (0, 0)%Z) by_id (fun d v t w _ => eq_refl))
                disk_detaching doubling publish_request [""; ""] 0 ∅))
              (publish_StagingTargetPath publish_request,
               publish_TargetPath publish_request, "ext4",
               ["noatime"; "shared"; "ro"], None))
      as [[Hstaging _] | Hguarded].
    + vm_compute. in_list.
    + discriminate Hstaging.
    + exact Hguarded.
Defined.

End StageExamples.

(** ** The resolver, on examples *)

Section MetadataExamples.
Import metadata scenarios.

Lemma Metadata_Get_fallback_witness :
  Get (mkMetadata [node_without_zone; node_in_zone_1]) ZoneID tt
  = (Returns "zone-1" None, mkMetadata [node_without_zone; node_in_zone_1], tt)
  /\ Get (MetadataProvider := Metadata_Get
            (MP := lazyInitProvider_Get
               (MF := KubernetesMetadataFetcher_fetcher (NI := api_server_down))))
         (mkMetadata [kubernetesProvider "node-1" ""; kubernetesProvider "node-1" ""])
         ZoneID tt
     = (Returns "" (Some (aggregate [connection_refused; connection_refused])),
        mkMetadata [failed_provider; failed_provider], tt).
Proof.
  split.
  - apply (proj1 (Metadata_Get_fallback ZoneID)
             [node_without_zone] node_in_zone_1 [] tt
             [ErrUnknownMetadataKey] [node_without_zone] tt).
    + eapply all_fail_cons; [reflexivity | constructor].
    + reflexivity.
  - apply (proj2 (Metadata_Get_fallback
                    (MP := lazyInitProvider_Get
                             (MF := KubernetesMetadataFetcher_fetcher
                                      (NI := api_server_down)))
                    ZoneID)
             [kubernetesProvider "node-1" ""; kubernetesProvider "node-1" ""] tt
             [connection_refused; connection_refused]
             [failed_provider; failed_provider] tt).
    + eapply all_fail_cons; [reflexivity|].
      eapply all_fail_cons; [reflexivity | constructor].
    + constructor. discriminate.
Defined.

Lemma doubling_enough c n : n <= doubling c n.
Proof. apply Nat.le_max_l. Qed.

Lemma EnableOpenAPI_snapshot_witness :
  let mh0 := resolver.run_calls doubling node_name_set
               [resolver.CallEnableEcs; resolver.CallEnableKubernetes]
               resolver.NewMetadata in
  let mh1 := resolver.EnableOpenAPI doubling mh0.1 mh0.2 in
  let mh2 := resolver.run_calls doubling node_name_set
               [resolver.CallEnableEcs; resolver.CallEnableOpenAPI] mh1 in
  resolver.elems mh2.2 (resolver.providers mh0.1) = [Some 1; Some 2; Some 3]
  /\ (Some 4 ∉ resolver.elems mh2.2 (resolver.providers mh0.1))
  /\ resolver.elems mh2.2 (resolver.providers mh2.1)
     = [Some 1; Some 2; Some 3; Some 4; Some 5; Some 6].
Proof.
  pose proof (EnableOpenAPI_snapshot doubling doubling_enough node_name_set
                [resolver.CallEnableEcs; resolver.CallEnableKubernetes]
                [resolver.CallEnableEcs; resolver.CallEnableOpenAPI])
    as (_ & _ & Hsame & Hnot & _).
  split; [exact Hsame|]. split; [exact Hnot | reflexivity].
Defined.

End MetadataExamples.

(* ===================================================================== *)
(** * The rest of the resolver and of the node servers

    Properties of the functions that the sections above do not reach:
    the providers of the resolver that cache and that read the node
    object, the order of what Stage, Unstage, Publish and Expand do, the
    mounter, Unpublish, and the configuration of the OpenAPI clients. *)

(** ** The caching provider and the Kubernetes source *)

Section ImmutableProvider.
Import metadata.
Context {W P : Type} {MP : MetadataProvider (W:=W) P}.

(** X1. The caching provider pins what it returns: after [Get] has
    returned a value for a key without error, the value is stored under
    the key and every later [Get] for that key returns it from the store,
    whatever the world is then, without a change of the provider. The
    entries stored before stay as they are and the name is kept; when the
    wrapped provider fails or panics, nothing is stored and an error comes
    back with the empty text. *)
Theorem immutableProvider_Get_pins (p : immutableProvider P) (key : MetadataKey) (w : W) :
  let '(o, p', w') := Get p key w in
  imm_name p' = imm_name p
  /\ (forall k v, imm_values p !! k = Some v -> imm_values p' !! k = Some v)
  /\ match o with
     | Returns v None =>
         imm_values p' !! key = Some v
         /\ forall w2, Get p' key w2 = (Returns v None, p', w2)
     | Returns v (Some _) => v = "" /\ imm_values p' = imm_values p
     | Panics => imm_values p' = imm_values p
     end.
Proof.
  unfold Get at 1, immutableProvider_Get.
  destruct (imm_values p !! key) as [v|] eqn:Hv.
  - split; [reflexivity|]. split; [auto|]. split; [exact Hv|].
    intros w2. unfold Get, immutableProvider_Get. now rewrite Hv.
  - destruct (Get (imm_provider p) key w) as [[o inner'] w'].
    destruct o as [v [e|]|]; cbn.
    + repeat split; auto.
    + split; [reflexivity|]. split.
      * intros k v0 Hk. rewrite lookup_insert_ne; [exact Hk|].
        intros Heq. subst k. enough (Some v0 = None) by discriminate.
        etransitivity; [symmetry; exact Hk | exact Hv].
      * split; [apply lookup_insert_eq|].
        intros w2. unfold Get, immutableProvider_Get. cbn.
        now rewrite lookup_insert_eq.
    + repeat split; auto.
Qed.
End ImmutableProvider.

Section KubernetesSource.
Import metadata.
Context {W : Type} {NI : NodeInterface (W:=W)}.
Local Arguments strings.Split : simpl never.
Local Arguments strings.HasPrefix : simpl never.
Local Arguments String.eqb : simpl never.

(** The map of labels has the four keys below [Runtime] only. *)
Lemma MetadataLabels_None envKey key :
  ~ (0 <= key <= 3)%Z -> MetadataLabels envKey key = None.
Proof.
  intros H. unfold MetadataLabels, RegionID, ZoneID, InstanceType, InstanceID.
  destruct (Z.eqb_spec key 0); [lia|].
  destruct (Z.eqb_spec key 1); [lia|].
  destruct (Z.eqb_spec key 3); [lia|].
  destruct (Z.eqb_spec key 2); [lia|]. reflexivity.
Qed.

(** X2. A key that is none of RegionID, ZoneID, InstanceID,
    InstanceType and Runtime is refused by the Kubernetes source with
    [ErrUnknownMetadataKey] at every level: by [Get] of a node object,
    by [FetchFor] without a call of the API server (the world is
    unchanged), and by the lazy provider that [EnableKubernetes] appends,
    which stays uninitialised. *)
Theorem Kubernetes_unknown_key (key : MetadataKey) :
  ~ (0 <= key <= 4)%Z ->
  (forall m, KubernetesNodeMetadata_Get m key = ("", Some ErrUnknownMetadataKey))
  /\ (forall f w, FetchFor f key w = ((None, Some ErrUnknownMetadataKey), w))
  /\ (forall nodeName envKey w,
        Get (kubernetesProvider nodeName envKey) key w
        = (Returns "" (Some ErrUnknownMetadataKey),
           kubernetesProvider nodeName envKey, w)).
Proof.
  intros Hkey.
  assert (Hrt : Z.eqb key Runtime = false).
  { apply Z.eqb_neq. unfold Runtime. lia. }
  assert (Hfetch : forall f w,
             KubernetesMetadataFetcher_FetchFor f key w
             = ((None, Some ErrUnknownMetadataKey), w)).
  { intros f w. unfold KubernetesMetadataFetcher_FetchFor.
    rewrite MetadataLabels_None by lia. rewrite Hrt.
    rewrite bool_decide_eq_false_2 by (intros [? ?]; discriminate). reflexivity. }
  split; [|split].
  - intros m. unfold KubernetesNodeMetadata_Get. rewrite Hrt.
    rewrite MetadataLabels_None by lia. cbn.
    assert (Hr : Z.eqb key RegionID = false) by (apply Z.eqb_neq; unfold RegionID; lia).
    assert (Hi : Z.eqb key InstanceID = false) by (apply Z.eqb_neq; unfold InstanceID; lia).
    rewrite Hr, Hi.
    destruct (strings.Split _ _) as [|? [|? [|? ?]]]; reflexivity.
  - exact Hfetch.
  - intros nodeName envKey w.
    unfold Get, lazyInitProvider_Get, lazy_Get_traced, kubernetesProvider. cbn.
    change (FetchFor ?f key w) with (KubernetesMetadataFetcher_FetchFor f key w).
    rewrite Hfetch. reflexivity.
Qed.

End KubernetesSource.

Section Strings.

(** [strings.Split] and [strings.TrimPrefix] on a text with one separator. *)

Lemma HasPrefix_char c s :
  strings.HasPrefix s (String c "")
  = match s with String c' _ => bool_decide (c = c') | EmptyString => false end.
Proof.
  unfold strings.HasPrefix. destruct s as [|c' r]; [reflexivity|]. cbn.
  destruct (ascii_dec c c'); [rewrite bool_decide_eq_true_2 | rewrite bool_decide_eq_false_2]; auto.
  destruct r; reflexivity.
Qed.

Lemma Cut_char_absent c s :
  strings.Contains s (String c "") = false ->
  strings.Cut s (String c "") = (s, "", false).
Proof.
  induction s as [|c' r IH]; intros H; [reflexivity|].
  cbn [strings.Contains] in H. apply orb_false_iff in H as [H1 H2].
  cbn [strings.Cut]. rewrite H1. now rewrite (IH H2).
Qed.

Lemma Cut_char_first c a b :
  strings.Contains a (String c "") = false ->
  strings.Cut (a +:+ String c b) (String c "") = (a, b, true).
Proof.
  induction a as [|c' r IH]; intros H.
  - change ("" +:+ String c b) with (String c b).
    cbn [strings.Cut]. rewrite HasPrefix_char.
    rewrite bool_decide_eq_true_2 by reflexivity. reflexivity.
  - cbn [strings.Contains] in H. apply orb_false_iff in H as [H1 H2].
    change (String c' r +:+ String c b) with (String c' (r +:+ String c b)).
    cbn [strings.Cut].
    rewrite HasPrefix_char in H1 |- *. rewrite H1. now rewrite (IH H2).
Qed.

Lemma Split_two c a b :
  strings.Contains a (String c "") = false ->
  strings.Contains b (String c "") = false ->
  strings.Split (a +:+ String c b) (String c "") = [a; b].
Proof.
  intros Ha Hb. unfold strings.Split.
  destruct (String.length (a +:+ String c b)) as [|n] eqn:Hn.
  - destruct a; discriminate Hn.
  - cbn [strings.SplitN]. rewrite (Cut_char_first c a b Ha). f_equal.
    destruct n; [reflexivity|]. cbn [strings.SplitN].
    now rewrite (Cut_char_absent c b Hb).
Qed.

Lemma TrimPrefix_app p s : strings.TrimPrefix (p +:+ s) p = s.
Proof.
  unfold strings.TrimPrefix, strings.HasPrefix.
  assert (Hp : String.prefix p (p +:+ s) = true).
  { induction p as [|a p IH]; [destruct s; reflexivity|].
    change (String a p +:+ s) with (String a (p +:+ s)). cbn.
    destruct (ascii_dec a a); [exact IH | contradiction]. }
  rewrite Hp. induction p as [|a p IH]; [reflexivity|].
  change (String a p +:+ s) with (String a (p +:+ s)). cbn.
  apply IH.
  change (String a p +:+ s) with (String a (p +:+ s)) in Hp. cbn in Hp.
  destruct (ascii_dec a a); [exact Hp | contradiction].
Qed.

End Strings.

Section KubernetesNode.
Import metadata.
Local Arguments strings.Split : simpl never.

(** X3. A node without labels whose provider id is
    "alicloud://<region>.<instance>", with no dot in either part, gives
    the region for RegionID and the instance for InstanceID; ZoneID and
    InstanceType are unknown to it. *)
Theorem KubernetesNodeMetadata_Get_ProviderID (region instance envKey : string) :
  strings.Contains region "." = false ->
  strings.Contains instance "." = false ->
  let m := mkKubernetesNodeMetadata
             (mkNode ∅ ("alicloud://" +:+ region +:+ "." +:+ instance)) envKey in
  KubernetesNodeMetadata_Get m RegionID = (region, None)
  /\ KubernetesNodeMetadata_Get m InstanceID = (instance, None)
  /\ KubernetesNodeMetadata_Get m ZoneID = ("", Some ErrUnknownMetadataKey)
  /\ KubernetesNodeMetadata_Get m InstanceType = ("", Some ErrUnknownMetadataKey).
Proof.
  intros Hr Hi m.
  assert (Hl : forall labels, first_label (node m) labels = None).
  { induction labels as [|l rest IH]; [reflexivity|]. cbn. exact IH. }
  assert (Hs : strings.Split (ProviderID (node m)) "."
               = ["alicloud://" +:+ region; instance]).
  { cbn [m node ProviderID].
    change ("alicloud://" +:+ region +:+ "." +:+ instance)
      with (("alicloud://" +:+ region) +:+ String "." instance).
    apply Split_two; [|exact Hi]. cbn. exact Hr. }
  unfold KubernetesNodeMetadata_Get.
  repeat split.
  - cbn [Z.eqb RegionID Runtime]. rewrite Hl, Hs. cbn.
    now rewrite TrimPrefix_app.
  - change (Z.eqb InstanceID Runtime) with false. cbn iota. rewrite Hl, Hs.
    reflexivity.
  - change (Z.eqb ZoneID Runtime) with false. cbn iota. rewrite Hl, Hs.
    reflexivity.
  - change (Z.eqb InstanceType Runtime) with false. cbn iota. rewrite Hl, Hs.
    reflexivity.
Qed.

End KubernetesNode.

Section KubernetesLabels.
Import metadata.
Local Arguments strings.Split : simpl never.
Local Arguments strings.HasPrefix : simpl never.

Lemma first_label_at (n : Node) (labels : list string) i l v :
  labels !! i = Some l ->
  Labels n !! l = Some v ->
  (forall j l', j < i -> labels !! j = Some l' -> Labels n !! l' = None) ->
  first_label n labels = Some v.
Proof.
  revert i. induction labels as [|l0 rest IH]; intros [|i] Hi Hv Hbefore;
    try discriminate Hi; cbn in *.
  - injection Hi as ->. rewrite Hv. reflexivity.
  - rewrite (Hbefore 0 l0) by (lia || reflexivity).
    apply (IH i Hi Hv). intros j l' Hj Hl'. apply (Hbefore (S j) l'); [lia|exact Hl'].
Qed.

(** X4. The labels of a key are tried in the order of their list: when
    the node has a label of the list and none of the labels before it,
    [Get] returns the value of that label without error, whatever the
    other labels and the provider id of the node are. *)
Theorem Kubernetes_label_precedence (m : KubernetesNodeMetadata)
    (key : MetadataKey) (labels : list string) (i : nat) (l v : string) :
  MetadataLabels (k8s_envInstanceIdKey m) key = Some labels ->
  labels !! i = Some l ->
  Labels (node m) !! l = Some v ->
  (forall j l', j < i -> labels !! j = Some l' -> Labels (node m) !! l' = None) ->
  KubernetesNodeMetadata_Get m key = (v, None).
Proof.
  intros Hlabels Hi Hv Hbefore.
  unfold KubernetesNodeMetadata_Get.
  assert (Hrt : Z.eqb key Runtime = false).
  { destruct (Z.eqb_spec key Runtime) as [->|]; [|reflexivity].
    discriminate Hlabels. }
  rewrite Hrt, Hlabels. cbn [default from_option id].
  rewrite (first_label_at _ _ i l v Hi Hv Hbefore). reflexivity.
Qed.

End KubernetesLabels.

Section KubernetesLazy.
Import metadata.
Context {W : Type} {NI : NodeInterface (W:=W)}.
Local Arguments lazy_finish : simpl never.

(** X5. A [Get] on the lazy provider of the Kubernetes source leaves
    the world as it was, or it is the call that initialises the provider:
    then the provider was uninitialised, the key is one the source
    knows, and the world is the one that the single read of the node
    object from the API server leaves. *)
Theorem Kubernetes_contacts_api_server_once
    (p : lazyInitProvider KubernetesMetadataFetcher
           (immutableProvider KubernetesNodeMetadata))
    (key : MetadataKey) (w : W) :
  (Get p key w).2 = w
  \/ (uninitialized p = true
      /\ (0 <= key <= 4)%Z
      /\ exists f, fetcher p = Some f
           /\ (Get p key w).2 = (NodeInterface_Get (nodeName f) w).2).
Proof.
  change (Get p key w) with ((lazy_Get_traced p key w).1).
  unfold lazy_Get_traced.
  assert (Hfin : forall (q : lazyInitProvider KubernetesMetadataFetcher
                                (immutableProvider KubernetesNodeMetadata)) (w0 : W),
             (lazy_finish q key w0).2 = w0).
  { intros [pr [e|] f] w0; unfold lazy_finish; cbn; [reflexivity|].
    destruct pr as [inner|]; [|reflexivity].
    unfold Get, immutableProvider_Get.
    destruct (imm_values inner !! key); [reflexivity|].
    unfold Get, KubernetesNodeMetadata_provider.
    destruct (KubernetesNodeMetadata_Get _ _) as [v [e|]]; reflexivity. }
  destruct (uninitialized p) eqn:Hun.
  - destruct (fetcher p) as [f|] eqn:Hf; [|left; reflexivity].
    change (FetchFor f key w) with (KubernetesMetadataFetcher_FetchFor f key w).
    unfold KubernetesMetadataFetcher_FetchFor, NewKubernetesNodeMetadata.
    destruct (negb _ && negb (Z.eqb key Runtime)) eqn:Hk; [left; reflexivity|].
    right. split; [reflexivity|]. split.
    + apply andb_false_iff in Hk as [Hk|Hk].
      * apply negb_false_iff, bool_decide_eq_true in Hk. destruct Hk as [l Hl].
        destruct (decide (0 <= key <= 3)%Z) as [?|Hn]; [lia|].
        unfold MetadataLabels, RegionID, ZoneID, InstanceType, InstanceID in Hl.
        destruct (Z.eqb_spec key 0); [lia|].
        destruct (Z.eqb_spec key 1); [lia|].
        destruct (Z.eqb_spec key 3); [lia|].
        destruct (Z.eqb_spec key 2); [lia|]. discriminate Hl.
      * apply negb_false_iff, Z.eqb_eq in Hk. unfold Runtime in Hk. lia.
    + exists f. split; [reflexivity|].
      destruct (NodeInterface_Get (nodeName f) w) as [[n|e] w1]; cbn.
      * pose proof (Hfin (mkLazy (Some (newImmutableProvider
                       (mkKubernetesNodeMetadata n (fetcher_envInstanceIdKey f))
                       "Kubernetes")) None None) w1) as H.
        destruct (lazy_finish _ key w1) as [[o q] w2]. exact H.
      * destruct e; reflexivity.
  - left. pose proof (Hfin p w) as H.
    destruct (lazy_finish p key w) as [[o q] w2]. exact H.
Qed.

End KubernetesLazy.

Section KubernetesExamples.
Import metadata scenarios more_scenarios.

Lemma Kubernetes_unknown_key_witness :
  KubernetesNodeMetadata_Get node_in_zone_1 7%Z = ("", Some ErrUnknownMetadataKey)
  /\ Get (MetadataProvider := lazyInitProvider_Get
            (MF := KubernetesMetadataFetcher_fetcher (NI := api_server_up)))
         (kubernetesProvider "node-1" "") 7%Z tt
     = (Returns "" (Some ErrUnknownMetadataKey), kubernetesProvider "node-1" "", tt).
Proof.
  split.
  - apply (proj1 (Kubernetes_unknown_key (NI := api_server_up) 7%Z ltac:(lia))).
  - apply (proj2 (proj2 (Kubernetes_unknown_key (NI := api_server_up) 7%Z ltac:(lia)))).
Defined.

Lemma KubernetesNodeMetadata_Get_ProviderID_witness :
  let m := mkKubernetesNodeMetadata (mkNode ∅ "alicloud://cn-hangzhou.i-abc") "" in
  KubernetesNodeMetadata_Get m RegionID = ("cn-hangzhou", None)
  /\ KubernetesNodeMetadata_Get m InstanceID = ("i-abc", None).
Proof.
  pose proof (KubernetesNodeMetadata_Get_ProviderID "cn-hangzhou" "i-abc" ""
                eq_refl eq_refl) as (Hr & Hi & _).
  split; [exact Hr | exact Hi].
Defined.

Lemma Kubernetes_label_precedence_witness :
  KubernetesNodeMetadata_Get node_with_three_ids InstanceID = ("i-1", None).
Proof.
  apply (Kubernetes_label_precedence node_with_three_ids InstanceID
           ["example.com/instance"; "alibabacloud.com/ecs-instance-id"]
           0 "example.com/instance" "i-1").
  - reflexivity.
  - reflexivity.
  - vm_compute. reflexivity.
  - intros j l' Hj. lia.
Defined.

End KubernetesExamples.

(** ** The order of what Stage does *)


Section StageTarget.
Import node views.
Local Arguments strings.HasSuffix : simpl never.
Local Arguments String.eqb : simpl never.
Local Arguments String.append : simpl never.

Context {W : Type} {C : Collaborators (W:=W)}.
Variable L : Lib.

(** The path that [stage_device] goes on with. *)
Lemma stage_device_target (cfg : disk.GlobalConfig) (req : NodeStageVolumeRequest)
    (s : State W) :
  match (disk.stage_device L cfg req s).1 with
  | Next (targetPath, _) =>
      targetPath
      = if isBlockCapability (stage_VolumeCapability req)
        then filepath_Join L (stage_StagingTargetPath req) (stage_VolumeId req)
        else stage_StagingTargetPath req
  | _ => True
  end.
Proof.
  unfold disk.stage_device, disk.stage_attach, disk.option_enabled,
    disk.fail_if, disk.pass_if.
  unfold bind, call, ret, exit, panic, log, get_files, put_files; cbn.
  destruct (isBlockCapability (stage_VolumeCapability req)); cbn.
  all: repeat handler_step.
  all: first [exact I | reflexivity].
Qed.

End StageTarget.

Section StageOrder.
Import node views.
Local Arguments strings.Contains : simpl never.
Local Arguments strings.HasPrefix : simpl never.
Local Arguments strings.HasSuffix : simpl never.
Local Arguments strings.Cut : simpl never.
Local Arguments strings.Split : simpl never.
Local Arguments strings.Join : simpl never.
Local Arguments String.eqb : simpl never.
Local Arguments String.append : simpl never.
Local Arguments Z.eqb : simpl never.
Local Arguments Nat.ltb : simpl never.
Local Arguments mountopts.collectMountOptions : simpl never.
Local Arguments disk.sysConfig_loop : simpl never.
Local Arguments disk.stage_device : simpl never.

Context {W : Type} {C : Collaborators (W:=W)}.
Variable L : Lib.

(** A segment without a call that mounts or formats. *)
Lemma not_mount_source evs :
  Forall (fun ev => is_mount ev = false) evs ->
  omap mount_source evs = [] /\ omap sel_MountBlock evs = []
  /\ Forall (fun ev => is_format ev = false) evs
  /\ omap sel_Mount evs = [].
Proof.
  induction 1 as [|ev evs Hev _ (IH1 & IH2 & IH3 & IH4)];
    [repeat split; constructor|].
  assert (mount_source ev = None /\ sel_MountBlock ev = None
          /\ is_format ev = false /\ sel_Mount ev = None)
    as (H1 & H2 & H3 & H4).
  { destruct ev as [A c a|line]; [|auto]. destruct c; cbn in *; auto; discriminate. }
  cbn. rewrite H1, H2, H4. repeat split; auto.
Qed.

Ltac device_step :=
  match goal with
  | |- context [disk.stage_device ?L0 ?cfg ?req ?s] =>
      let Hd := fresh "Hd" in
      let r := fresh "r" in
      let wd := fresh "wd" in
      let fsd := fresh "fsd" in
      let trd := fresh "trd" in
      let Ht := fresh "Htarget" in
      pose proof (stage_device_spec L0 cfg req s) as Hd; cbv zeta in Hd;
      pose proof (stage_device_target L0 cfg req s) as Ht;
      destruct (disk.stage_device L0 cfg req s) as [r [wd fsd trd]];
      cbn in Hd, Ht;
      destruct Hd as (Hf0 & evs0 & Htr0 & Hns0 & Hnw0 & Hnm0 & Hr0);
      apply not_mount_source in Hnm0; destruct Hnm0 as (Hms0 & Hmb0 & Hnf0 & Hmo0);
      subst fsd trd;
      destruct r as [[targetPath device]|rep|]; cbn in Hr0 |- *;
      [ subst targetPath | | destruct Hr0]
  end.

Ltac loop_step :=
  match goal with
  | |- context [disk.sysConfig_loop ?d ?l ?s] =>
      let Hl := fresh "Hloop" in
      let r := fresh "r" in
      let wl := fresh "wl" in
      let fsl := fresh "fsl" in
      let trl := fresh "trl" in
      pose proof (disk_sysConfig_loop_events d l s) as Hl;
      cbv zeta in Hl;
      destruct (disk.sysConfig_loop d l s) as [r [wl fsl trl]];
      cbn in Hl;
      destruct Hl as (Hr & Hfiles & evs & n & Htrace & Hevs);
      apply disk_written_trace in Hevs; destruct Hevs as (_ & Hnm & Hnc & Hns);
      apply not_mount_source in Hnm; destruct Hnm as (Hms & Hmb & Hnf & Hmo);
      subst fsl trl; destruct Hr as [Hr | Hr]; cbn in Hr; subst r; cbn
  end.

(** X6. Stage of pkg/disk mounts or formats only a checked and recorded
    device: the source of every call that mounts or formats is a device
    that [CheckDeviceAvailable] has passed for the volume of the request,
    and that [saveVolumeConfig] has recorded for it without error. *)
Theorem disk_stage_mounts_checked_device (cfg : disk.GlobalConfig) (req : NodeStageVolumeRequest) w fs :
  let rs := run (disk.NodeStageVolume L cfg req) w fs in
  forall d,
    d ∈ omap mount_source (trace rs.2) ->
    (exists t,
        (d, stage_VolumeId req, t, None)
        ∈ omap sel_CheckDeviceAvailable (trace rs.2))
    /\ (stage_VolumeId req, d, None)
       ∈ omap sel_disk_saveVolumeConfig (trace rs.2).
Proof.
  intros rs d. name_run.
  unfold disk.NodeStageVolume, disk.fail_if, disk.pass_if.
  unfold run, bind, call, ret, exit, panic, log, get_files, put_files; cbn.
  repeat first [device_step | loop_step | access_step | handler_step].
  all: intros ->; cbn.
  all: rewrite ?omap_app; cbn; rewrite ?Hms0, ?Hms, ?Hns0, ?Hns, ?Hnc; cbn.
  all: intros Hin; elem_of_list Hin; subst.
  all: rewrite Hr0; cbn.
  all: split; [eexists; in_list | in_list].
Qed.



(** X7. Stage of pkg/disk and block volumes: [MountBlock] is called only
    for a request whose capability is a block volume, onto the path
    StagingTargetPath/VolumeId and with the single option "bind"; for
    such a request nothing is formatted and the mounter of Kubernetes
    mounts nothing. *)
Theorem disk_stage_block_never_formats (cfg : disk.GlobalConfig) (req : NodeStageVolumeRequest) w fs :
  let rs := run (disk.NodeStageVolume L cfg req) w fs in
  (forall s t o a,
      (s, t, o, a) ∈ omap sel_MountBlock (trace rs.2) ->
      stage_VolumeCapability req = Some Block
      /\ t = filepath_Join L (stage_StagingTargetPath req) (stage_VolumeId req)
      /\ o = ["bind"])
  /\ (stage_VolumeCapability req = Some Block ->
      Forall (fun ev => is_format ev = false) (trace rs.2)
      /\ omap sel_Mount (trace rs.2) = []).
Proof.
  destruct req as [volumeId staging [[|FsType MountFlags]|] ctx].
  all: intros rs; name_run.
  all: unfold disk.NodeStageVolume, disk.fail_if, disk.pass_if.
  all: unfold run, bind, call, ret, exit, panic, log, get_files, put_files; cbn.
  all: repeat first [device_step | loop_step | access_step | handler_step].
  all: intros ->; cbn.
  all: (split;
    [ intros ? ? ? ? Hin; rewrite ?omap_app in Hin; cbn in Hin;
      rewrite ?Hmb0, ?Hmb in Hin; cbn in Hin;
      elem_of_list Hin; simplify_eq; auto
    | intros Hcap;
      first [ discriminate Hcap
            | rewrite ?omap_app, ?Forall_app; cbn; rewrite ?Hmo0, ?Hmo; cbn;
              split; [|reflexivity];
              repeat first [ split | assumption | apply Forall_nil_2
                           | apply Forall_cons_2; [reflexivity|]
                           | apply Forall_app_2 ] ] ]).
Qed.

Local Arguments ens.sysConfig_loop : simpl never.

Lemma ens_written_quiet device evs entries :
  Forall2 (ens_written L device) evs entries ->
  omap mount_source evs = [] /\ omap sel_MountBlock evs = []
  /\ Forall (fun ev => is_format ev = false) evs
  /\ omap sel_CheckDeviceAvailable evs = []
  /\ omap sel_Mount evs = [].
Proof.
  induction 1 as [|ev entry evs entries [a ->] _ (IH1 & IH2 & IH3 & IH4 & IH5)]; cbn.
  - repeat split; constructor.
  - repeat split; try constructor; auto.
Qed.

Ltac ens_loop_step :=
  match goal with
  | |- context [ens.sysConfig_loop ?L0 ?d ?l ?s] =>
      let Hl := fresh "Hloop" in
      let r := fresh "r" in
      let wl := fresh "wl" in
      let fsl := fresh "fsl" in
      let trl := fresh "trl" in
      pose proof (ens_sysConfig_loop_events L0 d l s) as Hl;
      cbv zeta in Hl;
      destruct (ens.sysConfig_loop L0 d l s) as [r [wl fsl trl]];
      cbn in Hl;
      destruct Hl as (Hr & Hfiles & evs & n & Htrace & Hevs);
      apply ens_written_quiet in Hevs; destruct Hevs as (Hms & Hmb & Hnf & Hnc & Hmo);
      subst fsl trl; destruct Hr as [Hr | [e Hr]]; cbn in Hr; subst r; cbn
  end.

(** X8. Stage of pkg/ens mounts or formats only a checked and recorded
    device: the source of every call that mounts or formats is a device
    that [CheckDeviceAvailable] has passed for the volume of the request,
    and the live record of the volume holds that device when the call
    returns. *)
Theorem ens_stage_mounts_checked_device (cfg : ens.GlobalConfig) (req : NodeStageVolumeRequest) w fs :
  let rs := run (ens.NodeStageVolume L cfg req) w fs in
  forall d,
    d ∈ omap mount_source (trace rs.2) ->
    (exists t,
        (d, stage_VolumeId req, t, None)
        ∈ omap sel_CheckDeviceAvailable (trace rs.2))
    /\ files rs.2 !! live L (stage_VolumeId req) = Some d.
Proof.
  intros rs d. name_run.
  unfold ens.NodeStageVolume, ens.saveVolumeConfig, ens.removeVolumeConfig,
    ens.store_IsFileExisting, ens.store_Rename, ens.store_WriteFile,
    ens.fail_if, ens.pass_if, live.
  unfold run, bind, call, ret, exit, panic, log, get_files, put_files; cbn.
  repeat first [ens_loop_step | access_step | handler_step].
  all: intros ->; cbn.
  all: rewrite ?omap_app; cbn; rewrite ?Hms, ?Hnc; cbn.
  all: intros Hin; elem_of_list Hin; subst.
  all: split; [eexists; in_list | apply lookup_insert_eq].
Qed.

(** X9. Stage of pkg/ens and block volumes: [MountBlock] is called only
    for a request whose capability is a block volume, onto the path
    StagingTargetPath/VolumeId and with the single option "bind"; for
    such a request nothing is formatted and the mounter of Kubernetes
    mounts nothing. *)
Theorem ens_stage_block_never_formats (cfg : ens.GlobalConfig) (req : NodeStageVolumeRequest) w fs :
  let rs := run (ens.NodeStageVolume L cfg req) w fs in
  (forall s t o a,
      (s, t, o, a) ∈ omap sel_MountBlock (trace rs.2) ->
      stage_VolumeCapability req = Some Block
      /\ t = filepath_Join L (stage_StagingTargetPath req) (stage_VolumeId req)
      /\ o = ["bind"])
  /\ (stage_VolumeCapability req = Some Block ->
      Forall (fun ev => is_format ev = false) (trace rs.2)
      /\ omap sel_Mount (trace rs.2) = []).
Proof.
  destruct req as [volumeId staging [[|FsType MountFlags]|] ctx].
  all: intros rs; name_run.
  all: unfold ens.NodeStageVolume, ens.saveVolumeConfig, ens.removeVolumeConfig,
    ens.store_IsFileExisting, ens.store_Rename, ens.store_WriteFile,
    ens.fail_if, ens.pass_if, live.
  all: unfold run, bind, call, ret, exit, panic, log, get_files, put_files; cbn.
  all: repeat first [ens_loop_step | access_step | handler_step].
  all: intros ->; cbn.
  all: (split;
    [ intros ? ? ? ? Hin; rewrite ?omap_app in Hin; cbn in Hin;
      rewrite ?Hmb in Hin; cbn in Hin;
      elem_of_list Hin; simplify_eq; auto
    | intros Hcap;
      first [ discriminate Hcap
            | rewrite ?omap_app, ?Forall_app; cbn; rewrite ?Hmo; cbn;
              split; [|reflexivity];
              repeat first [ split | assumption | apply Forall_nil_2
                           | apply Forall_cons_2; [reflexivity|]
                           | apply Forall_app_2 ] ] ]).
Qed.

End StageOrder.

Section StageOrderExamples.
Import node views scenarios.

Lemma disk_stage_mounts_checked_device_witness :
  let rs := run (disk.NodeStageVolume (C:=always_quiet) golib.unix disk_detaching
                   (stage_request "queue/scheduler=none")) tt ∅ in
  (exists t, ("/dev/vdb", "d-1", t, None)
             ∈ omap sel_CheckDeviceAvailable (trace rs.2))
  /\ ("d-1", "/dev/vdb", None) ∈ omap sel_disk_saveVolumeConfig (trace rs.2).
Proof.
  refine (disk_stage_mounts_checked_device (C:=always_quiet) golib.unix
            disk_detaching (stage_request "queue/scheduler=none") tt ∅
            "/dev/vdb" _).
  vm_compute. apply list_elem_of_here.
Defined.

Lemma ens_stage_mounts_checked_device_witness :
  let rs := run (ens.NodeStageVolume (C:=always_quiet) golib.unix ens_detaching
                   (stage_request "queue/scheduler=none")) tt ∅ in
  (exists t, ("/dev/vdb", "d-1", t, None)
             ∈ omap sel_CheckDeviceAvailable (trace rs.2))
  /\ files rs.2 !! live golib.unix "d-1" = Some "/dev/vdb".
Proof.
  refine (ens_stage_mounts_checked_device (C:=always_quiet) golib.unix
            ens_detaching (stage_request "queue/scheduler=none") tt ∅
            "/dev/vdb" _).
  vm_compute. apply list_elem_of_here.
Defined.

End StageOrderExamples.

(** ** Unstage detaches what is unmounted *)

Section UnstageOrder.
Import node views.
Local Arguments strings.Contains : simpl never.
Local Arguments String.eqb : simpl never.
Local Arguments String.append : simpl never.

Context {W : Type} {C : Collaborators (W:=W)}.
Variable L : Lib.

(** The path that Unstage works on. In pkg/disk it is the file
    StagingTargetPath/VolumeId when [Lstat] of that file went through,
    in pkg/ens when [Lstat] found it to be a device; else it is the
    staging path. *)
Definition disk_unstage_target (req : NodeUnstageVolumeRequest)
    (tr : list Event) : string :=
  match head (omap sel_Lstat tr) with
  | Some (_, (_, None)) =>
      filepath_Join L (unstage_StagingTargetPath req) (unstage_VolumeId req)
  | _ => unstage_StagingTargetPath req
  end.

Definition ens_unstage_target (req : NodeUnstageVolumeRequest)
    (tr : list Event) : string :=
  match head (omap sel_Lstat tr) with
  | Some (_, (true, None)) =>
      filepath_Join L (unstage_StagingTargetPath req) (unstage_VolumeId req)
  | _ => unstage_StagingTargetPath req
  end.

(** Every unmount went through, every look was at the path, and the
    last look found the path not mounted; when no look was made, the
    path had been found not to exist. *)
Definition unmounted_at (path : string) (tr : list Event) : Prop :=
  Forall (fun x => x.2 = None) (omap sel_Unmount tr)
  /\ Forall (fun x => x.1 = path) (omap sel_IsLikelyNotMountPoint tr)
  /\ match last (omap sel_IsLikelyNotMountPoint tr) with
     | Some x => x.2 = (true, None)
     | None => last (omap sel_IsFileExisting tr) = Some (path, false)
     end.

(** X10. Unstage of pkg/disk detaches only what is unmounted: when
    [detachDisk] is called, every unmount that was made went through,
    and the path that the call works on (the file
    StagingTargetPath/VolumeId when [Lstat] of it went through, else
    the staging path) is the one that every look was at; the last look
    found it not mounted, or it was found not to exist and no look was
    made. *)
Theorem disk_unstage_detaches_unmounted (cfg : disk.GlobalConfig)
    (req : NodeUnstageVolumeRequest) w fs :
  let rs := run (disk.NodeUnstageVolume L cfg req) w fs in
  omap sel_detachDisk (trace rs.2) <> [] ->
  unmounted_at (disk_unstage_target req (trace rs.2)) (trace rs.2).
Proof.
  intros rs. name_run.
  unfold disk.NodeUnstageVolume, disk.fail_if, disk.pass_if.
  unfold run, bind, call, ret, exit, panic, log, get_files, put_files; cbn.
  repeat handler_step.
  all: intros ->; unfold unmounted_at, disk_unstage_target; cbn.
  all: intros Hd; try (exfalso; apply Hd; reflexivity).
  all: repeat match goal with
              | E : negb ?b = false |- _ => apply negb_false_iff in E; subst b
              | E : negb ?b = true |- _ => apply negb_true_iff in E; subst b
              end.
  all: repeat split; repeat constructor.
Qed.

(** X11. Unstage of pkg/ens detaches only what is unmounted: when
    [detachDisk] is called, every unmount that was made went through,
    and the path that the call works on (the file
    StagingTargetPath/VolumeId when [Lstat] found it to be a device,
    else the staging path) is the one that every look was at; the last
    look found it not mounted, or it was found not to exist and no look
    was made. *)
Theorem ens_unstage_detaches_unmounted (cfg : ens.GlobalConfig)
    (req : NodeUnstageVolumeRequest) w fs :
  let rs := run (ens.NodeUnstageVolume L cfg req) w fs in
  omap sel_ens_detachDisk (trace rs.2) <> [] ->
  unmounted_at (ens_unstage_target req (trace rs.2)) (trace rs.2).
Proof.
  intros rs. name_run.
  unfold ens.NodeUnstageVolume, ens.removeVolumeConfig, ens.store_IsFileExisting,
    ens.store_Rename, ens.fail_if, ens.pass_if.
  unfold run, bind, call, ret, exit, panic, log, get_files, put_files; cbn.
  repeat handler_step.
  all: intros ->; unfold unmounted_at, ens_unstage_target; cbn.
  all: intros Hd; try (exfalso; apply Hd; reflexivity).
  all: repeat match goal with
              | |- context [if ?b then _ else _] => is_var b; destruct b; cbn
              end.
  all: repeat match goal with
              | E : negb ?b = false |- _ => apply negb_false_iff in E; subst b
              | E : negb ?b = true |- _ => apply negb_true_iff in E; subst b
              end.
  all: repeat split; repeat constructor.
Qed.

End UnstageOrder.


Section UnstageOrderExamples.
Import node views scenarios more_scenarios.

Lemma disk_unstage_detaches_unmounted_witness :
  let rs := run (disk.NodeUnstageVolume (C:=staging_mounted) golib.unix
                   disk_detaching unstage_request) true ∅ in
  (omap sel_IsLikelyNotMountPoint (trace rs.2)
   = [(unstage_StagingTargetPath unstage_request, (false, None));
      (unstage_StagingTargetPath unstage_request, (true, None))]
   /\ omap sel_Unmount (trace rs.2)
      = [(unstage_StagingTargetPath unstage_request, None)])
  /\ unmounted_at (unstage_StagingTargetPath unstage_request) (trace rs.2).
Proof.
  split; [vm_compute; split; reflexivity|].
  refine (disk_unstage_detaches_unmounted (C:=staging_mounted) golib.unix
            disk_detaching unstage_request true ∅ _).
  vm_compute. discriminate.
Defined.

Lemma ens_unstage_detaches_unmounted_witness :
  let rs := run (ens.NodeUnstageVolume (C:=staging_mounted) golib.unix
                   ens_detaching unstage_request) true one_record in
  (omap sel_IsLikelyNotMountPoint (trace rs.2)
   = [(unstage_StagingTargetPath unstage_request, (false, None));
      (unstage_StagingTargetPath unstage_request, (true, None))]
   /\ omap sel_Unmount (trace rs.2)
      = [(unstage_StagingTargetPath unstage_request, None)])
  /\ unmounted_at (unstage_StagingTargetPath unstage_request) (trace rs.2).
Proof.
  split; [vm_compute; split; reflexivity|].
  refine (ens_unstage_detaches_unmounted (C:=staging_mounted) golib.unix
            ens_detaching unstage_request true one_record _).
  vm_compute. discriminate.
Defined.

End UnstageOrderExamples.

(** ** Expand and the snapshot taken before it *)

Section ExpandSnapshot.
Import node views disk.
Local Arguments strings.Contains : simpl never.
Local Arguments strings.HasPrefix : simpl never.
Local Arguments String.eqb : simpl never.
Local Arguments Z.ltb : simpl never.
Local Arguments Z.mul : simpl never.

Context {W : Type} {C : Collaborators (W:=W)}.
Variable L : Lib.

(** X12. Expand and the snapshot that was taken before the volume was
    expanded: the snapshot is deleted at most once; when the resize of
    the filesystem fails or reports no success, the snapshot is kept and
    the call fails with Internal; and the snapshot that is deleted is
    the one named, with a name that is not empty, by the annotation of
    the claim of the volume that was read first. *)
Theorem NodeExpandVolume_auto_snapshot (req : NodeExpandVolumeRequest) w fs :
  let rs := run (NodeExpandVolume L req) w fs in
  let deleted := omap sel_requestAndDeleteSnapshot (trace rs.2) in
  length deleted <= 1
  /\ (forall d p ok err,
        (d, p, (ok, err)) ∈ omap sel_Resize (trace rs.2) ->
        ok = false \/ is_Some err ->
        deleted = [] /\ rs.1 = Some (Fail (Status Internal)))
  /\ (forall id a, (id, a) ∈ deleted ->
        id <> ""
        /\ exists pvc annotations e,
            head (omap sel_getPvPvcFromDiskId (trace rs.2))
            = Some (expand_VolumeId req, (Some pvc, e))
            /\ pvc_Annotations pvc = Some annotations
            /\ annotations !! veasp_IDKey L = Some id).
Proof.
  intros rs deleted. subst deleted. name_run.
  unfold NodeExpandVolume, expand_body, deleteUntagAutoSnapshot.
  unfold run, bind, call, ret, exit, panic, log; cbn.
  repeat handler_step.
  all: intros ->; cbn.
  all: split; [lia|].
  all: split.
  all: try match goal with
           | E : negb (String.eqb "" "") = true |- _ =>
               vm_compute in E; discriminate E
           end.
  all: repeat match goal with
              | E : negb ?b = false |- _ =>
                  is_var b; apply negb_false_iff in E; subst b
              end.
  all: try (intros ? ? ? ? Hin; elem_of_list Hin; fail).
  all: try (intros ? ? Hin; elem_of_list Hin; fail).
  all: try (intros d p' ok err Hin Hbad; elem_of_list Hin; simplify_eq;
            first [ split; reflexivity
                  | destruct Hbad as [Hbad|[? Hbad]]; discriminate Hbad ]).
  all: intros sid a' Hin; elem_of_list Hin; simplify_eq.
  all: match goal with
       | E : negb (String.eqb (default "" ?o) "") = true |- _ =>
           destruct o as [sid|] eqn:Hid; cbn in E |- *;
           [|vm_compute in E; discriminate E]
       end.
  all: split;
    [ intros ->;
      match goal with
      | E : negb (String.eqb "" "") = true |- _ => vm_compute in E; discriminate E
      end | ].
  all: do 3 eexists; split; [reflexivity|]; split; [eassumption|exact Hid].
Qed.
End ExpandSnapshot.

(** ** Publish of pkg/disk leaves the target mounted *)

Section PublishSuccess.
Import node views.
Local Arguments strings.Contains : simpl never.
Local Arguments strings.HasPrefix : simpl never.
Local Arguments strings.HasSuffix : simpl never.
Local Arguments strings.Cut : simpl never.
Local Arguments strings.Split : simpl never.
Local Arguments strings.Join : simpl never.
Local Arguments String.eqb : simpl never.
Local Arguments String.append : simpl never.
Local Arguments Z.eqb : simpl never.
Local Arguments Nat.ltb : simpl never.
Local Arguments Nat.eqb : simpl never.
Local Arguments mountopts.collectMountOptions : simpl never.
Local Arguments disk.publish_check_device : simpl never.
Local Arguments slices.append : simpl never.
Local Arguments slices.elems : simpl never.

Context {W : Type} {C : Collaborators (W:=W)}.
Variable L : Lib.

(** The target of the request is left mounted: it was found mounted, or
    the device of a runv pod was recorded under it, or the mount of the
    staged volume onto it went through. *)
Definition disk_published (req : NodePublishVolumeRequest) (tr : list Event) : Prop :=
  let target := publish_TargetPath req in
  let staging := publish_StagingTargetPath req in
  let mountFile := filepath_Join L target (CsiPluginRunTimeFlagFile L) in
  (exists e, (target, (false, e)) ∈ omap sel_IsLikelyNotMountPoint tr)
  \/ (exists device,
        (device, "block", target, mountFile, disk.RunvRunTimeMode, mountFile, None)
        ∈ omap sel_WriteJSONFile tr)
  \/ match publish_VolumeCapability req with
     | Some Block =>
         (filepath_Join L staging (publish_VolumeId req), target, ["bind"], None)
         ∈ omap sel_MountBlock tr
     | Some (MountVolume FsType _) =>
         exists options,
           (staging, target, disk.fsTypeOf FsType, options, None)
           ∈ omap sel_Mount tr
     | None => False
     end.

Ltac check_device_step :=
  match goal with
  | |- context [disk.publish_check_device ?g ?req ?p ?f ?m ?h ?s] =>
      let Hd := fresh "Hd" in
      let r := fresh "r" in
      let wd := fresh "wd" in
      let fsd := fresh "fsd" in
      let trd := fresh "trd" in
      let hd := fresh "h" in
      pose proof (publish_check_device_spec g req p f m h s) as Hd; cbv zeta in Hd;
      destruct (disk.publish_check_device g req p f m h s) as [r [wd fsd trd]];
      cbn in Hd;
      destruct Hd as (Hf0 & evs0 & Htr0 & Hnl0 & Hnm0 & Hr0 & Hmis0);
      subst fsd trd;
      destruct r as [[realDevice hd]|rep|]; cbn in Hr0 |- *;
      [ | subst rep | destruct Hr0]
  end.

(** X13. A Publish of pkg/disk that succeeds leaves the target mounted:
    the target was found mounted, or the device of the volume was
    written for a runv pod to the file of the runtime under the target,
    or the bind mount of the block device or the mount of the staging
    path onto the target, with the filesystem type of the request, went
    through. *)
Theorem disk_publish_success (cfg : disk.GlobalConfig) growslice
    (req : NodePublishVolumeRequest) spare w fs :
  let rs := run (disk.NodePublishVolume L cfg growslice req spare) w fs in
  rs.1 = Some (OK tt) -> disk_published req (trace rs.2).
Proof.
  destruct req as [volumeId staging target [[|FsType MountFlags]|] ctx readonly].
  all: intros rs; name_run.
  all: unfold disk.NodePublishVolume, disk.publish_runv, slices.of_request,
    disk.mountDeviceToGlobal, disk.unmountStageTarget, disk.fail_if, disk.pass_if.
  all: unfold run, bind, call, ret, exit, panic, log, get_files, put_files; cbn.
  all: repeat first [check_device_step | append_step | access_step | handler_step].
  all: intros ->; cbn; intros Hok; try discriminate Hok.
  all: unfold disk_published; cbn; rewrite ?omap_app; cbn.
  all: repeat match goal with
              | E : negb ?b = _ |- _ => is_var b; destruct b; try discriminate E; clear E
              end.
  all: first [ left; eexists; in_trace
             | right; left; eexists; in_trace
             | right; right; first [in_trace | eexists; in_trace] ].
Qed.

End PublishSuccess.

Section PublishSuccessExamples.
Import node views scenarios more_scenarios.

Lemma disk_publish_success_witness :
  disk_published golib.unix publish_request
    (trace (run (disk.NodePublishVolume (C:=staged) golib.unix disk_detaching
                   doubling publish_request []) tt ∅).2).
Proof.
  refine (disk_publish_success (C:=staged) golib.unix disk_detaching
            doubling publish_request [] tt ∅ _).
  vm_compute. reflexivity.
Defined.

End PublishSuccessExamples.

(** ** The mounter of pkg/utils *)

(** One case of what a collaborator of the pod handlers answers, or of
    a value that the code tests. *)
Ltac sys_step :=
  match goal with
  | |- context [sys.respond ?A ?c ?w] =>
      let a := fresh "a" in
      let w' := fresh "w" in
      destruct (sys.respond A c w) as [a w']; cbn
  | |- context [match ?x with _ => _ end] =>
      is_var x;
      lazymatch type of x with
      | bool => idtac
      | option _ => idtac
      | prod _ _ => idtac
      end;
      destruct x; cbn
  | |- context [match ?x with _ => _ end] =>
      lazymatch type of x with
      | bool => idtac
      | option _ => idtac
      end;
      lazymatch x with
      | context [match _ with _ => _ end] => fail
      | _ => idtac
      end;
      let E := fresh "E" in
      destruct x eqn:E; cbn
  end.

(** What the tests of the code on strings say. *)
Ltac string_tests :=
  repeat match goal with
         | E : String.eqb _ _ = true |- _ => apply String.eqb_eq in E
         | E : String.eqb _ _ = false |- _ => apply String.eqb_neq in E
         | E : negb _ = true |- _ => apply negb_true_iff in E
         | E : negb _ = false |- _ => apply negb_false_iff in E
         | E : (_ || _) = false |- _ => apply orb_false_iff in E; destruct E
         | E : (_ && _) = true |- _ => apply andb_true_iff in E; destruct E
         end.

Section MounterCommands.
Import node sys.
Local Arguments strings.Join : simpl never.
Local Arguments String.eqb : simpl never.
Local Arguments String.append : simpl never.
Local Arguments Nat.ltb : simpl never.
Local Arguments mounter.option_args : simpl never.

Context {W : Type} {C : System (W:=W)}.

(** No command was run and the function failed, or the command
    [name args] was run once, and the function succeeded exactly when
    the command did. *)
Definition one_command (evs : list Event) (result : option goerr)
    (name : string) (args : list string) : Prop :=
  (omap sel_CombinedOutput evs = [] /\ is_Some result)
  \/ exists out err,
      omap sel_CombinedOutput evs = [(name, args, (out, err))]
      /\ (result = None <-> err = None).

(** What a function of the mounter did from a state on, and its
    result. *)
Definition did {R} (r : step R (option goerr) * State W) (s : State W)
    (evs : list Event) (result : option goerr) : Prop :=
  r.1 = Next result /\ trace r.2 = trace s ++ evs /\ arrays r.2 = arrays s.

Ltac mounter_run :=
  unfold did, one_command, bind, call, ret; cbn;
  repeat sys_step;
  string_tests; subst;
  do 2 eexists;
  (split; [split; [reflexivity|];
           split; [first [ symmetry; apply app_nil_r
                           | repeat rewrite <- app_assoc; cbn; reflexivity ]
                  | reflexivity ] |]).

Lemma Mount_command source target fsType opts (s : State W) :
  exists evs result,
    did (R:=reply) (mounter.Mount source target fsType opts s) s evs result
    /\ one_command evs result "mount"
         (["-t"; fsType] ++ mounter.option_args opts ++ [source; target])
    /\ (fsType = "" \/ source = "" \/ target = "" -> evs = []).
Proof.
  unfold mounter.Mount.
  destruct (String.eqb fsType "") eqn:Ef;
    [|destruct (String.eqb source "") eqn:Es;
      [|destruct (String.eqb target "") eqn:Et]].
  all: mounter_run.
  all: try (split; [left; split; [reflexivity | eexists; reflexivity]
                   | intros; reflexivity]).
  all: split;
    [ | intros [?|[?|?]]; congruence ].
  all: first [ left; split; [reflexivity | eexists; reflexivity]
             | right; do 2 eexists;
               split; [cbn; rewrite <- ?app_assoc; reflexivity|];
               split; congruence ].
Qed.

Lemma MountBlock_command source target opts (s : State W) :
  exists evs result,
    did (R:=reply) (mounter.MountBlock source target opts s) s evs result
    /\ one_command evs result "mount" (mounter.option_args opts ++ [source; target])
    /\ (source = "" \/ target = "" -> evs = []).
Proof.
  unfold mounter.MountBlock.
  destruct (String.eqb source "") eqn:Es;
    [|destruct (String.eqb target "") eqn:Et].
  all: mounter_run.
  all: try (split; [left; split; [reflexivity | eexists; reflexivity]
                   | intros; reflexivity]).
  all: split;
    [ | intros [?|?]; congruence ].
  all: first [ left; split; [reflexivity | eexists; reflexivity]
             | right; do 2 eexists;
               split; [cbn; rewrite <- ?app_assoc; reflexivity|];
               split; congruence ].
Qed.

Lemma Unmount_command target (s : State W) :
  exists evs result,
    did (R:=reply) (mounter.Unmount target s) s evs result
    /\ one_command evs result "umount" [target]
    /\ (target = "" -> evs = []).
Proof.
  unfold mounter.Unmount.
  destruct (String.eqb target "") eqn:Et.
  all: mounter_run.
  all: try (split; [left; split; [reflexivity | eexists; reflexivity]
                   | intros; reflexivity]).
  all: split; [ | intros ?; congruence ].
  all: right; do 2 eexists; split; [reflexivity|]; split; congruence.
Qed.

Lemma Format_command source fsType (s : State W) :
  exists evs result,
    did (R:=reply) (mounter.Format source fsType s) s evs result
    /\ one_command evs result ("mkfs." +:+ fsType)
         (if String.eqb fsType "ext4" || String.eqb fsType "ext3"
          then ["-F"; source] else [source])
    /\ (fsType = "" \/ source = "" -> omap sel_CombinedOutput evs = []).
Proof.
  unfold mounter.Format.
  destruct (String.eqb fsType "") eqn:Ef;
    [|destruct (String.eqb source "") eqn:Es].
  all: unfold did, one_command, bind, call, ret; cbn.
  all: repeat match goal with
         | |- context [sys.respond ?A ?c ?w] =>
             let a := fresh "a" in
             let w' := fresh "w" in
             destruct (sys.respond A c w) as [a w']; cbn
         | |- context [match ?x with _ => _ end] =>
             is_var x; destruct x; cbn
         | |- context [if is_execErrNotFound ?e then _ else _] =>
             destruct (is_execErrNotFound e); cbn
         end.
  all: string_tests; subst.
  all: do 2 eexists;
    (split; [split; [reflexivity|];
             split; [first [ symmetry; apply app_nil_r
                           | repeat rewrite <- app_assoc; cbn; reflexivity ]
                    | reflexivity ] |]).
  all: try (split; [left; split; [reflexivity | eexists; reflexivity]
                   | intros; reflexivity]).
  all: split; [ | intros [?|?]; congruence ].
  all: right; do 2 eexists; split; [reflexivity|]; split; congruence.
Qed.

Lemma EnsureFolder_command target (s : State W) :
  exists evs result,
    did (R:=reply) (mounter.EnsureFolder target s) s evs result
    /\ one_command evs result "mkdir" ["-p"; target].
Proof.
  unfold mounter.EnsureFolder.
  mounter_run.
  all: first [ left; split; [reflexivity | eexists; reflexivity]
             | right; do 2 eexists; split; [reflexivity|]; split; congruence ].
Qed.

(** X14. The functions of the mounter that run a command run at most
    one, the expected one: "mount" with "-t" and the filesystem type, the
    options after "-o" when there are any, the source and the target;
    "umount" with the target; "mkfs." followed by the filesystem type
    with the source, after "-F" for ext3 and ext4; "mkdir -p" with the
    target. Each succeeds exactly when its command was run and
    succeeded. With an empty source, target or filesystem type, [Mount],
    [MountBlock] and [Unmount] do nothing at all and [Format] runs no
    command. *)
Theorem mounter_commands (s : State W) :
  (forall source target fsType opts,
      exists evs result,
        did (R:=reply) (mounter.Mount source target fsType opts s) s evs result
        /\ one_command evs result "mount"
             (["-t"; fsType] ++ mounter.option_args opts ++ [source; target])
        /\ (fsType = "" \/ source = "" \/ target = "" -> evs = []))
  /\ (forall source target opts,
        exists evs result,
          did (R:=reply) (mounter.MountBlock source target opts s) s evs result
          /\ one_command evs result "mount"
               (mounter.option_args opts ++ [source; target])
          /\ (source = "" \/ target = "" -> evs = []))
  /\ (forall target,
        exists evs result,
          did (R:=reply) (mounter.Unmount target s) s evs result
          /\ one_command evs result "umount" [target]
          /\ (target = "" -> evs = []))
  /\ (forall source fsType,
        exists evs result,
          did (R:=reply) (mounter.Format source fsType s) s evs result
          /\ one_command evs result ("mkfs." +:+ fsType)
               (if String.eqb fsType "ext4" || String.eqb fsType "ext3"
                then ["-F"; source] else [source])
          /\ (fsType = "" \/ source = "" -> omap sel_CombinedOutput evs = []))
  /\ (forall target,
        exists evs result,
          did (R:=reply) (mounter.EnsureFolder target s) s evs result
          /\ one_command evs result "mkdir" ["-p"; target]).
Proof.
  split; [intros; apply Mount_command|].
  split; [intros; apply MountBlock_command|].
  split; [intros; apply Unmount_command|].
  split; [intros; apply Format_command | intros; apply EnsureFolder_command].
Qed.

(** X15. [EnsureBlock] removes nothing but a directory at the target:
    a removal is of the target, after [Lstat] has succeeded and found a
    directory. It succeeds exactly when the file at the target was
    opened and closed without error; and when [Lstat] fails with an
    error other than that the target does not exist, it passes that
    error on and creates and removes nothing. *)
Theorem EnsureBlock_removes_only_a_directory target (s : State W) :
  exists evs result,
    did (R:=reply) (mounter.EnsureBlock target s) s evs result
    /\ (forall p a, (p, a) ∈ omap sel_Remove evs ->
          p = target /\ (target, (true, None)) ∈ omap sel_Lstat evs)
    /\ (result = None <-> (target, None) ∈ omap sel_Close evs)
    /\ (forall isDir e,
          (target, (isDir, Some e)) ∈ omap sel_Lstat evs ->
          os_IsNotExist e = false ->
          result = Some (Passed e) /\ Forall (fun ev => changes ev = false) evs).
Proof.
  unfold mounter.EnsureBlock, mounter.create_block.
  unfold did, bind, call, ret; cbn.
  repeat sys_step.
  all: string_tests.
  all: do 2 eexists;
    (split; [split; [reflexivity|];
             split; [repeat rewrite <- app_assoc; cbn; reflexivity
                    | reflexivity ] |]).
  all: cbn.
  all: split; [intros ? ? Hin; elem_of_list Hin; simplify_eq;
               (split; [reflexivity | apply list_elem_of_here])|].
  all: split;
    [ split; [ intros Hr; first [ discriminate Hr | apply list_elem_of_here ]
             | intros Hin; elem_of_list Hin; simplify_eq; reflexivity ] | ].
  all: intros ? ? Hin Hne; elem_of_list Hin; simplify_eq.
  all: try congruence.
  all: split; [reflexivity | repeat constructor].
Qed.

End MounterCommands.

(** ** Unpublish *)

Section Unpublish.
Import node sys.
Local Arguments strings.Join : simpl never.
Local Arguments strings.Split : simpl never.
Local Arguments strings.HasPrefix : simpl never.
Local Arguments String.eqb : simpl never.
Local Arguments String.append : simpl never.
Local Arguments Nat.ltb : simpl never.

Context {W : Type} {C : System (W:=W)}.
Variable L : Lib.

(** The path is the global mount path of a volume under the kubelet
    directory of the container service, it was found to be a mount
    point, and no other mount refers to it. *)
Definition duplicate (evs : list Event) (p : string) : Prop :=
  exists volume refs,
    p = ens_pod.globalPath2 L volume
    /\ (p, (false, None)) ∈ omap sel_IsLikelyNotMountPoint evs
    /\ (p, (refs, None)) ∈ omap sel_GetMountRefs evs
    /\ (p, refs, false) ∈ omap sel_HasMountRefs evs.

Lemma duplicate_app pre evs post p :
  duplicate evs p -> duplicate (pre ++ evs ++ post) p.
Proof.
  intros (volume & refs & Hp & H1 & H2 & H3).
  exists volume, refs. rewrite !omap_app, !elem_of_app. auto 10.
Qed.

Lemma duplicate_cons ev evs p : duplicate evs p -> duplicate (ev :: evs) p.
Proof.
  intros H. apply (duplicate_app [ev] evs []) in H.
  rewrite app_nil_r in H. exact H.
Qed.

(** What [unmountDuplicateMountPoint] does, from any state on. *)
Lemma unmountDuplicateMountPoint_spec {R} targetPath (s : State W) :
  let r := ens_pod.unmountDuplicateMountPoint (R:=R) L targetPath s in
  exists evs result,
    r.1 = Next result
    /\ trace r.2 = trace s ++ evs
    /\ omap sel_Remove evs = []
    /\ (forall p a, (p, a) ∈ omap sel_k8s_Unmount evs ->
          duplicate evs p /\ (is_Some a <-> result = Some (Status Internal)))
    /\ (result = None
        \/ result = Some (Status Internal)
           /\ exists p e, (p, Some e) ∈ omap sel_k8s_Unmount evs)
    /\ (last (strings.Split targetPath "/") <> Some "mount" -> evs = []).
Proof.
  unfold ens_pod.unmountDuplicateMountPoint.
  destruct (Nat.ltb 2 (length (strings.Split targetPath "/"))
            && String.eqb
                 (default ""
                    (strings.Split targetPath "/"
                     !! (length (strings.Split targetPath "/") - 1))) "mount")
    eqn:Hmount.
  all: unfold bind, call, ret; cbn.
  all: repeat sys_step.
  all: repeat match goal with
              | E : negb ?b = _ |- _ =>
                  is_var b; destruct b; try discriminate E; clear E
              end.
  all: do 2 eexists; split; [reflexivity|].
  all: split; [first [ symmetry; apply app_nil_r
                     | repeat rewrite <- app_assoc; cbn; reflexivity ]|].
  all: cbn.
  all: split; [reflexivity|].
  all: split;
    [ intros ? ? Hin; elem_of_list Hin; simplify_eq;
      (split;
       [ do 2 eexists; split; [reflexivity|];
         split; [apply list_elem_of_here|];
         split; apply list_elem_of_here
       | split; [intros [? ?]; first [reflexivity | discriminate]
                | intros ?; first [eexists; reflexivity | discriminate] ] ]) | ].
  all: split;
    [ first [ left; reflexivity
            | right; split; [reflexivity|]; do 2 eexists; apply list_elem_of_here ] | ].
  all: intros Hlast; try reflexivity.
  all: exfalso; apply Hlast.
  all: apply andb_true_iff in Hmount; destruct Hmount as [_ Heq].
  all: apply String.eqb_eq in Heq.
  all: rewrite last_lookup.
  all: destruct (strings.Split targetPath "/" !! _) eqn:Hl in Heq |- *;
    cbn in Heq; [subst; rewrite <- Hl; f_equal; lia | discriminate Heq].
Qed.

(** X16. [unmountDuplicateMountPoint] unmounts nothing but the duplicate
    of the global mount: what it unmounts is the global mount path, under
    the kubelet directory of the container service, of a volume, after
    that path was found to be a mount point to which no other mount
    refers. It removes nothing, it fails, with Internal, exactly when
    that unmount fails, and for a target whose last element is not
    "mount" it makes no call. *)
Theorem unmountDuplicateMountPoint_unmounts_the_duplicate targetPath w h :
  let rs := run (R:=option error)
              (ens_pod.unmountDuplicateMountPoint L targetPath) w h in
  omap sel_Remove (trace rs.2) = []
  /\ (forall p a, (p, a) ∈ omap sel_k8s_Unmount (trace rs.2) ->
        duplicate (trace rs.2) p
        /\ (is_Some a <-> rs.1 = Some (Some (Status Internal))))
  /\ (rs.1 = Some None
      \/ rs.1 = Some (Some (Status Internal))
         /\ exists p e, (p, Some e) ∈ omap sel_k8s_Unmount (trace rs.2))
  /\ (last (strings.Split targetPath "/") <> Some "mount" -> trace rs.2 = []).
Proof.
  intros rs. subst rs. unfold run.
  pose proof (unmountDuplicateMountPoint_spec (R:=option error) targetPath
                (mkState w h []))
    as (evs & result & Hr & Htr & Hrm & Hun & Hres & Hnone).
  destruct (ens_pod.unmountDuplicateMountPoint L targetPath (mkState w h []))
    as [r st]. cbn in Hr, Htr. subst r. cbn. rewrite Htr. cbn.
  split; [exact Hrm|]. split; [|split].
  - intros p a Hin. destruct (Hun p a Hin) as [Hd Ha]. split; [exact Hd|].
    rewrite Ha. split; [intros ->; reflexivity | intros [=]; assumption].
  - destruct Hres as [->|[-> Hex]]; [left; reflexivity | right; auto].
  - exact Hnone.
Qed.

Local Arguments ens_pod.unmountDuplicateMountPoint : simpl never.

Ltac duplicate_step :=
  match goal with
  | |- context [ens_pod.unmountDuplicateMountPoint (R:=?R0) ?L0 ?t ?s] =>
      let Hd := fresh "Hd" in
      let r := fresh "r" in
      let wd := fresh "wd" in
      let hd := fresh "hd" in
      let trd := fresh "trd" in
      let evs := fresh "evs" in
      let result := fresh "result" in
      let Hr := fresh "Hr" in
      let Htr := fresh "Htr" in
      let Hrm := fresh "Hrm" in
      let Hun := fresh "Hun" in
      let Hres := fresh "Hres" in
      pose proof (unmountDuplicateMountPoint_spec (R:=R0) t s) as Hd;
      cbv zeta in Hd;
      destruct (ens_pod.unmountDuplicateMountPoint (R:=R0) L0 t s)
        as [r [wd hd trd]];
      cbn in Hd;
      destruct Hd as (evs & result & Hr & Htr & Hrm & Hun & Hres & _);
      subst r trd; cbn
  end.

(** The target was unmounted, or it is not a directory, lies under the
    directory of the block volumes, and was found not mounted. *)
Definition removable (prefix : string) (target : string) (tr : list Event) : Prop :=
  (target, None) ∈ omap sel_k8s_Unmount tr
  \/ ((target, (true, None)) ∈ omap sel_IsLikelyNotMountPoint tr
      /\ (target, false) ∈ omap sel_IsDir tr
      /\ strings.HasPrefix target prefix = true).

(** X17. Unpublish of pkg/ens removes only what it has unmounted: a
    removal is of the target, after the unmount of the target went
    through, or when the target was found not mounted, is not a
    directory and lies under the directory of the block volumes (a
    directory that is not mounted is never removed). An unmount is of
    the target, after it was found mounted, or of the duplicate of the
    global mount. The call succeeds or fails with Internal. *)
Theorem ens_unpublish_removes_only_unmounted (req : NodeUnpublishVolumeRequest) w h :
  let rs := run (ens_pod.NodeUnpublishVolume L req) w h in
  let target := unpublish_TargetPath req in
  (forall p a, (p, a) ∈ omap sel_Remove (trace rs.2) ->
      p = target /\ removable (ens_pod.BLOCK_VOLUME_PREFIX L) target (trace rs.2))
  /\ (forall p a, (p, a) ∈ omap sel_k8s_Unmount (trace rs.2) ->
        (p = target
         /\ (target, (false, None)) ∈ omap sel_IsLikelyNotMountPoint (trace rs.2))
        \/ duplicate (trace rs.2) p)
  /\ (rs.1 = Some OK \/ rs.1 = Some (Fail (Status Internal))).
Proof.
  intros rs target. subst target. name_run.
  unfold ens_pod.NodeUnpublishVolume, mounter.IsDirEmpty, ens_pod.fail_if.
  unfold run, bind, call, ret, exit, panic; cbn.
  repeat first [duplicate_step | sys_step].
  all: intros ->; cbn.
  all: repeat match goal with
              | E : negb ?b = _ |- _ =>
                  is_var b; destruct b; try discriminate E; clear E
              end.
  all: string_tests.
  all: rewrite ?omap_app; cbn; rewrite ?Hrm; cbn.
  all: split;
    [ intros ? ? Hin; elem_of_list Hin; simplify_eq;
      (split; [reflexivity|]); unfold removable; rewrite ?omap_app; cbn;
      first [ left; in_trace | right; split; [in_trace|]; split; [in_trace|assumption] ]
    | ].
  all: split; [|auto].
  all: intros p a' Hin; repeat (apply elem_of_app in Hin; destruct Hin as [Hin|Hin]);
    elem_of_list Hin; simplify_eq.
  all: try (left; split; [reflexivity|]; rewrite ?omap_app; cbn; in_trace).
  all: right.
  all: match goal with
       | Hun : forall p a, (p, a) ∈ omap sel_k8s_Unmount ?evs -> _,
         Hin : (_, _) ∈ omap sel_k8s_Unmount ?evs |- _ =>
           destruct (Hun _ _ Hin) as [Hdup _]
       end.
  all: repeat apply duplicate_cons; exact Hdup.
Qed.

(** X18. Unpublish of pkg/disk removes only what it has unmounted: a
    removal is of the target, after the unmount of the target went
    through, or when the target was found not mounted, is not a
    directory and lies under the directory of the block volumes; or it
    is of the file of the runtime under a target that is not mounted
    and belongs to a runv pod, in the mixed runtime mode. Only the
    target is unmounted, after it was found mounted; and for a target
    that does not exist the call succeeds and changes nothing. *)
Theorem disk_unpublish_removes_only_unmounted (cfg : disk.GlobalConfig)
    (req : NodeUnpublishVolumeRequest) w h :
  let rs := run (disk_pod.NodeUnpublishVolume L cfg req) w h in
  let target := unpublish_TargetPath req in
  (forall p a, (p, a) ∈ omap sel_Remove (trace rs.2) ->
      (p = target /\ removable (disk.BLOCKVOLUMEPREFIX L) target (trace rs.2))
      \/ (p = filepath_Join L target (CsiPluginRunTimeFlagFile L)
          /\ disk.RunTimeClass cfg = disk.MixRunTimeMode
          /\ (target, (true, None)) ∈ omap sel_IsLikelyNotMountPoint (trace rs.2)
          /\ (target, true) ∈ omap sel_IsMountPointRunv (trace rs.2)))
  /\ (forall p a, (p, a) ∈ omap sel_k8s_Unmount (trace rs.2) ->
        p = target
        /\ (target, (false, None)) ∈ omap sel_IsLikelyNotMountPoint (trace rs.2))
  /\ (omap sel_IsLikelyNotMountPoint (trace rs.2) = [] ->
      rs.1 = Some OK /\ Forall (fun ev => changes ev = false) (trace rs.2)).
Proof.
  intros rs target. subst target. name_run.
  unfold disk_pod.NodeUnpublishVolume, disk_pod.fail_if.
  unfold run, bind, call, ret, exit, panic; cbn.
  repeat sys_step.
  all: intros ->; cbn.
  all: repeat match goal with
              | E : negb ?b = _ |- _ =>
                  is_var b; destruct b; try discriminate E; clear E
              end.
  all: string_tests.
  all: split;
    [ intros ? ? Hin; elem_of_list Hin; simplify_eq;
      first [ left; (split; [reflexivity|]); unfold removable; cbn;
              first [ left; in_trace
                    | right; split; [in_trace|]; split; [in_trace|assumption] ]
            | right; (split; [reflexivity|]); (split; [assumption|]);
              split; in_trace ]
    | ].
  all: split;
    [ intros ? ? Hin; elem_of_list Hin; simplify_eq;
      (split; [reflexivity | in_trace]) | ].
  all: intros Hnone; try discriminate Hnone.
  all: split; [reflexivity | repeat constructor].
Qed.

End Unpublish.

(** ** Publish of pkg/ens *)

Section Slices.

(** Reading the elements of a slice after writes into its array. *)

Lemma take_insert_snoc (l : list string) n x :
  n < length l -> take (S n) (<[n:=x]> l) = take n l ++ [x].
Proof.
  revert n. induction l as [|y l IH]; intros [|n] Hn; cbn in *; try lia.
  - rewrite take_0. reflexivity.
  - f_equal. apply IH. lia.
Qed.

Lemma take_insert_snoc2 (l : list string) n x y :
  S n < length l ->
  take (S (S n)) (<[S n:=y]> (<[n:=x]> l)) = take n l ++ [x; y].
Proof.
  revert n. induction l as [|z l IH]; intros [|n] Hn; cbn in *; try lia.
  - destruct l; cbn in *; [lia|]. rewrite take_0. reflexivity.
  - f_equal. apply IH. lia.
Qed.

Lemma insert_over (l : list string) n x y z :
  <[n:=x]> (<[S n:=y]> (<[n:=z]> l)) = <[S n:=y]> (<[n:=x]> l).
Proof.
  rewrite (list_insert_insert_ne _ n (S n)) by lia.
  rewrite list_insert_insert_eq. reflexivity.
Qed.

Lemma take_app_snoc (l r : list string) n x :
  length l = n -> take (S n) (l ++ x :: r) = l ++ [x].
Proof.
  intros <-. induction l; cbn; [rewrite take_0; reflexivity | f_equal; assumption].
Qed.

Lemma take_app_snoc2 (l r : list string) n x y :
  length l = n -> 0 < length r ->
  take (S (S n)) (<[S n:=y]> (l ++ x :: r)) = l ++ [x; y].
Proof.
  intros <- Hr. induction l; cbn.
  - destruct r; cbn in *; [lia|]. rewrite take_0. reflexivity.
  - f_equal. assumption.
Qed.

Lemma take_app_snoc3 (l r r' : list string) n x y :
  length l = n ->
  take (S (S n)) (take (S n) (l ++ x :: r) ++ y :: r') = l ++ [x; y].
Proof.
  intros Hl. rewrite (take_app_snoc l r n x Hl).
  rewrite (take_app_snoc (l ++ [x]) r' (S n) y).
  - rewrite <- app_assoc. reflexivity.
  - rewrite length_app. cbn. lia.
Qed.

End Slices.

Section EnsPublish.
Import node sys.
Local Arguments strings.Join : simpl never.
Local Arguments strings.Split : simpl never.
Local Arguments strings.HasPrefix : simpl never.
Local Arguments String.eqb : simpl never.
Local Arguments String.append : simpl never.
Local Arguments Nat.ltb : simpl never.
Local Arguments mountopts.collectMountOptions : simpl never.

Context {W : Type} {C : System (W:=W)}.
Variable L : Lib.
Variable growslice : nat -> nat -> nat.

(** The target of the request is left mounted: it was found mounted, or
    the bind mount of the block device went through, or the staging path
    holds the device of the volume, the IO limit was set on it and the
    mount of the staging path onto the target went through. *)
Definition ens_published (req : NodePublishVolumeRequest) (tr : list Event) : Prop :=
  let target := publish_TargetPath req in
  let staging := publish_StagingTargetPath req in
  (exists e, (target, (false, e)) ∈ omap sel_IsLikelyNotMountPoint tr)
  \/ match publish_VolumeCapability req with
     | Some Block =>
         exists out,
           ("mount",
            ["-o"; "bind"; filepath_Join L staging (publish_VolumeId req); target],
            (out, None))
           ∈ omap sel_CombinedOutput tr
     | Some (MountVolume FsType _) =>
         exists device options,
           device <> ""
           /\ (publish_VolumeId req, device) ∈ omap sel_getVolumeDeviceName tr
           /\ last (omap sel_GetDeviceNameFromMount tr) = Some (staging, (device, None))
           /\ (device, req, None) ∈ omap sel_ApplyConfig tr
           /\ last (omap sel_k8s_Mount tr)
              = Some (staging, target, ens_pod.fsTypeOf FsType, options, None)
     | None => False
     end.

(** X19. A Publish of pkg/ens that succeeds leaves the target mounted:
    the target was found mounted; or, for a block volume, the command
    "mount -o bind" of the device file onto the target succeeded; or,
    for a filesystem, the device that the staging path showed last is
    the device expected for the volume and has a name, the IO limit was
    set on it, and the last mount, of the staging path onto the target
    with the filesystem type of the request, went through. *)
Theorem ens_publish_success (req : NodePublishVolumeRequest) w h :
  let rs := run (ens_pod.NodePublishVolume L growslice req) w h in
  rs.1 = Some OK -> ens_published req (trace rs.2).
Proof.
  destruct req as [volumeId staging target [[|FsType [arr n c]]|] ctx readonly].
  all: intros rs; name_run.
  all: unfold ens_pod.NodePublishVolume, ens_pod.mountDeviceToGlobal,
    mounter.EnsureBlock, mounter.create_block, mounter.MountBlock,
    ens_pod.fail_if.
  all: unfold run, bind, call, ret, exit, panic, append, read; cbn.
  all: repeat sys_step.
  all: intros ->; cbn; intros Hok; try discriminate Hok.
  all: repeat match goal with
              | E : negb ?b = _ |- _ =>
                  is_var b; destruct b; try discriminate E; clear E
              end.
  all: string_tests.
  all: unfold ens_published; cbn.
  all: first [ left; eexists; in_trace
             | right; eexists; in_trace
             | right; subst; do 2 eexists;
               split; [eassumption|];
               split; [in_trace|];
               split; [reflexivity|];
               split; [in_trace|reflexivity]
             | idtac ].
Qed.

(** The staging path showed no device when it was looked at first: it
    is mounted again before the target is. *)
Definition remounted (tr : list Event) : bool :=
  match head (omap sel_GetDeviceNameFromMount tr) with
  | Some (_, (device, None)) => String.eqb device ""
  | _ => false
  end.

(** The options of the mount onto the target: the flags of the request,
    "bind", and "ro" for a read-only volume. When the staging path is
    mounted again, "shared" is appended to the flags after "bind" was,
    and takes its place where both are written to the array of the
    flags. *)
Definition bind_options (flags : list string) (spare : nat)
    (readonly again : bool) : list string :=
  let overwritten :=
    again && (if readonly then Nat.leb 2 spare else Nat.leb 1 spare) in
  (flags ++ [if overwritten then "shared" else "bind"])
  ++ (if readonly then ["ro"] else []).

(** X20. The options of the mount onto the target in Publish of
    pkg/ens. The mount flags of the request are a slice of length [len]
    in an array [a] with capacity [cap]. When the call succeeds after a
    mount, the last mount is that of the staging path onto the target,
    with the flags followed by "bind", and by "ro" for a read-only
    volume; except that "shared" stands in the place of "bind" when the
    staging path showed no device and was mounted again, and the array
    of the flags has room for the options (one more element, two for a
    read-only volume): both lists of options are appended to the flags
    of the request and are then written to the same array. *)
Theorem ens_publish_bind_options (req : NodePublishVolumeRequest)
    FsType flags a w h :
  publish_VolumeCapability req = Some (MountVolume FsType flags) ->
  h !! array flags = Some a ->
  len flags <= cap flags <= length a ->
  let rs := run (ens_pod.NodePublishVolume L growslice req) w h in
  rs.1 = Some OK ->
  forall x,
    last (omap sel_k8s_Mount (trace rs.2)) = Some x ->
    x = (publish_StagingTargetPath req, publish_TargetPath req,
         ens_pod.fsTypeOf FsType,
         bind_options (take (len flags) a) (cap flags - len flags)
                      (publish_Readonly req) (remounted (trace rs.2)),
         None).
Proof.
  destruct req as [volumeId staging target cap0 ctx readonly].
  intros Hcap Ha Hwf. cbn in Hcap. subst cap0.
  destruct flags as [arr n c]. cbn in Ha, Hwf.
  intros rs; name_run.
  unfold ens_pod.NodePublishVolume, ens_pod.mountDeviceToGlobal,
    ens_pod.fail_if.
  unfold run, bind, call, ret, exit, panic, append, read; cbn.
  repeat sys_step.
  all: intros ->; cbn; intros Hok; try discriminate Hok.
  all: intros x Hx; try discriminate Hx.
  all: injection Hx as <-.
  all: unfold remounted, bind_options; cbn.
  all: assert (Harr : arr < length h) by (eapply lookup_lt_Some; eassumption).
  all: repeat match goal with
              | E : negb ?b = _ |- _ =>
                  is_var b; destruct b; try discriminate E; clear E
              | E : Nat.ltb _ _ = true |- _ => apply Nat.ltb_lt in E
              | E : Nat.ltb _ _ = false |- _ => apply Nat.ltb_ge in E
              end.
  all: repeat match goal with
              | E : String.eqb ?x "" = _ |- context [String.eqb ?x ""] =>
                  rewrite E
              end; cbn.
  all: repeat first
         [ rewrite list_lookup_alter_eq
         | rewrite list_lookup_alter_ne
             by (rewrite ?length_alter, ?length_app, ?length_alter; cbn [length]; lia)
         | rewrite lookup_app_l
             by (rewrite ?length_alter, ?length_app, ?length_alter; cbn [length]; lia)
         | rewrite list_lookup_middle
             by (rewrite ?length_alter, ?length_app, ?length_alter; cbn [length];
                 first [reflexivity | lia])
         | rewrite alter_app_l
             by (rewrite ?length_alter, ?length_app, ?length_alter; cbn [length]; lia) ].
  all: rewrite ?Ha; cbn [fmap list_fmap option_fmap option_map default].
  all: unfold id.
  all: rewrite ?list_insert_insert_eq, ?insert_over, ?list_insert_insert_eq.
  all: repeat first
         [ rewrite take_app_snoc3 by (apply length_take_le; lia)
         | rewrite take_insert_snoc2 by (rewrite ?length_insert; lia)
         | rewrite take_insert_snoc by (rewrite ?length_insert; lia)
         | rewrite take_app_snoc2
             by first [ apply length_take_le; lia
                      | rewrite length_replicate; lia ]
         | rewrite take_app_snoc
             by first [ apply length_take_le; lia
                      | rewrite length_app, length_take_le by lia; cbn; lia ]
         | rewrite take_app_length'
             by (symmetry; apply length_take_le; lia) ].
  all: try match goal with
           | |- context [match ?c - ?n with _ => _ end] =>
               let Hcn := fresh "Hcn" in
               destruct (c - n) as [|[|?]] eqn:Hcn; try lia
           end.
  all: rewrite <- ?app_assoc; cbn.
  all: reflexivity.
Qed.

(** X21. The commands of Publish of pkg/ens: a command is run only for
    a block volume whose target was found not mounted, it is "mount -o
    bind" of StagingTargetPath/VolumeId onto the target, neither of
    which is empty, and at most one command is run; what is removed is
    the target, after [Lstat] found a directory there. *)
Theorem ens_publish_block_command (req : NodePublishVolumeRequest) w h :
  let rs := run (ens_pod.NodePublishVolume L growslice req) w h in
  let target := publish_TargetPath req in
  let source :=
    filepath_Join L (publish_StagingTargetPath req) (publish_VolumeId req) in
  (forall name args a,
      (name, args, a) ∈ omap sel_CombinedOutput (trace rs.2) ->
      publish_VolumeCapability req = Some Block
      /\ name = "mount" /\ args = ["-o"; "bind"; source; target]
      /\ source <> "" /\ target <> ""
      /\ exists e, (target, (true, e)) ∈ omap sel_IsLikelyNotMountPoint (trace rs.2))
  /\ (forall p a,
        (p, a) ∈ omap sel_Remove (trace rs.2) ->
        p = target /\ (target, (true, None)) ∈ omap sel_Lstat (trace rs.2))
  /\ length (omap sel_CombinedOutput (trace rs.2)) <= 1.
Proof.
  destruct req as [volumeId staging target [[|FsType [arr n c]]|] ctx readonly].
  all: intros rs target0 source; subst target0 source; name_run.
  all: unfold ens_pod.NodePublishVolume, ens_pod.mountDeviceToGlobal,
    mounter.EnsureBlock, mounter.create_block, mounter.MountBlock,
    ens_pod.fail_if.
  all: unfold run, bind, call, ret, exit, panic, append, read; cbn.
  all: repeat sys_step.
  all: intros ->; cbn.
  all: string_tests.
  all: (split; [|split; [|lia]]).
  all: try (intros ? ? ? Hin; elem_of_list Hin; simplify_eq;
            repeat (split; [first [reflexivity | assumption]|]);
            eexists; in_trace).
  all: intros ? ? Hin; elem_of_list Hin; simplify_eq.
  all: split; [reflexivity | in_trace].
Qed.

End EnsPublish.

Section EnsPublishExamples.
Import node sys scenarios pod_scenarios.

Lemma ens_publish_success_witness :
  ens_published golib.unix publish_request
    (trace (run (ens_pod.NodePublishVolume (C:=device_hidden) golib.unix doubling
                   publish_request) 0 three_flags).2).
Proof.
  refine (ens_publish_success (C:=device_hidden) golib.unix doubling
            publish_request 0 three_flags _).
  vm_compute. reflexivity.
Defined.

Lemma ens_publish_bind_options_witness :
  last (omap sel_k8s_Mount
          (trace (run (ens_pod.NodePublishVolume (C:=device_hidden) golib.unix
                         doubling publish_request) 0 three_flags).2))
  = Some (staging_path,
          "/var/lib/kubelet/pods/p/volumes/kubernetes.io~csi/pv-1/mount",
          "ext4", ["noatime"; "nodiratime"; "discard"; "shared"], None).
Proof.
  assert (Hx : exists x,
             last (omap sel_k8s_Mount
                     (trace (run (ens_pod.NodePublishVolume (C:=device_hidden)
                                    golib.unix doubling publish_request)
                               0 three_flags).2)) = Some x)
    by (vm_compute; eexists; reflexivity).
  destruct Hx as [x Hx]. rewrite Hx. f_equal.
  refine (eq_trans
            (ens_publish_bind_options (C:=device_hidden) golib.unix doubling
               publish_request "ext4" (mkSlice 0 3 4)
               ["noatime"; "nodiratime"; "discard"; ""] 0 three_flags
               eq_refl eq_refl _ _ x Hx) _).
  - cbn. lia.
  - vm_compute. reflexivity.
  - vm_compute. reflexivity.
Defined.

End EnsPublishExamples.

(** ** The configuration of the OpenAPI clients *)

Section OpenAPIConfig.
Import openapi.
Local Arguments strings.Contains : simpl never.

Variable Getenv : string -> string.

Lemma append_nonempty (a b : string) : b <> "" -> a +:+ b <> "".
Proof. destruct a; cbn; [auto | discriminate]. Qed.

Lemma getRegionalEndpoint_nonempty product network regionID :
  getRegionalEndpoint product network regionID <> Some "".
Proof.
  unfold getRegionalEndpoint.
  destruct (String.eqb network ""); [discriminate|].
  intros [=H]. revert H.
  repeat apply append_nonempty. discriminate.
Qed.

(** A field of the configuration is nil or holds a text that is not
    empty. *)
Definition set_or_nil (field : option string) : Prop := field <> Some "".

Lemma from_env_set name field :
  set_or_nil field -> set_or_nil (from_env Getenv name field).
Proof.
  unfold from_env, set_or_nil.
  destruct (String.eqb (Getenv name) "") eqn:E; cbn; [auto|].
  apply String.eqb_neq in E. congruence.
Qed.

(** The cases of the tests on the environment and on the region. *)
Ltac env_cases :=
  repeat match goal with
         | |- context [String.eqb ?x ?y] =>
             lazymatch x with
             | Getenv _ => idtac
             | _ => is_var x
             end;
             destruct (String.eqb_spec x y); cbn
         end.

Ltac config_facts :=
  repeat match goal with
         | |- _ /\ _ => split
         | |- _ <-> _ => split
         | |- _ -> _ => intro
         | H : _ /\ _ |- _ => destruct H
         | H : _ \/ _ |- _ => destruct H
         | H : Some _ = Some _ |- _ => injection H as H
         | H : ?a +:+ _ = "" |- _ =>
             exfalso; revert H; repeat apply append_nonempty; discriminate
         end;
  try congruence; try discriminate; auto.

(** X22. The configuration of the ECS client: the region is the one
    given, and no field holds an empty text. ECS_ENDPOINT, when set, is
    the endpoint. Otherwise the endpoint is left to the SDK exactly
    when no network type is set or the region is cn-hangzhou-finance;
    else it is the regional endpoint "ecs.<region>.aliyuncs.com" for
    the network type "public" and "ecs-<network>.<region>.aliyuncs.com"
    for any other. *)
Theorem GetEcsConfig_endpoint (regionID : string) :
  let config := GetEcsConfig Getenv regionID in
  let network := Getenv "ALIBABA_CLOUD_NETWORK_TYPE" in
  RegionId config = Some regionID
  /\ set_or_nil (Protocol config) /\ set_or_nil (Network config)
  /\ set_or_nil (Endpoint config)
  /\ (Getenv "ECS_ENDPOINT" <> "" -> Endpoint config = Some (Getenv "ECS_ENDPOINT"))
  /\ (Endpoint config = None
      <-> Getenv "ECS_ENDPOINT" = ""
          /\ (network = "" \/ regionID = "cn-hangzhou-finance"))
  /\ (Getenv "ECS_ENDPOINT" = "" -> network <> "" ->
      regionID <> "cn-hangzhou-finance" ->
      Endpoint config
      = Some (if String.eqb network "public"
              then "ecs." +:+ regionID +:+ ".aliyuncs.com"
              else "ecs-" +:+ network +:+ "." +:+ regionID +:+ ".aliyuncs.com")).
Proof.
  intros config network. subst config network.
  unfold GetEcsConfig, getOpenAPIConfig, from_env, set_or_nil,
    getRegionalEndpoint. cbn.
  env_cases.
  all: config_facts.
Qed.

(** X23. The configuration of the Eflo controller client: the region is
    EFLO_CONTROLLER_REGION when that is set, else the one given; no
    field holds an empty text, and the endpoint is always set (with no
    endpoint and no network type in the environment it is
    "eflo-controller.<region>.aliyuncs.com"). The protocol is "http"
    exactly when ALICLOUD_CLIENT_SCHEME says so, or is not set while
    the region contains "test". *)
Theorem GetEfloControllerConfig_endpoint (regionID : string) :
  let config := GetEfloControllerConfig Getenv regionID in
  let region :=
    if String.eqb (Getenv "EFLO_CONTROLLER_REGION") "" then regionID
    else Getenv "EFLO_CONTROLLER_REGION" in
  RegionId config = Some region
  /\ set_or_nil (Protocol config) /\ set_or_nil (Network config)
  /\ (exists endpoint, Endpoint config = Some endpoint /\ endpoint <> "")
  /\ (Getenv "EFLO_CONTROLLER_ENDPOINT" = "" ->
      Getenv "ALIBABA_CLOUD_NETWORK_TYPE" = "" ->
      Endpoint config = Some ("eflo-controller." +:+ region +:+ ".aliyuncs.com"))
  /\ (Protocol config = Some "http"
      <-> Getenv "ALICLOUD_CLIENT_SCHEME" = "http"
          \/ (Getenv "ALICLOUD_CLIENT_SCHEME" = ""
              /\ strings.Contains region "test" = true)).
Proof.
  intros config region. subst config region.
  unfold GetEfloControllerConfig, getOpenAPIConfig, from_env, set_or_nil,
    getRegionalEndpoint. cbn.
  env_cases.
  all: repeat match goal with
              | |- context [strings.Contains ?r "test"] =>
                  destruct (strings.Contains r "test") eqn:?; cbn
              end.
  all: repeat match goal with
              | |- _ /\ _ => split
              end.
  all: try (eexists; split; [reflexivity|]; try assumption;
            repeat apply append_nonempty; discriminate).
  all: config_facts.
Qed.

End OpenAPIConfig.

(** ** Where Stage stops *)

Section StageStopsDevice.
Import node views.
Local Arguments strings.HasSuffix : simpl never.
Local Arguments String.eqb : simpl never.
Local Arguments String.append : simpl never.

Context {W : Type} {C : Collaborators (W:=W)}.
Variable L : Lib.

(** No look at a path found it mounted. *)
Definition none_mounted (evs : list Event) : Prop :=
  Forall (fun x => x.2.1 = true) (omap sel_IsLikelyNotMountPoint evs).

(** Every attach went through. *)
Definition all_attached (evs : list Event) : Prop :=
  Forall (fun x => x.2.2 = None) (omap sel_attachDisk evs).

(** The looks and the attach of the first part of Stage. *)
Lemma stage_device_looks (cfg : disk.GlobalConfig) (req : NodeStageVolumeRequest)
    (s : State W) :
  let r := disk.stage_device L cfg req s in
  exists evs,
    trace r.2 = trace s ++ evs
    /\ match r.1 with
       | Next _ => none_mounted evs /\ all_attached evs
       | Return rep =>
           (none_mounted evs \/ rep = OK tt \/ rep = Fail (Status Internal))
           /\ (all_attached evs \/ rep = Fail (Status Aborted))
       | Panic => True
       end.
Proof.
  unfold disk.stage_device, disk.stage_attach, disk.option_enabled,
    disk.fail_if, disk.pass_if.
  unfold bind, call, ret, exit, panic, log, get_files, put_files; cbn.
  repeat handler_step.
  all: eexists; split;
    [ repeat rewrite <- app_assoc; cbn; reflexivity | cbn ].
  all: unfold none_mounted, all_attached; cbn.
  all: repeat match goal with
              | E : negb ?b = _ |- _ =>
                  is_var b; destruct b; try discriminate E; clear E
              end.
  all: repeat split.
  all: first [ left; repeat constructor; fail
             | right; left; reflexivity
             | right; right; reflexivity
             | right; reflexivity
             | right; repeat constructor; fail
             | repeat constructor ].
Qed.

End StageStopsDevice.

Section StageStops.
Import node views.
Local Arguments strings.Contains : simpl never.
Local Arguments strings.HasPrefix : simpl never.
Local Arguments strings.HasSuffix : simpl never.
Local Arguments strings.Cut : simpl never.
Local Arguments strings.Split : simpl never.
Local Arguments strings.Join : simpl never.
Local Arguments String.eqb : simpl never.
Local Arguments String.append : simpl never.
Local Arguments Z.eqb : simpl never.
Local Arguments Nat.ltb : simpl never.
Local Arguments mountopts.collectMountOptions : simpl never.
Local Arguments disk.sysConfig_loop : simpl never.
Local Arguments ens.sysConfig_loop : simpl never.
Local Arguments disk.stage_device : simpl never.

Context {W : Type} {C : Collaborators (W:=W)}.
Variable L : Lib.

(** The writes of the loop look at no path, attach nothing, record
    nothing and mount nothing. *)
Lemma disk_written_looks device evs entries :
  Forall2 (disk_written device) evs entries ->
  omap sel_IsLikelyNotMountPoint evs = []
  /\ omap sel_attachDisk evs = []
  /\ omap sel_disk_saveVolumeConfig evs = []
  /\ Forall (fun ev => is_mount ev = false) evs.
Proof.
  induction 1 as [|ev entry evs entries [a ->] _ (IH1 & IH2 & IH3 & IH4)]; cbn.
  - repeat split; constructor.
  - repeat split; try constructor; auto.
Qed.

(** The same for the loop of pkg/ens. *)
Lemma ens_written_looks device evs entries :
  Forall2 (ens_written L device) evs entries ->
  omap sel_IsLikelyNotMountPoint evs = []
  /\ omap sel_ens_attachDisk evs = []
  /\ Forall (fun ev => is_mount ev = false) evs.
Proof.
  induction 1 as [|ev entry evs entries [a ->] _ (IH1 & IH2 & IH3)]; cbn.
  - repeat split; constructor.
  - repeat split; try constructor; auto.
Qed.

Ltac device_step :=
  match goal with
  | |- context [disk.stage_device ?L0 ?cfg ?req ?s] =>
      let Hd := fresh "Hd" in
      let Hk := fresh "Hk" in
      let r := fresh "r" in
      let wd := fresh "wd" in
      let fsd := fresh "fsd" in
      let trd := fresh "trd" in
      let evs1 := fresh "evs" in
      let Htr1 := fresh "Htr" in
      pose proof (stage_device_spec L0 cfg req s) as Hd; cbv zeta in Hd;
      pose proof (stage_device_looks L0 cfg req s) as Hk; cbv zeta in Hk;
      destruct (disk.stage_device L0 cfg req s) as [r [wd fsd trd]];
      cbn in Hd, Hk;
      destruct Hd as (Hf0 & evs0 & Htr0 & Hns0 & Hnw0 & Hnm0 & Hr0);
      destruct Hk as (evs1 & Htr1 & Hlooks);
      rewrite Htr0 in Htr1; try apply app_inv_head in Htr1; subst evs1;
      subst fsd trd;
      destruct r as [[targetPath device]|rep|]; cbn in Hr0, Hlooks |- *;
      [ | | destruct Hr0]
  end.

Ltac loop_step :=
  match goal with
  | |- context [disk.sysConfig_loop ?d ?l ?s] =>
      let Hl := fresh "Hloop" in
      let r := fresh "r" in
      let wl := fresh "wl" in
      let fsl := fresh "fsl" in
      let trl := fresh "trl" in
      pose proof (disk_sysConfig_loop_events d l s) as Hl;
      cbv zeta in Hl;
      destruct (disk.sysConfig_loop d l s) as [r [wl fsl trl]];
      cbn in Hl;
      destruct Hl as (Hr & Hfiles & evs & n & Htrace & Hevs);
      apply disk_written_looks in Hevs; destruct Hevs as (Hlk & Hat & Hsv & Hnm);
      subst fsl trl; destruct Hr as [Hr | Hr]; cbn in Hr; subst r; cbn
  end.

Ltac ens_loop_step :=
  match goal with
  | |- context [ens.sysConfig_loop ?L0 ?d ?l ?s] =>
      let Hl := fresh "Hloop" in
      let r := fresh "r" in
      let wl := fresh "wl" in
      let fsl := fresh "fsl" in
      let trl := fresh "trl" in
      pose proof (ens_sysConfig_loop_events L0 d l s) as Hl;
      cbv zeta in Hl;
      destruct (ens.sysConfig_loop L0 d l s) as [r [wl fsl trl]];
      cbn in Hl;
      destruct Hl as (Hr & Hfiles & evs & n & Htrace & Hevs);
      apply ens_written_looks in Hevs; destruct Hevs as (Hlk & Hat & Hnm);
      subst fsl trl; destruct Hr as [Hr | [e Hr]]; cbn in Hr; subst r; cbn
  end.

(** A membership in a list of segments and known elements, by cases. *)
Ltac elem_of_trace H :=
  repeat first
    [ apply elem_of_app in H; destruct H as [H|H]
    | apply elem_of_cons in H; destruct H as [H|H]
    | apply elem_of_nil in H; destruct H ].

(** X24. Where Stage of pkg/disk stops.  When a look at the target
    ([IsLikelyNotMountPoint]) answers that it is mounted, the call mounts
    and formats nothing and replies success or Internal.  When the attach
    of the disk fails, the reply is Aborted, no device is recorded for the
    volume and nothing is mounted or formatted. *)
Theorem disk_stage_stops (cfg : disk.GlobalConfig) (req : NodeStageVolumeRequest) w fs :
  let rs := run (disk.NodeStageVolume L cfg req) w fs in
  (forall p e,
      (p, (false, e)) ∈ omap sel_IsLikelyNotMountPoint (trace rs.2) ->
      Forall (fun ev => is_mount ev = false) (trace rs.2)
      /\ (rs.1 = Some (OK tt) \/ rs.1 = Some (Fail (Status Internal))))
  /\ (forall x,
        x ∈ omap sel_attachDisk (trace rs.2) -> is_Some x.2.2 ->
        rs.1 = Some (Fail (Status Aborted))
        /\ omap sel_disk_saveVolumeConfig (trace rs.2) = []
        /\ Forall (fun ev => is_mount ev = false) (trace rs.2)).
Proof.
  intros rs. name_run.
  unfold disk.NodeStageVolume, disk.fail_if, disk.pass_if.
  unfold run, bind, call, ret, exit, panic, log, get_files, put_files; cbn.
  repeat first [device_step | loop_step | access_step | handler_step].
  all: intros ->; cbn.
  all: repeat match goal with
              | E : negb ?b = _ |- _ =>
                  is_var b; destruct b; try discriminate E; clear E
              end.
  all: rewrite ?omap_app; cbn; rewrite ?Hlk, ?Hat, ?Hsv, ?Hns0; cbn.
  all: unfold none_mounted, all_attached in Hlooks;
    rewrite ?Forall_forall in Hlooks.
  all: split.
  all: try (intros ? ? Hin; elem_of_trace Hin; simplify_eq;
            try (destruct Hlooks as [Hlooks _];
                 first [ apply Hlooks in Hin; cbn in Hin; discriminate Hin
                       | destruct Hlooks as [Hlooks|Hlooks];
                         [ apply Hlooks in Hin; cbn in Hin; discriminate Hin | subst rep ] ]);
            (split;
             [ rewrite ?Forall_app;
               repeat first [ split | assumption | apply Forall_nil_2
                            | apply Forall_cons_2; [reflexivity|] ]
             | first [ left; reflexivity | right; reflexivity
                     | destruct Hlooks as [->| ->]; auto ] ])).
  all: try (intros ? Hin Hsome; elem_of_trace Hin; simplify_eq;
    destruct Hlooks as [_ Hlooks];
    first [ apply Hlooks in Hin; cbv beta in Hin; rewrite Hin in Hsome;
               destruct Hsome as [? Hs]; discriminate Hs
             | destruct Hlooks as [Hlooks|Hlooks];
               [ apply Hlooks in Hin; cbv beta in Hin; rewrite Hin in Hsome;
                 destruct Hsome as [? Hs]; discriminate Hs | subst rep ] ];
    (split; [reflexivity|]); split; assumption).
  - intros ? ? Hin. destruct Hlooks as [[Hlooks|Hlooks] _].
    + apply Hlooks in Hin; cbn in Hin; discriminate Hin.
    + split; [assumption|]. destruct Hlooks as [->| ->]; auto.
  - intros ? Hin Hsome. destruct Hlooks as [_ [Hlooks| ->]].
    + apply Hlooks in Hin; cbv beta in Hin; rewrite Hin in Hsome.
      destruct Hsome as [? Hs]; discriminate Hs.
    + repeat split; assumption.
Qed.

(** X25. Where Stage of pkg/ens stops.  When a look at the target
    ([IsLikelyNotMountPoint]) answers that it is mounted, the call mounts
    and formats nothing and replies success or Internal.  When the attach
    of the disk fails, the reply is Aborted, the records of the volumes
    are left as they were and nothing is mounted or formatted. *)
Theorem ens_stage_stops (cfg : ens.GlobalConfig) (req : NodeStageVolumeRequest) w fs :
  let rs := run (ens.NodeStageVolume L cfg req) w fs in
  (forall p e,
      (p, (false, e)) ∈ omap sel_IsLikelyNotMountPoint (trace rs.2) ->
      Forall (fun ev => is_mount ev = false) (trace rs.2)
      /\ (rs.1 = Some (OK tt) \/ rs.1 = Some (Fail (Status Internal))))
  /\ (forall x,
        x ∈ omap sel_ens_attachDisk (trace rs.2) -> is_Some x.2.2 ->
        rs.1 = Some (Fail (Status Aborted))
        /\ files rs.2 = fs
        /\ Forall (fun ev => is_mount ev = false) (trace rs.2)).
Proof.
  intros rs. name_run.
  unfold ens.NodeStageVolume, ens.saveVolumeConfig, ens.removeVolumeConfig,
    ens.store_IsFileExisting, ens.store_Rename, ens.store_WriteFile,
    ens.fail_if, ens.pass_if, live.
  unfold run, bind, call, ret, exit, panic, log, get_files, put_files; cbn.
  repeat first [ens_loop_step | access_step | handler_step].
  all: intros ->; cbn.
  all: repeat match goal with
              | E : negb ?b = _ |- _ =>
                  is_var b; destruct b; try discriminate E; clear E
              end.
  all: rewrite ?omap_app; cbn; rewrite ?Hlk, ?Hat; cbn.
  all: split.
  all: try (intros ? ? Hin; elem_of_trace Hin; simplify_eq;
            (split;
             [ rewrite ?Forall_app;
               repeat first [ split | assumption | apply Forall_nil_2
                            | apply Forall_cons_2; [reflexivity|]
                            | apply Forall_app_2 ]
             | first [ left; reflexivity | right; reflexivity ] ])).
  all: try (intros ? Hin Hsome; elem_of_trace Hin; simplify_eq;
            cbn in Hsome; try (destruct Hsome as [? Hs]; discriminate Hs);
            (split; [reflexivity|]); (split; [reflexivity|]);
            rewrite ?Forall_app;
            repeat first [ split | assumption | apply Forall_nil_2
                         | apply Forall_cons_2; [reflexivity|]
                         | apply Forall_app_2 ]).
Qed.

End StageStops.
